(** * tag-dummy: field and message codecs

    A shallow embedding of [field_codecs.py] and [message_codecs.py], of
    the methods of [Main] in [main.py] that interpret commands and answer
    messages, and of the outbound step of the loop in [userterminal.py],
    with the properties of the protocol specification checked against it.

    Python objects are values of [pyval]; a call that may raise returns a
    [result]; an iterator over a byte string is the list of bytes still to
    be read, threaded explicitly. *)

From Stdlib Require Import ZArith NArith QArith String Ascii Bool Lia List.
From Stdlib Require Import Strings.Byte.
From Equations Require Import Equations.
Import ListNotations.

Local Open Scope Z_scope.
Local Open Scope bool_scope.

Set Implicit Arguments.
Set Warnings "-register-all".

(** ** Exceptions and results *)

Inductive exn : Set :=
| ValueError | TypeError | KeyError | IndexError | AttributeError
| AssertionError | StopIteration | OverflowError | NameError
| UnicodeEncodeError | UnicodeDecodeError | JSONDecodeError | Exception.

Inductive result (A : Type) : Type :=
| Ok (a : A)
| Raise (e : exn).

Arguments Ok {A} a.
Arguments Raise {A} e.

Definition bind {A B} (m : result A) (k : A -> result B) : result B :=
  match m with
  | Ok a => k a
  | Raise e => Raise e
  end.

Notation "x <- m ;; k" := (bind m (fun x => k))
  (at level 61, m at next level, right associativity).
Notation "' p <- m ;; k" := (bind m (fun x => let 'p := x in k))
  (at level 61, p pattern, m at next level, right associativity).

Definition is_ok {A} (r : result A) : bool :=
  match r with Ok _ => true | Raise _ => false end.

Definition raises {A} (r : result A) : Prop :=
  exists e, r = Raise e.

(** ** Python values *)

(** A [str] is its sequence of Unicode code points. *)
Definition pystr := list N.

(** The fragment of Python's values the codecs handle.  A [float] is
    modelled by the rational number it denotes: binary64 rounding is outside
    the model.  A [dict] is the list of its items in insertion order. *)
Inductive pyval : Type :=
| PNone
| PBool (b : bool)
| PInt (n : Z)
| PFloat (q : Q)
| PStr (s : pystr)
| PBytes (b : list byte)
| PList (l : list pyval)
| PDict (d : list (pyval * pyval)).

Definition pydict := list (pyval * pyval).

(** An ASCII literal as a [str]. *)
Definition lit (s : string) : pystr :=
  map N_of_ascii (list_ascii_of_string s).

Definition NUL : N := 0%N.

Definition byte_to_Z (b : byte) : Z := Z.of_N (Byte.to_N b).

Definition byte_of_Z (n : Z) : option byte :=
  if n <? 0 then None else Byte.of_N (Z.to_N n).

Definition len {A} (l : list A) : Z := Z.of_nat (length l).

Fixpoint list_eqb {A} (eqb : A -> A -> bool) (l m : list A) : bool :=
  match l, m with
  | [], [] => true
  | x :: l', y :: m' => eqb x y && list_eqb eqb l' m'
  | _, _ => false
  end.

(** The number a numeric value denotes ([bool] is a subclass of [int]). *)
Definition as_num (v : pyval) : option Q :=
  match v with
  | PBool b => Some (inject_Z (Z.b2z b))
  | PInt n => Some (inject_Z n)
  | PFloat q => Some q
  | _ => None
  end.

(** Python's [==]. *)
Fixpoint py_eqb (a b : pyval) : bool :=
  match a, b with
  | PNone, PNone => true
  | PStr s, PStr t => list_eqb N.eqb s t
  | PBytes s, PBytes t => list_eqb Byte.eqb s t
  | PList l, PList m =>
      (fix all2 (l m : list pyval) : bool :=
         match l, m with
         | [], [] => true
         | x :: l', y :: m' => py_eqb x y && all2 l' m'
         | _, _ => false
         end) l m
  | PDict d, PDict e =>
      Nat.eqb (length d) (length e) &&
      (fix sub (d : pydict) : bool :=
         match d with
         | [] => true
         | (k, v) :: d' =>
             (fix mem (e : pydict) : bool :=
                match e with
                | [] => false
                | (k', v') :: e' => (py_eqb k k' && py_eqb v v') || mem e'
                end) e && sub d'
         end) d
  | (PBool _ | PInt _ | PFloat _), (PBool _ | PInt _ | PFloat _) =>
      match as_num a, as_num b with
      | Some x, Some y => Qeq_bool x y
      | _, _ => false
      end
  | _, _ => false
  end.

(** [bool(v)]. *)
Definition py_bool (v : pyval) : bool :=
  match v with
  | PNone => false
  | PBool b => b
  | PInt n => negb (n =? 0)
  | PFloat q => negb (Qeq_bool q 0)
  | PStr s => negb (Nat.eqb (length s) 0)
  | PBytes b => negb (Nat.eqb (length b) 0)
  | PList l => negb (Nat.eqb (length l) 0)
  | PDict d => negb (Nat.eqb (length d) 0)
  end.

(** [len(v)]. *)
Definition py_len (v : pyval) : result Z :=
  match v with
  | PStr s => Ok (len s)
  | PBytes b => Ok (len b)
  | PList l => Ok (len l)
  | PDict d => Ok (len d)
  | _ => Raise TypeError
  end.

(** ** Dictionaries *)

Fixpoint dict_lookup (d : pydict) (k : pyval) : option pyval :=
  match d with
  | [] => None
  | (k', v) :: d' => if py_eqb k' k then Some v else dict_lookup d' k
  end.

(** [k in d] *)
Definition dict_contains (d : pydict) (k : pyval) : bool :=
  match dict_lookup d k with Some _ => true | None => false end.

(** [d[k]] *)
Definition dict_getitem (d : pydict) (k : pyval) : result pyval :=
  match dict_lookup d k with Some v => Ok v | None => Raise KeyError end.

(** [d.get(k, default)] *)
Definition dict_get (d : pydict) (k default : pyval) : pyval :=
  match dict_lookup d k with Some v => v | None => default end.

(** [d[k] = v]: an existing key keeps its place. *)
Fixpoint dict_setitem (d : pydict) (k v : pyval) : pydict :=
  match d with
  | [] => [(k, v)]
  | (k', v') :: d' =>
      if py_eqb k' k then (k', v) :: d' else (k', v') :: dict_setitem d' k v
  end.

(** [v[k]] for a key that is a [str]: only a [dict] can be subscripted by
    one. *)
Definition py_getitem_str (v : pyval) (k : pystr) : result pyval :=
  match v with
  | PDict d => dict_getitem d (PStr k)
  | _ => Raise TypeError
  end.

(** ** Integers and byte strings *)

(** [int.from_bytes(b, 'little')] *)
Fixpoint int_from_bytes (b : list byte) : Z :=
  match b with
  | [] => 0
  | x :: r => byte_to_Z x + 256 * int_from_bytes r
  end.

(** [int.from_bytes(b, 'little', signed=True)] *)
Definition int_from_bytes_signed (b : list byte) : Z :=
  let n := int_from_bytes b in
  let w := 8 * len b in
  if (0 <? w) && (2 ^ (w - 1) <=? n) then n - 2 ^ w else n.

Definition byte_of_Z_wrap (n : Z) : byte :=
  match byte_of_Z (n mod 256) with Some b => b | None => x00 end.

Fixpoint le_bytes (length : nat) (n : Z) : list byte :=
  match length with
  | O => []
  | S l => byte_of_Z_wrap n :: le_bytes l (n / 256)
  end.

(** [n.to_bytes(length, 'little', signed=signed)] *)
Definition int_to_bytes (n : Z) (length : nat) (signed : bool)
  : result (list byte) :=
  let w := 8 * Z.of_nat length in
  if signed then
    if (w =? 0) && (n =? 0) then Ok []
    else if (0 <? w) && (- 2 ^ (w - 1) <=? n) && (n <? 2 ^ (w - 1))
         then Ok (le_bytes length (n mod 2 ^ w))
         else Raise OverflowError
  else
    if n <? 0 then Raise OverflowError
    else if 2 ^ w <=? n then Raise OverflowError
    else Ok (le_bytes length n).

(** [v.to_bytes(...)]: only [int] (and so [bool]) has the method. *)
Definition py_to_bytes (v : pyval) (length : nat) (signed : bool)
  : result (list byte) :=
  match v with
  | PInt n => int_to_bytes n length signed
  | PBool b => int_to_bytes (Z.b2z b) length signed
  | _ => Raise AttributeError
  end.

(** An element of the list given to [bytes([...])]. *)
Definition py_byte (v : pyval) : result byte :=
  match v with
  | PInt n =>
      match byte_of_Z n with Some b => Ok b | None => Raise ValueError end
  | PBool b => Ok (if b then x01 else x00)
  | _ => Raise TypeError
  end.

(** [bytes(l)] for a list [l] *)
Fixpoint bytes_of_list (l : list pyval) : result (list byte) :=
  match l with
  | [] => Ok []
  | v :: l' => b <- py_byte v ;; r <- bytes_of_list l' ;; Ok (b :: r)
  end.

(** [bytes(n)]: [n] zero bytes *)
Definition zeros (n : nat) : list byte := repeat x00 n.

(** [out += v] where [out] is a byte string *)
Definition bytes_iadd (out : list byte) (v : pyval) : result (list byte) :=
  match v with
  | PBytes b => Ok (out ++ b)
  | _ => Raise TypeError
  end.

(** ** Iterators over a byte string *)

(** [next(it)] *)
Definition next (it : list byte) : result (byte * list byte) :=
  match it with
  | [] => Raise StopIteration
  | x :: r => Ok (x, r)
  end.

(** [bytes(islice(it, n))]: the bytes read and the iterator left *)
Definition islice (it : list byte) (n : nat) : list byte * list byte :=
  (firstn n it, skipn n it).

(** [assert next(it, None) is None] *)
Definition assert_exhausted (it : list byte) : result unit :=
  match it with
  | [] => Ok tt
  | _ :: _ => Raise AssertionError
  end.

(** ** UTF-8 *)

Definition byte_of_N_wrap (n : N) : byte :=
  match Byte.of_N (n mod 256) with Some b => b | None => x00 end.

Definition utf8_encode_cp (c : N) : result (list byte) :=
  (if c <? 128 then Ok [byte_of_N_wrap c]
   else if c <? 2048 then
     Ok [byte_of_N_wrap (192 + c / 64); byte_of_N_wrap (128 + c mod 64)]
   else if c <? 65536 then
     if (55296 <=? c) && (c <=? 57343) then Raise UnicodeEncodeError
     else Ok [byte_of_N_wrap (224 + c / 4096);
              byte_of_N_wrap (128 + (c / 64) mod 64);
              byte_of_N_wrap (128 + c mod 64)]
   else if c <? 1114112 then
     Ok [byte_of_N_wrap (240 + c / 262144);
         byte_of_N_wrap (128 + (c / 4096) mod 64);
         byte_of_N_wrap (128 + (c / 64) mod 64);
         byte_of_N_wrap (128 + c mod 64)]
   else Raise UnicodeEncodeError)%N.

(** [s.encode()] *)
Fixpoint utf8_encode (s : pystr) : result (list byte) :=
  match s with
  | [] => Ok []
  | c :: s' => b <- utf8_encode_cp c ;; r <- utf8_encode s' ;; Ok (b ++ r)
  end.

(** A continuation byte in the range [lo..hi], as its low six bits. *)
Definition cont (lo hi : N) (b : byte) : option N :=
  let n := Byte.to_N b in
  if ((lo <=? n) && (n <=? hi))%N then Some (n - 128)%N else None.

(** [b.decode()]: strict UTF-8 *)
Fixpoint utf8_decode (b : list byte) : result pystr :=
  match b with
  | [] => Ok []
  | b0 :: r =>
      let n0 := Byte.to_N b0 in
      if (n0 <? 128)%N then s <- utf8_decode r ;; Ok (n0 :: s)
      else if (n0 <? 194)%N then Raise UnicodeDecodeError
      else if (n0 <? 224)%N then
        match r with
        | b1 :: r1 =>
            match cont 128 191 b1 with
            | Some c1 =>
                s <- utf8_decode r1 ;; Ok (((n0 - 192) * 64 + c1)%N :: s)
            | None => Raise UnicodeDecodeError
            end
        | _ => Raise UnicodeDecodeError
        end
      else if (n0 <? 240)%N then
        match r with
        | b1 :: b2 :: r2 =>
            let lo := if (n0 =? 224)%N then 160%N else 128%N in
            let hi := if (n0 =? 237)%N then 159%N else 191%N in
            match cont lo hi b1, cont 128 191 b2 with
            | Some c1, Some c2 =>
                s <- utf8_decode r2 ;;
                Ok (((n0 - 224) * 4096 + c1 * 64 + c2)%N :: s)
            | _, _ => Raise UnicodeDecodeError
            end
        | _ => Raise UnicodeDecodeError
        end
      else if (n0 <? 245)%N then
        match r with
        | b1 :: b2 :: b3 :: r3 =>
            let lo := if (n0 =? 240)%N then 144%N else 128%N in
            let hi := if (n0 =? 244)%N then 143%N else 191%N in
            match cont lo hi b1, cont 128 191 b2, cont 128 191 b3 with
            | Some c1, Some c2, Some c3 =>
                s <- utf8_decode r3 ;;
                Ok (((n0 - 240) * 262144 + c1 * 4096 + c2 * 64 + c3)%N :: s)
            | _, _, _ => Raise UnicodeDecodeError
            end
        | _ => Raise UnicodeDecodeError
        end
      else Raise UnicodeDecodeError
  end.

(** [v.encode()]: only [str] has the method. *)
Definition py_encode (v : pyval) : result (list byte) :=
  match v with
  | PStr s => utf8_encode s
  | _ => Raise AttributeError
  end.

(** The position of the first [c] in [s], if any. *)
Fixpoint str_find (s : pystr) (c : N) : option nat :=
  match s with
  | [] => None
  | x :: s' =>
      if (x =? c)%N then Some O
      else match str_find s' c with Some i => Some (S i) | None => None end
  end.

(** [s.index(c)]: raises [ValueError] when [c] does not occur. *)
Definition str_index (s : pystr) (c : N) : result Z :=
  match str_find s c with
  | Some i => Ok (Z.of_nat i)
  | None => Raise ValueError
  end.

(** [s[0:p]] *)
Definition str_prefix (s : pystr) (p : Z) : pystr :=
  if p <? 0 then firstn (length s - Z.to_nat (- p)) s
  else firstn (Z.to_nat p) s.

(** ** Library calls left abstract

    [json.loads], the text-to-integer parser behind [int(str)] and the
    [repr] of a float belong to the Python runtime; the codecs are modelled
    over any implementation of them. *)
Record Runtime : Type := {
  json_loads : pystr -> result pyval;
  int_of_str : pystr -> result Z;
  float_repr : Q -> pystr
}.

(** [int(f)] for a float [f]: truncation toward zero *)
Definition float_trunc (q : Q) : Z := Z.quot (Qnum q) (Zpos (Qden q)).

(** [int(v)] *)
Definition py_int (rt : Runtime) (v : pyval) : result Z :=
  match v with
  | PInt n => Ok n
  | PBool b => Ok (Z.b2z b)
  | PFloat q => Ok (float_trunc q)
  | PStr s => int_of_str rt s
  | PBytes b => int_of_str rt (map Byte.to_N b)
  | _ => Raise TypeError
  end.

(** [v * f] for a float [f] *)
Definition py_mul_float (v : pyval) (f : Q) : result Q :=
  match as_num v with
  | Some q => Ok (Qred (q * f))
  | None => Raise TypeError
  end.

(** [n / f] for an int [n] and a float [f] *)
Definition int_div_float (n : Z) (f : Q) : Q := Qred (inject_Z n / f).

(** [v in (0, 1, 2)] *)
Definition in_0_1_2 (v : pyval) : bool :=
  py_eqb v (PInt 0) || py_eqb v (PInt 1) || py_eqb v (PInt 2).

(** ** [json.dumps] *)

Fixpoint digits (fuel : nat) (n : N) (acc : pystr) : pystr :=
  match fuel with
  | O => acc
  | S f =>
      let acc' := (48 + n mod 10)%N :: acc in
      if (n / 10 =? 0)%N then acc' else digits f (n / 10)%N acc'
  end.

(** [str(z)] *)
Definition str_of_Z (z : Z) : pystr :=
  let n := Z.abs_N z in
  (if z <? 0 then [45%N] else []) ++ digits (S (N.to_nat (N.size n))) n [].

Definition hex_digit (n : N) : N :=
  (if n <? 10 then 48 + n else 87 + n)%N.

Definition u_escape (n : N) : pystr :=
  [92; 117; hex_digit ((n / 4096) mod 16); hex_digit ((n / 256) mod 16);
   hex_digit ((n / 16) mod 16); hex_digit (n mod 16)]%N.

Definition json_escape_char (c : N) : pystr :=
  (if c =? 34 then [92; 34]
   else if c =? 92 then [92; 92]
   else if c =? 10 then [92; 110]
   else if c =? 13 then [92; 114]
   else if c =? 9 then [92; 116]
   else if c =? 8 then [92; 98]
   else if c =? 12 then [92; 102]
   else if (32 <=? c) && (c <=? 126) then [c]
   else if c <? 65536 then u_escape c
   else let n := c - 65536 in
        u_escape (55296 + (n / 1024) mod 1024) ++
        u_escape (56320 + n mod 1024))%N.

Definition quoted (s : pystr) : pystr := [34%N] ++ s ++ [34%N].

Definition json_string (s : pystr) : pystr :=
  quoted (flat_map json_escape_char s).

Fixpoint join (sep : pystr) (l : list pystr) : pystr :=
  match l with
  | [] => []
  | [x] => x
  | x :: l' => x ++ sep ++ join sep l'
  end.

Definition json_key (rt : Runtime) (k : pyval) : result pystr :=
  match k with
  | PStr s => Ok (json_string s)
  | PInt n => Ok (quoted (str_of_Z n))
  | PBool b => Ok (quoted (lit (if b then "true" else "false")))
  | PNone => Ok (quoted (lit "null"))
  | PFloat q => Ok (quoted (float_repr rt q))
  | _ => Raise TypeError
  end.

(** [json.dumps(v)] with the default options ([ensure_ascii], separators
    [", "] and [": "]). *)
Fixpoint json_dumps (rt : Runtime) (v : pyval) : result pystr :=
  match v with
  | PNone => Ok (lit "null")
  | PBool b => Ok (lit (if b then "true" else "false"))
  | PInt n => Ok (str_of_Z n)
  | PFloat q => Ok (float_repr rt q)
  | PStr s => Ok (json_string s)
  | PBytes _ => Raise TypeError
  | PList l =>
      items <- (fix go (l : list pyval) : result (list pystr) :=
                  match l with
                  | [] => Ok []
                  | x :: l' =>
                      s <- json_dumps rt x ;; r <- go l' ;; Ok (s :: r)
                  end) l ;;
      Ok (lit "[" ++ join (lit ", ") items ++ lit "]")
  | PDict d =>
      items <- (fix go (d : pydict) : result (list pystr) :=
                  match d with
                  | [] => Ok []
                  | (k, x) :: d' =>
                      ks <- json_key rt k ;;
                      s <- json_dumps rt x ;;
                      r <- go d' ;;
                      Ok ((ks ++ lit ": " ++ s) :: r)
                  end) d ;;
      Ok (lit "{" ++ join (lit ", ") items ++ lit "}")
  end.

(** * field_codecs.py *)

(** ** [FieldInteger]: the class all integer fields derive from *)
Module FieldInteger.

Record t : Type := mk { _length : nat; _value : pyval }.

(** The [value] setter: the value stored for what is assigned. *)
Definition set_value (length : nat) (value : pyval) : result pyval :=
  match value with
  | PInt _ | PBool _ => Ok value
  | PBytes b =>
      if negb (len b =? Z.of_nat length) then Raise ValueError
      else Ok (PInt (int_from_bytes b))
  | PNone => Ok PNone
  | _ => Raise ValueError
  end.

Definition init (value : pyval) (length : nat) : result t :=
  v <- set_value length value ;; Ok (mk length v).

Definition value (self : t) : pyval := _value self.

Definition as_bytes (self : t) : result (list byte) :=
  py_to_bytes (_value self) (_length self) false.

End FieldInteger.

(** ** [FieldText]: the class all text fields derive from *)
Module FieldText.

Record t : Type := mk { _length : nat; _value : pyval }.

Definition set_value (length : nat) (value : pyval) : result pyval :=
  match value with
  | PStr s =>
      e <- utf8_encode s ;;
      if len e >? Z.of_nat length then Raise ValueError else Ok value
  | PBytes b =>
      if len b >? Z.of_nat length then Raise ValueError
      else
        t <- utf8_decode b ;;
        p <- str_index t NUL ;;
        Ok (PStr (if p =? -1 then t else str_prefix t p))
  | PNone => Ok PNone
  | _ => Raise ValueError
  end.

Definition init (value : pyval) (length : nat) : result t :=
  v <- set_value length value ;; Ok (mk length v).

Definition value (self : t) : pyval := _value self.

Definition as_bytes (self : t) : result (list byte) :=
  e <- py_encode (_value self) ;;
  Ok (firstn (_length self) (e ++ zeros (_length self))).

End FieldText.

(** ** [FieldBinary]: the class all binary fields derive from *)
Module FieldBinary.

Record t : Type := mk { _length : nat; _value : pyval }.

Definition set_value (length : nat) (value : pyval) : result pyval :=
  match value with
  | PList l =>
      if negb (len l =? Z.of_nat length) then Raise ValueError
      else b <- bytes_of_list l ;; Ok (PBytes b)
  | PBytes b =>
      if negb (len b =? Z.of_nat length) then Raise ValueError
      else Ok value
  | PStr s =>
      if len s >? Z.of_nat length then Raise ValueError
      else e <- utf8_encode s ;; Ok (PBytes e)
  | PNone => Ok PNone
  | _ => Raise ValueError
  end.

Definition init (value : pyval) (length : nat) : result t :=
  v <- set_value length value ;; Ok (mk length v).

Definition value (self : t) : pyval := _value self.

(** [return self._value]: whatever is stored, with no padding. *)
Definition as_bytes (self : t) : pyval := _value self.

End FieldBinary.

(** ** [FieldJSON] *)
Module FieldJSON.

Record t : Type := mk { _length : nat; _value : pyval }.

Definition set_value (rt : Runtime) (length : nat) (value : pyval)
  : result pyval :=
  match value with
  | PBytes b =>
      if negb (len b =? Z.of_nat length) then Raise ValueError
      else
        strvalue <- utf8_decode b ;;
        let strvalue :=
          match str_index strvalue NUL with
          | Raise _ => strvalue
          | Ok i => str_prefix strvalue i
          end in
        json_loads rt strvalue
  | _ =>
      strvalue <- json_dumps rt value ;;
      e <- utf8_encode strvalue ;;
      if len e >? Z.of_nat length then Raise ValueError else Ok value
  end.

Definition init (rt : Runtime) (value : pyval) (length : nat) : result t :=
  v <- set_value rt length value ;; Ok (mk length v).

Definition value (self : t) : pyval := _value self.

Definition as_bytes (rt : Runtime) (self : t) : result (list byte) :=
  s <- json_dumps rt (_value self) ;;
  utf8_encode (firstn (_length self) (s ++ repeat NUL (_length self))).

End FieldJSON.

(** ** [FieldVarLenList] *)
Module FieldVarLenList.

(** The setter has no branch for a value that is neither [bytes] nor a
    [list]: [_value] is then never assigned, which is [None] here. *)
Record t : Type := mk { _length : nat; _value : option (list pyval) }.

Definition set_value (length : nat) (value : pyval)
  : result (option (list pyval)) :=
  match value with
  | PBytes b =>
      if negb (len b =? Z.of_nat length) then Raise ValueError
      else
        match b with
        | [] => Raise IndexError
        | b0 :: r =>
            Ok (Some (map (fun x => PBool (negb (byte_to_Z x =? 0)))
                          (firstn (Z.to_nat (byte_to_Z b0)) r)))
        end
  | PList l =>
      if len l >? Z.of_nat length - 1 then Raise ValueError
      else Ok (Some l)
  | _ => Ok None
  end.

Definition init (value : pyval) (length : nat) : result t :=
  v <- set_value length value ;; Ok (mk length v).

Definition value (self : t) : result pyval :=
  match _value self with
  | Some l => Ok (PList l)
  | None => Raise AttributeError
  end.

Definition as_bytes (self : t) : result (list byte) :=
  match _value self with
  | None => Raise AttributeError
  | Some l =>
      n <- py_byte (PInt (len l)) ;;
      let out := [n] in
      b <- bytes_of_list l ;;
      let out := out ++ b in
      let out := out ++ zeros 20 in
      Ok (firstn (_length self) out)
  end.

End FieldVarLenList.

(** An operand of [<<] or [|] with an int: an [int] or a [bool]. *)
Definition py_index (v : pyval) : result Z :=
  match v with
  | PInt n => Ok n
  | PBool b => Ok (Z.b2z b)
  | _ => Raise TypeError
  end.

(** ** [FieldChecklistResponses] *)
Module FieldChecklistResponses.

Definition NUM_RESPONSES : nat := 5.
Definition SIZE : nat := NUM_RESPONSES.

(** [_value] is [None] as long as the attribute has not been assigned. *)
Record t : Type := mk { _value : option pydict }.

(** The question id and the answer packed in one byte. *)
Definition unpack (x : byte) : pyval * pyval :=
  let k := Z.land (byte_to_Z x) 31 in
  let v := Z.land (Z.shiftr (byte_to_Z x) 5) 7 in
  (PInt k, PInt v).

(** [self._value[k] = v] *)
Definition store (self : option pydict) (k v : pyval)
  : result (option pydict) :=
  match self with
  | None => Raise AttributeError
  | Some d => Ok (Some (dict_setitem d k v))
  end.

Fixpoint from_items (rt : Runtime) (self : option pydict) (items : pydict)
  : result (option pydict) :=
  match items with
  | [] => Ok self
  | (k, v) :: items' =>
      if negb (in_0_1_2 v) then Raise ValueError
      else
        ik <- py_int rt k ;;
        self' <- store self (PInt ik) v ;;
        from_items rt self' items'
  end.

Fixpoint from_raw (self : option pydict) (value : list byte)
  : result (option pydict) :=
  match value with
  | [] => Ok self
  | x :: value' =>
      let '(k, v) := unpack x in
      self' <- store self k v ;;
      from_raw self' value'
  end.

Definition init (rt : Runtime) (value : pyval) : result t :=
  n <- py_len value ;;
  if negb (n =? Z.of_nat NUM_RESPONSES) then
    (* the message of the ValueError is built from value['responses'] *)
    r <- py_getitem_str value (lit "responses") ;;
    _ <- py_len r ;;
    Raise ValueError
  else
    match value with
    | PDict d => v <- from_items rt (Some []) d ;; Ok (mk v)
    | PBytes b => v <- from_raw None b ;; Ok (mk v)
    | _ => Raise ValueError
    end.

Definition value (self : t) : result pyval :=
  match _value self with
  | Some d => Ok (PDict d)
  | None => Raise AttributeError
  end.

Fixpoint pack (out : list byte) (items : pydict) {struct items}
  : result (list byte) :=
  match items with
  | [] => Ok out
  | (k, v) :: items' =>
      iv <- py_index v ;;
      ik <- py_index k ;;
      out' <- bytes_iadd out (PInt (Z.lor (Z.shiftl iv 5) ik)) ;;
      pack out' items'
  end.

Definition as_bytes (self : t) : result (list byte) :=
  let out := zeros NUM_RESPONSES in
  match _value self with
  | None => Raise AttributeError
  | Some d => pack out d
  end.

End FieldChecklistResponses.

(** ** The concrete fields: a codec class and a width *)

Module FieldUID.
Definition SIZE : nat := 4.
Definition init (value : pyval) := FieldInteger.init value SIZE.
End FieldUID.

Module FieldTagID.
Definition SIZE : nat := 8.
Definition init (value : pyval) := FieldInteger.init value SIZE.
End FieldTagID.

Module FieldUsername.
Definition SIZE : nat := 16.
Definition init (value : pyval) := FieldText.init value SIZE.
End FieldUsername.

Module FieldPayloadLength.
Definition SIZE : nat := 2.
Definition init (value : pyval) := FieldInteger.init value SIZE.
End FieldPayloadLength.

Module FieldUserQuestion.
Definition SIZE : nat := 4096.
Definition init (rt : Runtime) (value : pyval) :=
  FieldJSON.init rt value SIZE.
End FieldUserQuestion.

Module FieldUserQuestionSegment.
Definition SIZE : nat := 31.
Definition init (value : pyval) := FieldBinary.init value SIZE.
End FieldUserQuestionSegment.

Module FieldChecklistData.
Definition SIZE : nat := 4096.
Definition init (rt : Runtime) (value : pyval) :=
  FieldJSON.init rt value SIZE.
End FieldChecklistData.

Module FieldChecklistSegment.
Definition SIZE : nat := 31.
Definition init (value : pyval) := FieldBinary.init value SIZE.
End FieldChecklistSegment.

Module FieldFrameCounter.
Definition SIZE : nat := 2.
Definition init (value : pyval) := FieldInteger.init value SIZE.
End FieldFrameCounter.

Module FieldTimestamp.
Definition SIZE : nat := 4.
Definition init (value : pyval) := FieldInteger.init value SIZE.
End FieldTimestamp.

Module FieldVehicleName.
Definition SIZE : nat := 16.
Definition init (value : pyval) := FieldText.init value SIZE.
End FieldVehicleName.

Module FieldUserQuestionResponse.
Definition SIZE : nat := 10.
Definition init (value : pyval) := FieldVarLenList.init value SIZE.
End FieldUserQuestionResponse.

(** ** [FieldUWBPosition] *)
Module FieldUWBPosition.

Definition BYTES_PER_DIM : nat := 3.
Definition SIZE : nat := 3 * BYTES_PER_DIM.
Definition CONV_FACTOR : Q := 1000 # 1.

Record t : Type := mk { _xpos : pyval; _ypos : pyval; _zpos : pyval }.

Definition init (value : pyval) : result t :=
  match value with
  | PDict d =>
      x <- dict_getitem d (PStr (lit "xpos")) ;;
      y <- dict_getitem d (PStr (lit "ypos")) ;;
      z <- dict_getitem d (PStr (lit "zpos")) ;;
      Ok (mk x y z)
  | PBytes b =>
      if len b >? Z.of_nat SIZE then Raise ValueError
      else
        let it := b in
        let '(bx, it) := islice it BYTES_PER_DIM in
        let '(by_, it) := islice it BYTES_PER_DIM in
        let '(bz, it) := islice it BYTES_PER_DIM in
        Ok (mk (PFloat (int_div_float (int_from_bytes_signed bx) CONV_FACTOR))
               (PFloat (int_div_float (int_from_bytes_signed by_) CONV_FACTOR))
               (PFloat (int_div_float (int_from_bytes_signed bz) CONV_FACTOR)))
  | _ => Raise ValueError
  end.

Definition value (self : t) : pyval :=
  PDict [(PStr (lit "xpos"), _xpos self);
         (PStr (lit "ypos"), _ypos self);
         (PStr (lit "zpos"), _zpos self)].

(** [(self._xpos * self.CONV_FACTOR).to_bytes(...)]: the product is a
    float, and [to_bytes] is called on it as it is. *)
Definition dim_bytes (pos : pyval) : result (list byte) :=
  p <- py_mul_float pos CONV_FACTOR ;;
  py_to_bytes (PFloat p) BYTES_PER_DIM true.

Definition as_bytes (self : t) : result (list byte) :=
  out <- dim_bytes (_xpos self) ;;
  by_ <- dim_bytes (_ypos self) ;;
  let out := out ++ by_ in
  bz <- dim_bytes (_zpos self) ;;
  let out := out ++ bz in
  Ok out.

End FieldUWBPosition.

(** ** [FieldGPSPosition] *)
Module FieldGPSPosition.

Definition BYTES_PER_COORD : nat := 4.
Definition SIZE : nat := 2 * BYTES_PER_COORD.
Definition CONV_FACTOR : Q := 10000000 # 1.

Record t : Type := mk { _lat : pyval; _lon : pyval }.

Definition init (value : pyval) : result t :=
  match value with
  | PDict d =>
      lat <- dict_getitem d (PStr (lit "lat")) ;;
      lon <- dict_getitem d (PStr (lit "lon")) ;;
      Ok (mk lat lon)
  | PBytes b =>
      if len b >? Z.of_nat SIZE then Raise ValueError
      else
        let it := b in
        let '(blat, it) := islice it BYTES_PER_COORD in
        let '(blon, it) := islice it BYTES_PER_COORD in
        Ok (mk (PFloat (int_div_float (int_from_bytes_signed blat) CONV_FACTOR))
               (PFloat (int_div_float (int_from_bytes_signed blon) CONV_FACTOR)))
  | _ => Raise ValueError
  end.

Definition value (self : t) : pyval :=
  PDict [(PStr (lit "lat"), _lat self); (PStr (lit "lon"), _lon self)].

(** [int(self._lat * self.CONV_FACTOR).to_bytes(...)].  The product is the
    exact rational here; Python rounds it to binary64 before [int]
    truncates, so for a coordinate whose exact product is an integer the
    code can store the integer below it (51.5074 gives 515073999).  Only
    the number of bytes written is derived from this definition. *)
Definition coord_bytes (coord : pyval) : result (list byte) :=
  p <- py_mul_float coord CONV_FACTOR ;;
  py_to_bytes (PInt (float_trunc p)) BYTES_PER_COORD true.

Definition as_bytes (self : t) : result (list byte) :=
  out <- coord_bytes (_lat self) ;;
  blon <- coord_bytes (_lon self) ;;
  let out := out ++ blon in
  Ok out.

End FieldGPSPosition.

(** * message_codecs.py *)

(** A [str] literal as a value. *)
Definition pstr (s : string) : pyval := PStr (lit s).

(** [if isinstance(value, str): value = json.loads(value)] *)
Definition load (rt : Runtime) (value : pyval) : result pyval :=
  match value with
  | PStr s => json_loads rt s
  | _ => Ok value
  end.

(** [if 'type' in value and value['type'] != self.NAME: raise ValueError] *)
Definition check_type (value : pydict) (NAME : pystr) : result unit :=
  if dict_contains value (pstr "type") then
    ty <- dict_getitem value (pstr "type") ;;
    if negb (py_eqb ty (PStr NAME)) then Raise ValueError else Ok tt
  else Ok tt.

(** The int a byte read from an iterator is. *)
Definition int_of_byte (b : byte) : pyval := PInt (byte_to_Z b).

(** ** [MsgLoginRequest]: [ type(1) | uid(4) | tagid(8) ] *)
Module MsgLoginRequest.

Definition TYPE : Z := 1.
Definition NAME : pystr := lit "login_request".

Record t : Type := mk { uid : FieldInteger.t; tagid : FieldInteger.t }.

Definition init (rt : Runtime) (value : pyval) : result t :=
  value <- load rt value ;;
  match value with
  | PBytes b =>
      let it := b in
      '(ty, it) <- next it ;;
      if negb (byte_to_Z ty =? TYPE) then Raise ValueError
      else
        let '(raw, it) := islice it FieldUID.SIZE in
        uid <- FieldUID.init (PBytes raw) ;;
        let '(raw, it) := islice it FieldTagID.SIZE in
        tagid <- FieldTagID.init (PBytes raw) ;;
        _ <- assert_exhausted it ;;
        Ok (mk uid tagid)
  | PDict d =>
      _ <- check_type d NAME ;;
      v <- dict_getitem d (pstr "uid") ;;
      uid <- FieldUID.init v ;;
      tagid <- FieldTagID.init (dict_get d (pstr "tagid") PNone) ;;
      Ok (mk uid tagid)
  | _ => Raise ValueError
  end.

Definition as_bytes (self : t) : result (list byte) :=
  out <- bytes_of_list [PInt TYPE] ;;
  b <- FieldInteger.as_bytes (uid self) ;;
  let out := out ++ b in
  b <- FieldInteger.as_bytes (tagid self) ;;
  let out := out ++ b in
  Ok out.

Definition as_dict (self : t) : pyval :=
  PDict [(pstr "type", PStr NAME);
         (pstr "uid", FieldInteger.value (uid self));
         (pstr "tagid", FieldInteger.value (tagid self))].

(** [json.dumps(self.dict())]: the class has no method [dict]. *)
Definition as_json (rt : Runtime) (self : t) : result pystr :=
  Raise AttributeError.

End MsgLoginRequest.

(** ** [MsgLoginResponse]:
    [ type(1) | response(1) | uid(4) | username(16) | profile(1) ] *)
Module MsgLoginResponse.

Definition TYPE : Z := 2.
Definition NAME : pystr := lit "login_response".

Record t : Type := mk {
  response : pyval;
  username : FieldText.t;
  uid : FieldInteger.t;
  profile : pyval
}.

Definition init (rt : Runtime) (value : pyval) : result t :=
  value <- load rt value ;;
  match value with
  | PBytes b =>
      let it := b in
      '(ty, it) <- next it ;;
      if negb (byte_to_Z ty =? TYPE) then Raise ValueError
      else
        '(x, it) <- next it ;;
        let response := int_of_byte x in
        let '(raw, it) := islice it FieldUID.SIZE in
        uid <- FieldUID.init (PBytes raw) ;;
        let '(raw, it) := islice it FieldUsername.SIZE in
        username <- FieldUsername.init (PBytes raw) ;;
        '(x, it) <- next it ;;
        let profile := int_of_byte x in
        _ <- assert_exhausted it ;;
        Ok (mk response username uid profile)
  | PDict d =>
      _ <- check_type d NAME ;;
      v <- dict_getitem d (pstr "response") ;;
      let response := PBool (py_bool v) in
      username <- FieldUsername.init (dict_get d (pstr "username") PNone) ;;
      uid <- FieldUID.init (dict_get d (pstr "uid") PNone) ;;
      v <- dict_getitem d (pstr "profile") ;;
      profile <- py_int rt v ;;
      Ok (mk response username uid (PInt profile))
  | _ => Raise ValueError
  end.

Definition as_bytes (self : t) : result (list byte) :=
  out <- bytes_of_list [PInt TYPE] ;;
  b <- bytes_of_list [response self] ;;
  let out := out ++ b in
  b <- FieldText.as_bytes (username self) ;;
  let out := out ++ b in
  b <- FieldInteger.as_bytes (uid self) ;;
  let out := out ++ b in
  b <- bytes_of_list [profile self] ;;
  let out := out ++ b in
  Ok out.

Definition as_dict (self : t) : pyval :=
  PDict [(pstr "type", PStr NAME);
         (pstr "response", response self);
         (pstr "username", FieldText.value (username self));
         (pstr "uid", FieldInteger.value (uid self));
         (pstr "profile", profile self)].

Definition as_json (rt : Runtime) (self : t) : result pystr :=
  json_dumps rt (as_dict self).

End MsgLoginResponse.

(** ** [MsgLogoutNotification]: [ type(1) | tagid(8) ] *)
Module MsgLogoutNotification.

Definition TYPE : Z := 3.
Definition NAME : pystr := lit "logout_notification".

Record t : Type := mk { tagid : FieldInteger.t }.

Definition init (rt : Runtime) (value : pyval) : result t :=
  value <- load rt value ;;
  match value with
  | PBytes b =>
      let it := b in
      '(ty, it) <- next it ;;
      if negb (byte_to_Z ty =? TYPE) then Raise ValueError
      else
        let '(raw, it) := islice it FieldTagID.SIZE in
        tagid <- FieldTagID.init (PBytes raw) ;;
        _ <- assert_exhausted it ;;
        Ok (mk tagid)
  | PDict d =>
      _ <- check_type d NAME ;;
      tagid <- FieldTagID.init (dict_get d (pstr "tagid") PNone) ;;
      Ok (mk tagid)
  | _ => Raise ValueError
  end.

Definition as_bytes (self : t) : result (list byte) :=
  out <- bytes_of_list [PInt TYPE] ;;
  b <- FieldInteger.as_bytes (tagid self) ;;
  let out := out ++ b in
  Ok out.

Definition as_dict (self : t) : pyval :=
  PDict [(pstr "type", PStr NAME);
         (pstr "tagid", FieldInteger.value (tagid self))].

Definition as_json (rt : Runtime) (self : t) : result pystr :=
  json_dumps rt (as_dict self).

End MsgLogoutNotification.

(** ** [MsgChecklistUpdateStart]:
    [ type(1) | segments(1) | checklist_version(1) | payload_length(2) ] *)
Module MsgChecklistUpdateStart.

Definition TYPE : Z := 5.
Definition NAME : pystr := lit "checklist_update_start".

Record t : Type := mk {
  segments : pyval;
  checklist_version : pyval;
  length : FieldInteger.t
}.

Definition init (rt : Runtime) (value : pyval) : result t :=
  value <- load rt value ;;
  match value with
  | PBytes b =>
      let it := b in
      '(ty, it) <- next it ;;
      if negb (byte_to_Z ty =? TYPE) then Raise ValueError
      else
        '(x, it) <- next it ;;
        let segments := int_of_byte x in
        '(x, it) <- next it ;;
        let checklist_version := int_of_byte x in
        let '(raw, it) := islice it FieldPayloadLength.SIZE in
        length <- FieldPayloadLength.init (PBytes raw) ;;
        _ <- assert_exhausted it ;;
        Ok (mk segments checklist_version length)
  | PDict d =>
      _ <- check_type d NAME ;;
      v <- dict_getitem d (pstr "segments") ;;
      segments <- py_int rt v ;;
      v <- dict_getitem d (pstr "checklist_version") ;;
      checklist_version <- py_int rt v ;;
      v <- dict_getitem d (pstr "length") ;;
      length <- FieldPayloadLength.init v ;;
      Ok (mk (PInt segments) (PInt checklist_version) length)
  | _ => Raise ValueError
  end.

Definition as_bytes (self : t) : result (list byte) :=
  out <- bytes_of_list [PInt TYPE] ;;
  b <- bytes_of_list [segments self] ;;
  let out := out ++ b in
  b <- bytes_of_list [checklist_version self] ;;
  let out := out ++ b in
  b <- FieldInteger.as_bytes (length self) ;;
  let out := out ++ b in
  Ok out.

Definition as_dict (self : t) : pyval :=
  PDict [(pstr "type", PStr NAME);
         (pstr "segments", segments self);
         (pstr "checklist_version", checklist_version self);
         (pstr "length", FieldInteger.value (length self))].

Definition as_json (rt : Runtime) (self : t) : result pystr :=
  json_dumps rt (as_dict self).

End MsgChecklistUpdateStart.

(** ** [MsgChecklistUpdateSegment]:
    [ type(1) | checklist_version(1) | seq_no(1) | segment(31) ] *)
Module MsgChecklistUpdateSegment.

Definition TYPE : Z := 6.
Definition NAME : pystr := lit "checklist_update_segment".

Record t : Type := mk {
  checklist_version : pyval;
  seq_no : pyval;
  segment : FieldBinary.t
}.

Definition init (rt : Runtime) (value : pyval) : result t :=
  value <- load rt value ;;
  match value with
  | PBytes b =>
      let it := b in
      '(ty, it) <- next it ;;
      if negb (byte_to_Z ty =? TYPE) then Raise ValueError
      else
        '(x, it) <- next it ;;
        let checklist_version := int_of_byte x in
        '(x, it) <- next it ;;
        let seq_no := int_of_byte x in
        let '(raw, it) := islice it FieldChecklistSegment.SIZE in
        segment <- FieldChecklistSegment.init (PBytes raw) ;;
        _ <- assert_exhausted it ;;
        Ok (mk checklist_version seq_no segment)
  | PDict d =>
      _ <- check_type d NAME ;;
      v <- dict_getitem d (pstr "checklist_version") ;;
      checklist_version <- py_int rt v ;;
      v <- dict_getitem d (pstr "seq_no") ;;
      seq_no <- py_int rt v ;;
      v <- dict_getitem d (pstr "segment") ;;
      segment <- FieldChecklistSegment.init v ;;
      Ok (mk (PInt checklist_version) (PInt seq_no) segment)
  | _ => Raise ValueError
  end.

Definition as_bytes (self : t) : result (list byte) :=
  out <- bytes_of_list [PInt TYPE] ;;
  b <- bytes_of_list [checklist_version self] ;;
  let out := out ++ b in
  b <- bytes_of_list [seq_no self] ;;
  let out := out ++ b in
  out <- bytes_iadd out (FieldBinary.as_bytes (segment self)) ;;
  Ok out.

Definition as_dict (self : t) : pyval :=
  PDict [(pstr "type", PStr NAME);
         (pstr "checklist_version", checklist_version self);
         (pstr "seq_no", seq_no self);
         (pstr "segment", FieldBinary.value (segment self))].

Definition as_json (rt : Runtime) (self : t) : result pystr :=
  json_dumps rt (as_dict self).

End MsgChecklistUpdateSegment.

(** ** [MsgChecklistUpdate]:
    [ type(1) | checklist_version(1) | checklist_data(4096) ] *)
Module MsgChecklistUpdate.

Definition TYPE : Z := 7.
Definition NAME : pystr := lit "checklist_update".

Record t : Type := mk {
  checklist_version : pyval;
  checklist_data : FieldJSON.t
}.

Definition init (rt : Runtime) (value : pyval) : result t :=
  value <- load rt value ;;
  match value with
  | PBytes b =>
      let it := b in
      '(ty, it) <- next it ;;
      if negb (byte_to_Z ty =? TYPE) then Raise ValueError
      else
        (* fc.FieldChecklistdData: field_codecs has no such attribute *)
        Raise AttributeError
  | PDict d =>
      _ <- check_type d NAME ;;
      v <- dict_getitem d (pstr "checklist_version") ;;
      checklist_version <- py_int rt v ;;
      v <- dict_getitem d (pstr "checklist_data") ;;
      checklist_data <- FieldChecklistData.init rt v ;;
      Ok (mk (PInt checklist_version) checklist_data)
  | _ => Raise ValueError
  end.

Definition as_bytes (rt : Runtime) (self : t) : result (list byte) :=
  out <- bytes_of_list [PInt TYPE] ;;
  b <- bytes_of_list [checklist_version self] ;;
  let out := out ++ b in
  b <- FieldJSON.as_bytes rt (checklist_data self) ;;
  let out := out ++ b in
  Ok out.

Definition as_dict (self : t) : pyval :=
  PDict [(pstr "type", PStr NAME);
         (pstr "checklist_version", checklist_version self);
         (pstr "checklist_data", FieldJSON.value (checklist_data self))].

Definition as_json (rt : Runtime) (self : t) : result pystr :=
  json_dumps rt (as_dict self).

End MsgChecklistUpdate.

(** ** [MsgChecklistResponses]:
    [ type(1) | tagid(8) | responses | checklist_version(1) ] *)
Module MsgChecklistResponses.

Definition TYPE : Z := 8.
Definition NAME : pystr := lit "checklist_responses".

Record t : Type := mk {
  tagid : FieldInteger.t;
  responses : FieldChecklistResponses.t;
  checklist_version : pyval
}.

Definition init (rt : Runtime) (value : pyval) : result t :=
  value <- load rt value ;;
  match value with
  | PBytes b =>
      let it := b in
      '(ty, it) <- next it ;;
      if negb (byte_to_Z ty =? TYPE) then Raise ValueError
      else
        let '(raw, it) := islice it FieldTagID.SIZE in
        tagid <- FieldTagID.init (PBytes raw) ;;
        let '(raw, it) := islice it FieldChecklistResponses.SIZE in
        responses <- FieldChecklistResponses.init rt (PBytes raw) ;;
        '(x, it) <- next it ;;
        let checklist_version := int_of_byte x in
        _ <- assert_exhausted it ;;
        Ok (mk tagid responses checklist_version)
  | PDict d =>
      _ <- check_type d NAME ;;
      tagid <- FieldTagID.init (dict_get d (pstr "tagid") PNone) ;;
      v <- dict_getitem d (pstr "responses") ;;
      responses <- FieldChecklistResponses.init rt v ;;
      v <- dict_getitem d (pstr "checklist_version") ;;
      checklist_version <- py_int rt v ;;
      Ok (mk tagid responses (PInt checklist_version))
  | _ => Raise ValueError
  end.

Definition as_bytes (self : t) : result (list byte) :=
  out <- bytes_of_list [PInt TYPE] ;;
  b <- FieldInteger.as_bytes (tagid self) ;;
  let out := out ++ b in
  b <- FieldChecklistResponses.as_bytes (responses self) ;;
  let out := out ++ b in
  b <- bytes_of_list [checklist_version self] ;;
  let out := out ++ b in
  Ok out.

Definition as_dict (self : t) : result pyval :=
  r <- FieldChecklistResponses.value (responses self) ;;
  Ok (PDict [(pstr "type", PStr NAME);
             (pstr "tagid", FieldInteger.value (tagid self));
             (pstr "responses", r);
             (pstr "checklist_version", checklist_version self)]).

Definition as_json (rt : Runtime) (self : t) : result pystr :=
  d <- as_dict self ;; json_dumps rt d.

End MsgChecklistResponses.

(** ** [MsgChecklistVersionNotification]:
    [ type(1) | checklist_version(1) ] *)
Module MsgChecklistVersionNotification.

Definition TYPE : Z := 10.
Definition NAME : pystr := lit "checklist_version_notification".

Record t : Type := mk { checklist_version : pyval }.

Definition init (rt : Runtime) (value : pyval) : result t :=
  value <- load rt value ;;
  match value with
  | PBytes b =>
      let it := b in
      '(ty, it) <- next it ;;
      if negb (byte_to_Z ty =? TYPE) then Raise ValueError
      else
        '(x, it) <- next it ;;
        let checklist_version := int_of_byte x in
        _ <- assert_exhausted it ;;
        Ok (mk checklist_version)
  | PDict d =>
      _ <- check_type d NAME ;;
      v <- dict_getitem d (pstr "checklist_version") ;;
      checklist_version <- py_int rt v ;;
      Ok (mk (PInt checklist_version))
  | _ => Raise ValueError
  end.

Definition as_bytes (self : t) : result (list byte) :=
  out <- bytes_of_list [PInt TYPE] ;;
  b <- bytes_of_list [checklist_version self] ;;
  let out := out ++ b in
  Ok out.

Definition as_dict (self : t) : pyval :=
  PDict [(pstr "type", PStr NAME);
         (pstr "checklist_version", checklist_version self)].

Definition as_json (rt : Runtime) (self : t) : result pystr :=
  json_dumps rt (as_dict self).

End MsgChecklistVersionNotification.

(** ** [MsgUserQuestionStart]:
    [ type(1) | question_id(1) | segments(1) | payload_length(2) ] *)
Module MsgUserQuestionStart.

Definition TYPE : Z := 11.
Definition NAME : pystr := lit "user_question_start".

Record t : Type := mk {
  question_id : pyval;
  segments : pyval;
  length : FieldInteger.t
}.

Definition init (rt : Runtime) (value : pyval) : result t :=
  value <- load rt value ;;
  match value with
  | PBytes b =>
      let it := b in
      '(ty, it) <- next it ;;
      if negb (byte_to_Z ty =? TYPE) then Raise ValueError
      else
        '(x, it) <- next it ;;
        let question_id := int_of_byte x in
        '(x, it) <- next it ;;
        let segments := int_of_byte x in
        let '(raw, it) := islice it FieldPayloadLength.SIZE in
        length <- FieldPayloadLength.init (PBytes raw) ;;
        _ <- assert_exhausted it ;;
        Ok (mk question_id segments length)
  | PDict d =>
      _ <- check_type d NAME ;;
      v <- dict_getitem d (pstr "question_id") ;;
      question_id <- py_int rt v ;;
      v <- dict_getitem d (pstr "segments") ;;
      segments <- py_int rt v ;;
      v <- dict_getitem d (pstr "length") ;;
      length <- FieldPayloadLength.init v ;;
      Ok (mk (PInt question_id) (PInt segments) length)
  | _ => Raise ValueError
  end.

Definition as_bytes (self : t) : result (list byte) :=
  out <- bytes_of_list [PInt TYPE] ;;
  b <- bytes_of_list [question_id self] ;;
  let out := out ++ b in
  b <- bytes_of_list [segments self] ;;
  let out := out ++ b in
  b <- FieldInteger.as_bytes (length self) ;;
  let out := out ++ b in
  Ok out.

Definition as_dict (self : t) : pyval :=
  PDict [(pstr "type", PStr NAME);
         (pstr "question_id", question_id self);
         (pstr "segments", segments self);
         (pstr "length", FieldInteger.value (length self))].

Definition as_json (rt : Runtime) (self : t) : result pystr :=
  json_dumps rt (as_dict self).

End MsgUserQuestionStart.

(** ** [MsgUserQuestionSegment]:
    [ type(1) | question_id(1) | seq_no(1) | data(31) ] *)
Module MsgUserQuestionSegment.

Definition TYPE : Z := 12.
Definition NAME : pystr := lit "user_question_segment".
Definition DATA_LENGTH : nat := 30.

(** The constructor builds [data] with [fc.FieldUserQuestionData], which
    [field_codecs] does not define: no object of the class is ever built.
    The accessors treat [data] as the binary field they expect. *)
Record t : Type := mk {
  question_id : pyval;
  seq_no : pyval;
  data : FieldBinary.t
}.

Definition init (rt : Runtime) (value : pyval) : result t :=
  value <- load rt value ;;
  match value with
  | PBytes b =>
      let it := b in
      '(ty, it) <- next it ;;
      if negb (byte_to_Z ty =? TYPE) then Raise ValueError
      else
        '(x, it) <- next it ;;
        let question_id := int_of_byte x in
        '(x, it) <- next it ;;
        let seq_no := int_of_byte x in
        Raise AttributeError
  | PDict d =>
      _ <- check_type d NAME ;;
      v <- dict_getitem d (pstr "question_id") ;;
      question_id <- py_int rt v ;;
      v <- dict_getitem d (pstr "seq_no") ;;
      seq_no <- py_int rt v ;;
      Raise AttributeError
  | _ => Raise ValueError
  end.

Definition as_bytes (self : t) : result (list byte) :=
  out <- bytes_of_list [PInt TYPE] ;;
  b <- bytes_of_list [question_id self] ;;
  let out := out ++ b in
  b <- bytes_of_list [seq_no self] ;;
  let out := out ++ b in
  out <- bytes_iadd out (FieldBinary.as_bytes (data self)) ;;
  Ok out.

Definition as_dict (self : t) : pyval :=
  PDict [(pstr "type", PStr NAME);
         (pstr "question_id", question_id self);
         (pstr "seq_no", seq_no self);
         (pstr "data", FieldBinary.value (data self))].

Definition as_json (rt : Runtime) (self : t) : result pystr :=
  json_dumps rt (as_dict self).

End MsgUserQuestionSegment.

(** ** [MsgUserQuestion]: [ type(1) | question_id(1) | user_question(...) ] *)
Module MsgUserQuestion.

Definition TYPE : Z := 13.
Definition NAME : pystr := lit "user_question".

Record t : Type := mk { question_id : pyval; user_question : FieldJSON.t }.

Definition init (rt : Runtime) (value : pyval) : result t :=
  value <- load rt value ;;
  match value with
  | PBytes b =>
      let it := b in
      '(ty, it) <- next it ;;
      if negb (byte_to_Z ty =? TYPE) then Raise ValueError
      else
        '(x, it) <- next it ;;
        let question_id := int_of_byte x in
        let '(raw, it) := islice it FieldUserQuestion.SIZE in
        user_question <- FieldUserQuestion.init rt (PBytes raw) ;;
        _ <- assert_exhausted it ;;
        Ok (mk question_id user_question)
  | PDict d =>
      _ <- check_type d NAME ;;
      v <- dict_getitem d (pstr "question_id") ;;
      question_id <- py_int rt v ;;
      v <- dict_getitem d (pstr "user_question") ;;
      user_question <- FieldUserQuestion.init rt v ;;
      Ok (mk (PInt question_id) user_question)
  | _ => Raise ValueError
  end.

Definition as_bytes (rt : Runtime) (self : t) : result (list byte) :=
  out <- bytes_of_list [PInt TYPE] ;;
  b <- bytes_of_list [question_id self] ;;
  let out := out ++ b in
  b <- FieldJSON.as_bytes rt (user_question self) ;;
  let out := out ++ b in
  Ok out.

Definition as_dict (self : t) : pyval :=
  PDict [(pstr "type", PStr NAME);
         (pstr "question_id", question_id self);
         (pstr "user_question", FieldJSON.value (user_question self))].

Definition as_json (rt : Runtime) (self : t) : result pystr :=
  json_dumps rt (as_dict self).

End MsgUserQuestion.

(** ** [MsgUserQuestionResponse]:
    [ type(1) | tagid(8) | question_id(1) | response(1) ] *)
Module MsgUserQuestionResponse.

Definition TYPE : Z := 14.
Definition NAME : pystr := lit "user_question_response".

Record t : Type := mk {
  tagid : FieldInteger.t;
  question_id : pyval;
  responses : FieldVarLenList.t
}.

Definition init (rt : Runtime) (value : pyval) : result t :=
  value <- load rt value ;;
  match value with
  | PBytes b =>
      let it := b in
      '(ty, it) <- next it ;;
      if negb (byte_to_Z ty =? TYPE) then Raise ValueError
      else
        let '(raw, it) := islice it FieldTagID.SIZE in
        tagid <- FieldTagID.init (PBytes raw) ;;
        '(x, it) <- next it ;;
        let question_id := int_of_byte x in
        '(x, it) <- next it ;;
        responses <- FieldUserQuestionResponse.init (int_of_byte x) ;;
        _ <- assert_exhausted it ;;
        Ok (mk tagid question_id responses)
  | PDict d =>
      _ <- check_type d NAME ;;
      tagid <- FieldTagID.init (dict_get d (pstr "tagid") PNone) ;;
      v <- dict_getitem d (pstr "question_id") ;;
      question_id <- py_int rt v ;;
      v <- dict_getitem d (pstr "responses") ;;
      responses <- FieldUserQuestionResponse.init v ;;
      Ok (mk tagid (PInt question_id) responses)
  | _ => Raise ValueError
  end.

Definition as_bytes (self : t) : result (list byte) :=
  out <- bytes_of_list [PInt TYPE] ;;
  b <- FieldInteger.as_bytes (tagid self) ;;
  let out := out ++ b in
  b <- bytes_of_list [question_id self] ;;
  let out := out ++ b in
  b <- FieldVarLenList.as_bytes (responses self) ;;
  let out := out ++ b in
  Ok out.

Definition as_dict (self : t) : result pyval :=
  r <- FieldVarLenList.value (responses self) ;;
  Ok (PDict [(pstr "type", PStr NAME);
             (pstr "tagid", FieldInteger.value (tagid self));
             (pstr "question_id", question_id self);
             (pstr "responses", r)]).

Definition as_json (rt : Runtime) (self : t) : result pystr :=
  d <- as_dict self ;; json_dumps rt d.

End MsgUserQuestionResponse.

(** ** [MsgImpactReport]:
    [ type(1) | tagid(8) | severity(1) | accel_direction(1) ] *)
Module MsgImpactReport.

Definition TYPE : Z := 15.
Definition NAME : pystr := lit "impact_report".

Record t : Type := mk {
  tagid : FieldInteger.t;
  severity : pyval;
  accel_direction : pyval
}.

Definition init (rt : Runtime) (value : pyval) : result t :=
  value <- load rt value ;;
  match value with
  | PBytes b =>
      let it := b in
      '(ty, it) <- next it ;;
      if negb (byte_to_Z ty =? TYPE) then Raise ValueError
      else
        let '(raw, it) := islice it FieldTagID.SIZE in
        tagid <- FieldTagID.init (PBytes raw) ;;
        '(x, it) <- next it ;;
        let severity := int_of_byte x in
        '(x, it) <- next it ;;
        let accel_direction := int_of_byte x in
        _ <- assert_exhausted it ;;
        Ok (mk tagid severity accel_direction)
  | PDict d =>
      _ <- check_type d NAME ;;
      tagid <- FieldTagID.init (dict_get d (pstr "tagid") PNone) ;;
      v <- dict_getitem d (pstr "severity") ;;
      severity <- py_int rt v ;;
      v <- dict_getitem d (pstr "accel_direction") ;;
      accel_direction <- py_int rt v ;;
      Ok (mk tagid (PInt severity) (PInt accel_direction))
  | _ => Raise ValueError
  end.

(** The last line reads the bare name [accel_direction], which is not
    bound in the method. *)
Definition as_bytes (self : t) : result (list byte) :=
  out <- bytes_of_list [PInt TYPE] ;;
  b <- FieldInteger.as_bytes (tagid self) ;;
  let out := out ++ b in
  b <- bytes_of_list [severity self] ;;
  let out := out ++ b in
  Raise NameError.

Definition as_dict (self : t) : pyval :=
  PDict [(pstr "type", PStr NAME);
         (pstr "tagid", FieldInteger.value (tagid self));
         (pstr "severity", severity self);
         (pstr "accel_direction", accel_direction self)].

Definition as_json (rt : Runtime) (self : t) : result pystr :=
  json_dumps rt (as_dict self).

End MsgImpactReport.

(** ** [MsgVehicleReport]:
    [ type(1) | tagid(8) | frame_counter(2) | uwbpos | gpspos ] *)
Module MsgVehicleReport.

Definition TYPE : Z := 16.
Definition NAME : pystr := lit "vehicle_report".

Record t : Type := mk {
  tagid : FieldInteger.t;
  frame_counter : FieldInteger.t;
  uwbpos : FieldUWBPosition.t;
  gpspos : FieldGPSPosition.t
}.

Definition init (rt : Runtime) (value : pyval) : result t :=
  value <- load rt value ;;
  match value with
  | PBytes b =>
      let it := b in
      '(ty, it) <- next it ;;
      if negb (byte_to_Z ty =? TYPE) then Raise ValueError
      else
        let '(raw, it) := islice it FieldTagID.SIZE in
        tagid <- FieldTagID.init (PBytes raw) ;;
        let '(raw, it) := islice it FieldFrameCounter.SIZE in
        frame_counter <- FieldFrameCounter.init (PBytes raw) ;;
        let '(raw, it) := islice it FieldUWBPosition.SIZE in
        uwbpos <- FieldUWBPosition.init (PBytes raw) ;;
        let '(raw, it) := islice it FieldGPSPosition.SIZE in
        gpspos <- FieldGPSPosition.init (PBytes raw) ;;
        _ <- assert_exhausted it ;;
        Ok (mk tagid frame_counter uwbpos gpspos)
  | PDict d =>
      _ <- check_type d NAME ;;
      tagid <- FieldTagID.init (dict_get d (pstr "tagid") PNone) ;;
      v <- dict_getitem d (pstr "frame_counter") ;;
      frame_counter <- FieldFrameCounter.init v ;;
      v <- dict_getitem d (pstr "uwbpos") ;;
      uwbpos <- FieldUWBPosition.init v ;;
      v <- dict_getitem d (pstr "gpspos") ;;
      gpspos <- FieldGPSPosition.init v ;;
      Ok (mk tagid frame_counter uwbpos gpspos)
  | _ => Raise ValueError
  end.

Definition as_bytes (self : t) : result (list byte) :=
  out <- bytes_of_list [PInt TYPE] ;;
  b <- FieldInteger.as_bytes (tagid self) ;;
  let out := out ++ b in
  b <- FieldInteger.as_bytes (frame_counter self) ;;
  let out := out ++ b in
  b <- FieldUWBPosition.as_bytes (uwbpos self) ;;
  let out := out ++ b in
  b <- FieldGPSPosition.as_bytes (gpspos self) ;;
  let out := out ++ b in
  Ok out.

Definition as_dict (self : t) : pyval :=
  PDict [(pstr "type", PStr NAME);
         (pstr "tagid", FieldInteger.value (tagid self));
         (pstr "frame_counter", FieldInteger.value (frame_counter self));
         (pstr "uwbpos", FieldUWBPosition.value (uwbpos self));
         (pstr "gpspos", FieldGPSPosition.value (gpspos self))].

Definition as_json (rt : Runtime) (self : t) : result pystr :=
  json_dumps rt (as_dict self).

End MsgVehicleReport.

(** ** [MsgSetBlockStatus]: [ type(1) | tagid(8) | block_status(1) ] *)
Module MsgSetBlockStatus.

Definition TYPE : Z := 17.
Definition NAME : pystr := lit "set_block_status".

Record t : Type := mk { tagid : FieldInteger.t; block_status : pyval }.

Definition init (rt : Runtime) (value : pyval) : result t :=
  value <- load rt value ;;
  match value with
  | PBytes b =>
      let it := b in
      '(ty, it) <- next it ;;
      if negb (byte_to_Z ty =? TYPE) then Raise ValueError
      else
        let '(raw, it) := islice it FieldTagID.SIZE in
        tagid <- FieldTagID.init (PBytes raw) ;;
        '(x, it) <- next it ;;
        let block_status := PBool (py_bool (int_of_byte x)) in
        _ <- assert_exhausted it ;;
        Ok (mk tagid block_status)
  | PDict d =>
      _ <- check_type d NAME ;;
      tagid <- FieldTagID.init (dict_get d (pstr "tagid") PNone) ;;
      v <- dict_getitem d (pstr "block_status") ;;
      let block_status := PBool (py_bool v) in
      Ok (mk tagid block_status)
  | _ => Raise ValueError
  end.

Definition as_bytes (self : t) : result (list byte) :=
  out <- bytes_of_list [PInt TYPE] ;;
  b <- FieldInteger.as_bytes (tagid self) ;;
  let out := out ++ b in
  b <- bytes_of_list [block_status self] ;;
  let out := out ++ b in
  Ok out.

Definition as_dict (self : t) : pyval :=
  PDict [(pstr "type", PStr NAME);
         (pstr "tagid", FieldInteger.value (tagid self));
         (pstr "block_status", block_status self)].

Definition as_json (rt : Runtime) (self : t) : result pystr :=
  json_dumps rt (as_dict self).

End MsgSetBlockStatus.

(** ** [MsgTimeRequest]: [ type(1) | tagid(8) ] *)
Module MsgTimeRequest.

Definition TYPE : Z := 18.
Definition NAME : pystr := lit "time_request".

Record t : Type := mk { tagid : FieldInteger.t }.

Definition init (rt : Runtime) (value : pyval) : result t :=
  value <- load rt value ;;
  match value with
  | PBytes b =>
      let it := b in
      '(ty, it) <- next it ;;
      if negb (byte_to_Z ty =? TYPE) then Raise ValueError
      else
        let '(raw, it) := islice it FieldTagID.SIZE in
        tagid <- FieldTagID.init (PBytes raw) ;;
        _ <- assert_exhausted it ;;
        Ok (mk tagid)
  | PDict d =>
      _ <- check_type d NAME ;;
      tagid <- FieldTagID.init (dict_get d (pstr "tagid") PNone) ;;
      Ok (mk tagid)
  | _ => Raise ValueError
  end.

Definition as_bytes (self : t) : result (list byte) :=
  out <- bytes_of_list [PInt TYPE] ;;
  b <- FieldInteger.as_bytes (tagid self) ;;
  let out := out ++ b in
  Ok out.

Definition as_dict (self : t) : pyval :=
  PDict [(pstr "type", PStr NAME);
         (pstr "tagid", FieldInteger.value (tagid self))].

Definition as_json (rt : Runtime) (self : t) : result pystr :=
  json_dumps rt (as_dict self).

End MsgTimeRequest.

(** ** [MsgTimeSet]: [ type(1) | timestamp(4) ] *)
Module MsgTimeSet.

Definition TYPE : Z := 19.
Definition NAME : pystr := lit "time_set".

Record t : Type := mk { timestamp : FieldInteger.t }.

Definition init (rt : Runtime) (value : pyval) : result t :=
  value <- load rt value ;;
  match value with
  | PBytes b =>
      let it := b in
      '(ty, it) <- next it ;;
      if negb (byte_to_Z ty =? TYPE) then Raise ValueError
      else
        let '(raw, it) := islice it FieldTimestamp.SIZE in
        timestamp <- FieldTimestamp.init (PBytes raw) ;;
        _ <- assert_exhausted it ;;
        Ok (mk timestamp)
  | PDict d =>
      _ <- check_type d NAME ;;
      v <- dict_getitem d (pstr "timestamp") ;;
      timestamp <- FieldTimestamp.init v ;;
      Ok (mk timestamp)
  | _ => Raise ValueError
  end.

Definition as_bytes (self : t) : result (list byte) :=
  out <- bytes_of_list [PInt TYPE] ;;
  b <- FieldInteger.as_bytes (timestamp self) ;;
  let out := out ++ b in
  Ok out.

Definition as_dict (self : t) : pyval :=
  PDict [(pstr "type", PStr NAME);
         (pstr "timestamp", FieldInteger.value (timestamp self))].

Definition as_json (rt : Runtime) (self : t) : result pystr :=
  json_dumps rt (as_dict self).

End MsgTimeSet.

(** ** [MsgTagConfig]:
    [ type(1) | sensitivity(1) | update_rate(1) | vehicle_name(16) ] *)
Module MsgTagConfig.

Definition TYPE : Z := 20.
Definition NAME : pystr := lit "tag_config".

Record t : Type := mk {
  crash_sens : pyval;
  report_rate : pyval;
  vehicle_name : FieldText.t
}.

(** The constructor has no branch for a [str]: JSON text is not loaded. *)
Definition init (rt : Runtime) (value : pyval) : result t :=
  match value with
  | PBytes b =>
      let it := b in
      '(ty, it) <- next it ;;
      if negb (byte_to_Z ty =? TYPE) then Raise ValueError
      else
        '(x, it) <- next it ;;
        crash_sens <- py_int rt (int_of_byte x) ;;
        '(x, it) <- next it ;;
        report_rate <- py_int rt (int_of_byte x) ;;
        let '(raw, it) := islice it FieldVehicleName.SIZE in
        vehicle_name <- FieldVehicleName.init (PBytes raw) ;;
        _ <- assert_exhausted it ;;
        Ok (mk (PInt crash_sens) (PInt report_rate) vehicle_name)
  | PDict d =>
      _ <- check_type d NAME ;;
      v <- dict_getitem d (pstr "crash_sens") ;;
      crash_sens <- py_int rt v ;;
      v <- dict_getitem d (pstr "report_rate") ;;
      report_rate <- py_int rt v ;;
      v <- dict_getitem d (pstr "vehicle_name") ;;
      vehicle_name <- FieldVehicleName.init v ;;
      Ok (mk (PInt crash_sens) (PInt report_rate) vehicle_name)
  | _ => Raise ValueError
  end.

Definition as_bytes (self : t) : result (list byte) :=
  out <- bytes_of_list [PInt TYPE] ;;
  b <- bytes_of_list [crash_sens self] ;;
  let out := out ++ b in
  b <- bytes_of_list [report_rate self] ;;
  let out := out ++ b in
  b <- FieldText.as_bytes (vehicle_name self) ;;
  let out := out ++ b in
  Ok out.

Definition as_dict (self : t) : pyval :=
  PDict [(pstr "crash_sens", crash_sens self);
         (pstr "report_rate", report_rate self);
         (pstr "vehicle_name", FieldText.value (vehicle_name self))].

Definition as_json (rt : Runtime) (self : t) : result pystr :=
  json_dumps rt (as_dict self).

End MsgTagConfig.

(** ** Dispatch *)

(** An object of one of the message classes. *)
Inductive Message : Type :=
| LoginRequest (m : MsgLoginRequest.t)
| LoginResponse (m : MsgLoginResponse.t)
| LogoutNotification (m : MsgLogoutNotification.t)
| ChecklistUpdateStart (m : MsgChecklistUpdateStart.t)
| ChecklistUpdateSegment (m : MsgChecklistUpdateSegment.t)
| ChecklistUpdate (m : MsgChecklistUpdate.t)
| ChecklistResponses (m : MsgChecklistResponses.t)
| ChecklistVersionNotification (m : MsgChecklistVersionNotification.t)
| UserQuestionStart (m : MsgUserQuestionStart.t)
| UserQuestionSegment (m : MsgUserQuestionSegment.t)
| UserQuestion (m : MsgUserQuestion.t)
| UserQuestionResponse (m : MsgUserQuestionResponse.t)
| ImpactReport (m : MsgImpactReport.t)
| VehicleReport (m : MsgVehicleReport.t)
| SetBlockStatus (m : MsgSetBlockStatus.t)
| TimeRequest (m : MsgTimeRequest.t)
| TimeSet (m : MsgTimeSet.t)
| TagConfig (m : MsgTagConfig.t).

(** The [TYPE] of the class of a message. *)
Definition Message_TYPE (m : Message) : Z :=
  match m with
  | LoginRequest _ => MsgLoginRequest.TYPE
  | LoginResponse _ => MsgLoginResponse.TYPE
  | LogoutNotification _ => MsgLogoutNotification.TYPE
  | ChecklistUpdateStart _ => MsgChecklistUpdateStart.TYPE
  | ChecklistUpdateSegment _ => MsgChecklistUpdateSegment.TYPE
  | ChecklistUpdate _ => MsgChecklistUpdate.TYPE
  | ChecklistResponses _ => MsgChecklistResponses.TYPE
  | ChecklistVersionNotification _ => MsgChecklistVersionNotification.TYPE
  | UserQuestionStart _ => MsgUserQuestionStart.TYPE
  | UserQuestionSegment _ => MsgUserQuestionSegment.TYPE
  | UserQuestion _ => MsgUserQuestion.TYPE
  | UserQuestionResponse _ => MsgUserQuestionResponse.TYPE
  | ImpactReport _ => MsgImpactReport.TYPE
  | VehicleReport _ => MsgVehicleReport.TYPE
  | SetBlockStatus _ => MsgSetBlockStatus.TYPE
  | TimeRequest _ => MsgTimeRequest.TYPE
  | TimeSet _ => MsgTimeSet.TYPE
  | TagConfig _ => MsgTagConfig.TYPE
  end.

(** Calling a class: its constructor, returning the object built. *)
Definition construct {A} (init : Runtime -> pyval -> result A)
  (inj : A -> Message) (rt : Runtime) (msg : pyval) : result Message :=
  m <- init rt msg ;; Ok (inj m).

Definition class := Runtime -> pyval -> result Message.

Definition parse_dict (rt : Runtime) (msg : pyval) : result Message :=
  ty <- py_getitem_str msg (lit "type") ;;
  let named NAME := py_eqb ty (PStr NAME) in
  if named MsgLoginRequest.NAME then
    construct MsgLoginRequest.init LoginRequest rt msg
  else if named MsgLoginResponse.NAME then
    construct MsgLoginResponse.init LoginResponse rt msg
  else if named MsgLogoutNotification.NAME then
    construct MsgLogoutNotification.init LogoutNotification rt msg
  else if named MsgChecklistUpdateStart.NAME then
    construct MsgChecklistUpdateStart.init ChecklistUpdateStart rt msg
  else if named MsgChecklistUpdateSegment.NAME then
    construct MsgChecklistUpdateSegment.init ChecklistUpdateSegment rt msg
  else if named MsgChecklistUpdate.NAME then
    construct MsgChecklistUpdate.init ChecklistUpdate rt msg
  else if named MsgChecklistResponses.NAME then
    construct MsgChecklistResponses.init ChecklistResponses rt msg
  else if named MsgChecklistVersionNotification.NAME then
    construct MsgChecklistVersionNotification.init
      ChecklistVersionNotification rt msg
  else if named MsgUserQuestionStart.NAME then
    construct MsgUserQuestionStart.init UserQuestionStart rt msg
  else if named MsgUserQuestionSegment.NAME then
    construct MsgUserQuestionSegment.init UserQuestionSegment rt msg
  else if named MsgUserQuestion.NAME then
    construct MsgUserQuestion.init UserQuestion rt msg
  else if named MsgUserQuestionResponse.NAME then
    construct MsgUserQuestionResponse.init UserQuestionResponse rt msg
  else if named MsgImpactReport.NAME then
    construct MsgImpactReport.init ImpactReport rt msg
  else if named MsgVehicleReport.NAME then
    construct MsgVehicleReport.init VehicleReport rt msg
  else if named MsgTagConfig.NAME then
    construct MsgTagConfig.init TagConfig rt msg
  else if named MsgSetBlockStatus.NAME then
    construct MsgSetBlockStatus.init SetBlockStatus rt msg
  else if named MsgTimeRequest.NAME then
    construct MsgTimeRequest.init TimeRequest rt msg
  else if named MsgTimeSet.NAME then
    construct MsgTimeSet.init TimeSet rt msg
  else Raise Exception.

(** The dict [typecode_to_msg] of [parse_bytes]. *)
Definition typecode_to_msg : list (Z * class) :=
  [ (MsgLoginRequest.TYPE, construct MsgLoginRequest.init LoginRequest);
    (MsgLoginResponse.TYPE, construct MsgLoginResponse.init LoginResponse);
    (MsgLogoutNotification.TYPE,
       construct MsgLogoutNotification.init LogoutNotification);
    (MsgChecklistUpdateStart.TYPE,
       construct MsgChecklistUpdateStart.init ChecklistUpdateStart);
    (MsgChecklistUpdateSegment.TYPE,
       construct MsgChecklistUpdateSegment.init ChecklistUpdateSegment);
    (MsgChecklistResponses.TYPE,
       construct MsgChecklistResponses.init ChecklistResponses);
    (MsgChecklistVersionNotification.TYPE,
       construct MsgChecklistVersionNotification.init
         ChecklistVersionNotification);
    (MsgUserQuestionStart.TYPE,
       construct MsgUserQuestionStart.init UserQuestionStart);
    (MsgUserQuestionSegment.TYPE,
       construct MsgUserQuestionSegment.init UserQuestionSegment);
    (MsgUserQuestionResponse.TYPE,
       construct MsgUserQuestionResponse.init UserQuestionResponse);
    (MsgImpactReport.TYPE, construct MsgImpactReport.init ImpactReport);
    (MsgVehicleReport.TYPE, construct MsgVehicleReport.init VehicleReport);
    (MsgTagConfig.TYPE, construct MsgTagConfig.init TagConfig);
    (MsgSetBlockStatus.TYPE,
       construct MsgSetBlockStatus.init SetBlockStatus);
    (MsgTimeRequest.TYPE, construct MsgTimeRequest.init TimeRequest);
    (MsgTimeSet.TYPE, construct MsgTimeSet.init TimeSet) ].

(** [msg[0]] *)
Definition py_getitem_0 (msg : pyval) : result pyval :=
  match msg with
  | PBytes (x :: _) => Ok (int_of_byte x)
  | PStr (c :: _) => Ok (PStr [c])
  | PList (x :: _) => Ok x
  | PBytes [] | PStr [] | PList [] => Raise IndexError
  | PDict d => dict_getitem d (PInt 0)
  | _ => Raise TypeError
  end.

(** [typecode_to_msg[key]]: a list or a dict cannot be hashed. *)
Definition typecode_lookup (key : pyval) : result class :=
  match key with
  | PList _ | PDict _ => Raise TypeError
  | _ =>
      match find (fun e => py_eqb (PInt (fst e)) key) typecode_to_msg with
      | Some e => Ok (snd e)
      | None => Raise KeyError
      end
  end.

Definition parse_bytes (rt : Runtime) (msg : pyval) : result Message :=
  key <- py_getitem_0 msg ;;
  cls <- typecode_lookup key ;;
  cls rt msg.

Definition parse_json (rt : Runtime) (msg : pystr) : result Message :=
  v <- json_loads rt msg ;; parse_dict rt v.


(** ** Splitters *)

Definition inspect {A} (a : A) : {b : A | a = b} := exist _ a eq_refl.

(** The [while True] loop of [checklist_splitter]: [it] is the iterator
    over [databytes], [segments] the list built so far.  Each pass reads a
    segment of [FieldChecklistSegment.SIZE] bytes; a short one is padded and
    ends the loop. *)
Equations? split_loop (it : list byte) (segments : list (list byte))
  : list (list byte) by wf (length it) lt :=
  split_loop it segments
    with inspect (len (fst (islice it FieldChecklistSegment.SIZE))
                  <? Z.of_nat FieldChecklistSegment.SIZE) := {
    | exist _ true _ =>
        let segment := fst (islice it FieldChecklistSegment.SIZE) in
        segments ++
          [segment ++ zeros (FieldChecklistSegment.SIZE - length segment)]
    | exist _ false H =>
        split_loop (snd (islice it FieldChecklistSegment.SIZE))
          (segments ++ [fst (islice it FieldChecklistSegment.SIZE)]) }.
Proof.
  change ((len (firstn 31 it) <? 31) = false) in H.
  change (length (skipn 31 it) < length it)%nat.
  apply Z.ltb_ge in H. unfold len in H.
  rewrite length_firstn in H. rewrite length_skipn. lia.
Qed.

(** [for seq_no, segment in enumerate(segments)] building one segment
    message per pass *)
Fixpoint checklist_segment_msgs (rt : Runtime) (checklist_version : pyval)
  (seq_no : Z) (segments : list (list byte)) : result (list Message) :=
  match segments with
  | [] => Ok []
  | segment :: segments' =>
      m <- MsgChecklistUpdateSegment.init rt
             (PDict [(pstr "checklist_version", checklist_version);
                     (pstr "seq_no", PInt seq_no);
                     (pstr "segment", PBytes segment)]) ;;
      r <- checklist_segment_msgs rt checklist_version (seq_no + 1)
             segments' ;;
      Ok (ChecklistUpdateSegment m :: r)
  end.

Definition checklist_splitter (rt : Runtime)
  (checklist_data checklist_version : pyval) : result (list Message) :=
  s <- json_dumps rt checklist_data ;;
  databytes <- utf8_encode s ;;
  let segments := split_loop databytes [] in
  start <- MsgChecklistUpdateStart.init rt
             (PDict [(pstr "segments", PInt (len segments));
                     (pstr "checklist_version", checklist_version);
                     (pstr "length", PInt (len databytes))]) ;;
  let output := [ChecklistUpdateStart start] in
  segs <- checklist_segment_msgs rt checklist_version 0 segments ;;
  Ok (output ++ segs).

(** [len(segment)] where [segment] is the [islice] object itself, not the
    bytes read from it: an iterator has no [len()]. *)
Definition len_of_islice (segment : list byte * list byte)
  : result Empty_set := Raise TypeError.

(** [user_question_splitter]: the first pass of the loop calls [len] on an
    [islice] object, so nothing after that call is ever run. *)
Definition user_question_splitter (rt : Runtime)
  (user_question_data question_id : pyval) : result (list Message) :=
  s <- json_dumps rt user_question_data ;;
  databytes <- utf8_encode s ;;
  let it := databytes in
  let segment := islice it FieldUserQuestionSegment.SIZE in
  n <- len_of_islice segment ;;
  match n with end.

(** A runtime whose library calls all fail, for closed examples that never
    reach them. *)
Definition rt0 : Runtime :=
  {| json_loads := fun _ => Raise JSONDecodeError;
     int_of_str := fun _ => Raise ValueError;
     float_repr := fun _ => [] |}.

(** The type codes of the eighteen message classes. *)
Definition message_types : list Z :=
  [1; 2; 3; 5; 6; 7; 8; 10; 11; 12; 13; 14; 15; 16; 17; 18; 19; 20].

(** The type codes [parse_bytes] has an entry for. *)
Definition dispatched_codes : list Z :=
  [1; 2; 3; 5; 6; 8; 10; 11; 12; 14; 15; 16; 17; 18; 19; 20].


(** An entry of a checklist-responses mapping whose question id is an int
    and whose answer is one of the ints 0, 1, 2. *)
Definition answer_entry (kv : pyval * pyval) : bool :=
  match kv with
  | (PInt _, PInt a) => (0 <=? a) && (a <=? 2)
  | _ => false
  end.

(** No two items of [d] have equal keys, as in a Python dict. *)
Fixpoint distinct_keys (d : pydict) : bool :=
  match d with
  | [] => true
  | (k, _) :: d' => negb (dict_contains d' k) && distinct_keys d'
  end.

(** Two login responses whose attributes are equal under Python's [==]. *)
Definition MsgLoginResponse_eqb (a b : MsgLoginResponse.t) : bool :=
  py_eqb (MsgLoginResponse.response a) (MsgLoginResponse.response b) &&
  py_eqb (FieldText.value (MsgLoginResponse.username a))
         (FieldText.value (MsgLoginResponse.username b)) &&
  py_eqb (FieldInteger.value (MsgLoginResponse.uid a))
         (FieldInteger.value (MsgLoginResponse.uid b)) &&
  py_eqb (MsgLoginResponse.profile a) (MsgLoginResponse.profile b).

(** The login response sent for user 7, "bob". *)
Definition login_response_bob : pyval :=
  PDict [(pstr "response", PBool true); (pstr "uid", PInt 7);
         (pstr "username", pstr "bob"); (pstr "profile", PInt 1)].

(** A checklist-responses mapping with the five entries the field holds. *)
Definition five_responses : pyval :=
  PDict [(PInt 3, PInt 2); (PInt 7, PInt 0); (PInt 1, PInt 1);
         (PInt 2, PInt 0); (PInt 4, PInt 1)].

(** A vehicle report cut after its frame counter: type, tag id 1, frame
    counter 5, and neither position. *)
Definition vehicle_report_cut : list byte :=
  [x10; x01; x00; x00; x00; x00; x00; x00; x00; x05; x00].

(** A user question response naming tag 5, question 1 and two answers. *)
Definition question_response_5_1 : pyval :=
  PDict [(pstr "tagid", PInt 5); (pstr "question_id", PInt 1);
         (pstr "responses", PList [PBool true; PBool false])].

(** The UWB position x = 1.234, y = -2.5, z = 0.0 metres. *)
Definition uwb_example : pyval :=
  PDict [(pstr "xpos", PFloat (1234 # 1000));
         (pstr "ypos", PFloat (-25 # 10));
         (pstr "zpos", PFloat 0)].

(** A checklist update segment as received: type 6, version 1, segment 0
    and 31 payload bytes. *)
Definition checklist_segment_raw : list byte :=
  [x06; x01; x00] ++ [x5b; x31; x5d] ++ repeat x00 28.

(** The segment messages carrying [segments], numbered from [seq_no]. *)
Fixpoint numbered_segments (version seq_no : Z) (segments : list (list byte))
  : list Message :=
  match segments with
  | [] => []
  | segment :: segments' =>
      ChecklistUpdateSegment
        (MsgChecklistUpdateSegment.mk (PInt version) (PInt seq_no)
           (FieldBinary.mk FieldChecklistSegment.SIZE (PBytes segment)))
      :: numbered_segments version (seq_no + 1) segments'
  end.

(** A document whose JSON text is 31 bytes: a string of 29 letters. *)
Definition doc31 : pyval := pstr "aaaaaaaaaaaaaaaaaaaaaaaaaaaaa".

(** ** Method calls on a message object

    [msg.as_bytes()], [msg.as_dict()] and [msg.as_json()] on an object of
    any of the classes call the method of its class. *)

Definition Message_NAME (m : Message) : pystr :=
  match m with
  | LoginRequest _ => MsgLoginRequest.NAME
  | LoginResponse _ => MsgLoginResponse.NAME
  | LogoutNotification _ => MsgLogoutNotification.NAME
  | ChecklistUpdateStart _ => MsgChecklistUpdateStart.NAME
  | ChecklistUpdateSegment _ => MsgChecklistUpdateSegment.NAME
  | ChecklistUpdate _ => MsgChecklistUpdate.NAME
  | ChecklistResponses _ => MsgChecklistResponses.NAME
  | ChecklistVersionNotification _ => MsgChecklistVersionNotification.NAME
  | UserQuestionStart _ => MsgUserQuestionStart.NAME
  | UserQuestionSegment _ => MsgUserQuestionSegment.NAME
  | UserQuestion _ => MsgUserQuestion.NAME
  | UserQuestionResponse _ => MsgUserQuestionResponse.NAME
  | ImpactReport _ => MsgImpactReport.NAME
  | VehicleReport _ => MsgVehicleReport.NAME
  | SetBlockStatus _ => MsgSetBlockStatus.NAME
  | TimeRequest _ => MsgTimeRequest.NAME
  | TimeSet _ => MsgTimeSet.NAME
  | TagConfig _ => MsgTagConfig.NAME
  end.

Definition Message_as_bytes (rt : Runtime) (m : Message)
  : result (list byte) :=
  match m with
  | LoginRequest x => MsgLoginRequest.as_bytes x
  | LoginResponse x => MsgLoginResponse.as_bytes x
  | LogoutNotification x => MsgLogoutNotification.as_bytes x
  | ChecklistUpdateStart x => MsgChecklistUpdateStart.as_bytes x
  | ChecklistUpdateSegment x => MsgChecklistUpdateSegment.as_bytes x
  | ChecklistUpdate x => MsgChecklistUpdate.as_bytes rt x
  | ChecklistResponses x => MsgChecklistResponses.as_bytes x
  | ChecklistVersionNotification x =>
      MsgChecklistVersionNotification.as_bytes x
  | UserQuestionStart x => MsgUserQuestionStart.as_bytes x
  | UserQuestionSegment x => MsgUserQuestionSegment.as_bytes x
  | UserQuestion x => MsgUserQuestion.as_bytes rt x
  | UserQuestionResponse x => MsgUserQuestionResponse.as_bytes x
  | ImpactReport x => MsgImpactReport.as_bytes x
  | VehicleReport x => MsgVehicleReport.as_bytes x
  | SetBlockStatus x => MsgSetBlockStatus.as_bytes x
  | TimeRequest x => MsgTimeRequest.as_bytes x
  | TimeSet x => MsgTimeSet.as_bytes x
  | TagConfig x => MsgTagConfig.as_bytes x
  end.

Definition Message_as_dict (m : Message) : result pyval :=
  match m with
  | LoginRequest x => Ok (MsgLoginRequest.as_dict x)
  | LoginResponse x => Ok (MsgLoginResponse.as_dict x)
  | LogoutNotification x => Ok (MsgLogoutNotification.as_dict x)
  | ChecklistUpdateStart x => Ok (MsgChecklistUpdateStart.as_dict x)
  | ChecklistUpdateSegment x => Ok (MsgChecklistUpdateSegment.as_dict x)
  | ChecklistUpdate x => Ok (MsgChecklistUpdate.as_dict x)
  | ChecklistResponses x => MsgChecklistResponses.as_dict x
  | ChecklistVersionNotification x =>
      Ok (MsgChecklistVersionNotification.as_dict x)
  | UserQuestionStart x => Ok (MsgUserQuestionStart.as_dict x)
  | UserQuestionSegment x => Ok (MsgUserQuestionSegment.as_dict x)
  | UserQuestion x => Ok (MsgUserQuestion.as_dict x)
  | UserQuestionResponse x => MsgUserQuestionResponse.as_dict x
  | ImpactReport x => Ok (MsgImpactReport.as_dict x)
  | VehicleReport x => Ok (MsgVehicleReport.as_dict x)
  | SetBlockStatus x => Ok (MsgSetBlockStatus.as_dict x)
  | TimeRequest x => Ok (MsgTimeRequest.as_dict x)
  | TimeSet x => Ok (MsgTimeSet.as_dict x)
  | TagConfig x => Ok (MsgTagConfig.as_dict x)
  end.

Definition Message_as_json (rt : Runtime) (m : Message) : result pystr :=
  match m with
  | LoginRequest x => MsgLoginRequest.as_json rt x
  | LoginResponse x => MsgLoginResponse.as_json rt x
  | LogoutNotification x => MsgLogoutNotification.as_json rt x
  | ChecklistUpdateStart x => MsgChecklistUpdateStart.as_json rt x
  | ChecklistUpdateSegment x => MsgChecklistUpdateSegment.as_json rt x
  | ChecklistUpdate x => MsgChecklistUpdate.as_json rt x
  | ChecklistResponses x => MsgChecklistResponses.as_json rt x
  | ChecklistVersionNotification x =>
      MsgChecklistVersionNotification.as_json rt x
  | UserQuestionStart x => MsgUserQuestionStart.as_json rt x
  | UserQuestionSegment x => MsgUserQuestionSegment.as_json rt x
  | UserQuestion x => MsgUserQuestion.as_json rt x
  | UserQuestionResponse x => MsgUserQuestionResponse.as_json rt x
  | ImpactReport x => MsgImpactReport.as_json rt x
  | VehicleReport x => MsgVehicleReport.as_json rt x
  | SetBlockStatus x => MsgSetBlockStatus.as_json rt x
  | TimeRequest x => MsgTimeRequest.as_json rt x
  | TimeSet x => MsgTimeSet.as_json rt x
  | TagConfig x => MsgTagConfig.as_json rt x
  end.

(** [isinstance(v, bytes)] *)
Definition is_bytes (v : pyval) : bool :=
  match v with PBytes _ => true | _ => false end.

(** A dict none of whose values is a [bytes] object, as every dict that
    [json.loads] returns is. *)
Definition no_bytes_values (d : pydict) : bool :=
  forallb (fun kv => negb (is_bytes (snd kv))) d.

(** [isinstance(v, bool)] *)
Definition is_bool (v : pyval) : bool :=
  match v with PBool _ => true | _ => false end.

(** A dict none of whose values is a [bytes] object or a [bool]. *)
Definition no_bytes_or_bool_values (d : pydict) : bool :=
  forallb (fun kv => negb (is_bytes (snd kv)) && negb (is_bool (snd kv))) d.


(** A character of ASCII other than NUL. *)
Definition ascii_char (c : N) : Prop := (0 < c < 128)%N.

(** The runtime writes floats in ASCII. *)
Definition ascii_floats (rt : Runtime) : Prop :=
  forall q, Forall ascii_char (float_repr rt q).


(** * main.py *)

(** ** [str] and sequence operations of the command interpreter *)

(** [sub] is a prefix of [s]. *)
Fixpoint str_startswith (s sub : pystr) {struct sub} : bool :=
  match sub, s with
  | [], _ => true
  | c :: sub', c' :: s' => (c =? c')%N && str_startswith s' sub'
  | _ :: _, [] => false
  end.

(** [s.find(sub)]: the lowest index at which [sub] occurs, or -1. *)
Fixpoint str_find_sub (s sub : pystr) : Z :=
  if str_startswith s sub then 0
  else
    match s with
    | [] => -1
    | _ :: s' =>
        let p := str_find_sub s' sub in
        if p =? -1 then -1 else p + 1
    end.

(** [s.split(sep)] for a separator of one character. *)
Fixpoint str_split (s : pystr) (sep : N) : list pystr :=
  match s with
  | [] => [[]]
  | c :: s' =>
      if (c =? sep)%N then [] :: str_split s' sep
      else
        match str_split s' sep with
        | h :: t => (c :: h) :: t
        | [] => [[c]]
        end
  end.

(** [dict(zip(range(len(responses)), responses))] *)
Definition enumerate_dict (responses : list pystr) : pydict :=
  map (fun p => (PInt (Z.of_nat (fst p)), PStr (snd p)))
      (combine (seq 0 (length responses)) responses).

(** [l[i]] for a list [l] and an int [i] *)
Definition list_getitem {A} (l : list A) (i : Z) : result A :=
  let j := if i <? 0 then i + len l else i in
  if j <? 0 then Raise IndexError
  else
    match nth_error l (Z.to_nat j) with
    | Some x => Ok x
    | None => Raise IndexError
    end.

(** [v[i]] for an int [i] *)
Definition py_getitem_int (v : pyval) (i : Z) : result pyval :=
  match v with
  | PList l => list_getitem l i
  | PDict d => dict_getitem d (PInt i)
  | PStr s => c <- list_getitem s i ;; Ok (PStr [c])
  | PBytes b => x <- list_getitem b i ;; Ok (int_of_byte x)
  | _ => Raise TypeError
  end.

(** [x in c] for a [str] [x] *)
Definition str_in (x : pystr) (c : pyval) : result bool :=
  match c with
  | PDict d => Ok (dict_contains d (PStr x))
  | PList l => Ok (existsb (fun y => py_eqb y (PStr x)) l)
  | PStr s => Ok (0 <=? str_find_sub s x)
  | _ => Raise TypeError
  end.

(** [str(v)] for the value of an integer field, which is an [int], a [bool]
    or [None]. *)
Definition integer_text (v : pyval) : pystr :=
  match v with
  | PInt n => str_of_Z n
  | PBool b => lit (if b then "True" else "False")
  | _ => lit "None"
  end.

(** ** The world around the main program *)

(** What is put on the queue of the user terminal: a message object, or
    the bytes of a JSON text. *)
Inductive queue_item : Type :=
| ItemMessage (m : Message)
| ItemBytes (b : list byte).

(** The levels of the log records the methods below write. *)
Inductive level : Set := INFO | WARNING.

(** The effects of the methods of [Main], in the order they happen: a log
    record of a given level (its text is not modelled), a line printed, and
    [self.ut.send(item)]. *)
Inductive event : Type :=
| Log (l : level)
| PrintLine
| UtSend (item : queue_item).

(** The library calls whose result the program does not determine:
    [choose n k] is the list [random.sample(range(n), k)] returns when
    [0 <= k <= n], [urandom] the byte [os.urandom(1)] returns. *)
Record Os : Type := {
  choose : Z -> Z -> list Z;
  urandom : byte
}.

(** [random.sample(range(n), k)]: [ValueError] unless [0 <= k <= n], and
    [TypeError] for a [k] that cannot be compared with an int or is not an
    int. *)
Definition random_sample (os : Os) (n : Z) (k : pyval) : result (list Z) :=
  match k with
  | PInt k =>
      if (k <? 0) || (n <? k) then Raise ValueError else Ok (choose os n k)
  | PBool b =>
      let k := Z.b2z b in
      if n <? k then Raise ValueError else Ok (choose os n k)
  | PFloat q =>
      if Qle_bool 0 q && Qle_bool q (inject_Z n) then Raise TypeError
      else Raise ValueError
  | _ => Raise TypeError
  end.

(** The attributes of [Main] that its methods read and write. *)
Record Main : Type := {
  cfg : pyval;
  checklists : list (list Z);
  picked_questions : list Z
}.

(** A method of [Main]: it runs in a state of the object, causes events, and
    returns a value and the new state, or raises. *)
Definition io (A : Type) : Type := Main -> list event * result (A * Main).

Definition io_ret {A} (a : A) : io A := fun self => ([], Ok (a, self)).

Definition io_bind {A B} (m : io A) (k : A -> io B) : io B :=
  fun self =>
    match m self with
    | (t, Ok (a, self')) =>
        let '(t', r) := k a self' in (t ++ t', r)
    | (t, Raise e) => (t, Raise e)
    end.

Definition io_lift {A} (r : result A) : io A :=
  fun self =>
    match r with
    | Ok a => ([], Ok (a, self))
    | Raise e => ([], Raise e)
    end.

Definition emit (e : event) : io unit := fun self => ([e], Ok (tt, self)).

Definition get_self : io Main := fun self => ([], Ok (self, self)).

Definition put_self (self' : Main) : io unit :=
  fun _ => ([], Ok (tt, self')).

Notation "x <~ m ;; k" := (io_bind m (fun x => k))
  (at level 61, m at next level, right associativity).

(** [[self.cfg['checklist_questions'][i] for i in self.picked_questions]] *)
Fixpoint questions_picked (cfg : pyval) (picked : list Z)
  : result (list pyval) :=
  match picked with
  | [] => Ok []
  | i :: picked' =>
      questions <- py_getitem_str cfg (lit "checklist_questions") ;;
      q <- py_getitem_int questions i ;;
      r <- questions_picked cfg picked' ;;
      Ok (q :: r)
  end.

Definition send_current_checklist (rt : Runtime) : io unit :=
  self <~ get_self ;;
  checklist_dict <~ io_lift (questions_picked (cfg self)
                               (picked_questions self)) ;;
  checklist_msg <~ io_lift
    (MsgChecklistUpdate.init rt
       (PDict [(pstr "checklist_version", PInt (len (checklists self)));
               (pstr "checklist_data", PList checklist_dict)])) ;;
  _ <~ io_lift (MsgChecklistUpdate.as_json rt checklist_msg) ;;
  _ <~ emit (Log INFO) ;;
  emit (UtSend (ItemMessage (ChecklistUpdate checklist_msg))).

Definition create_new_checklist (rt : Runtime) (os : Os) : io unit :=
  self <~ get_self ;;
  questions <~ io_lift (py_getitem_str (cfg self)
                          (lit "checklist_questions")) ;;
  n <~ io_lift (py_len questions) ;;
  k <~ io_lift (py_getitem_str (cfg self)
                  (lit "checklist_num_questions")) ;;
  picked <~ io_lift (random_sample os n k) ;;
  _ <~ put_self {| cfg := cfg self;
                   checklists := checklists self ++ [picked];
                   picked_questions := picked |} ;;
  send_current_checklist rt.

(** [question_text, *responses = l] *)
Definition unpack_first {A} (l : list A) : result (A * list A) :=
  match l with
  | [] => Raise ValueError
  | x :: r => Ok (x, r)
  end.

Definition cmd_interpreter (rt : Runtime) (os : Os) (cmd : pystr)
  : io unit :=
  if list_eqb N.eqb cmd (lit "update checklist") then
    create_new_checklist rt os
  else if str_find_sub cmd (lit "question ") =? 0 then
    p <~ io_lift
      (unpack_first
         (str_split (skipn (length (lit "new-question ")) cmd) 44%N)) ;;
    let '(question_text, responses) := p in
    let question_data :=
      PDict [(pstr "text", PStr question_text);
             (pstr "responses", PDict (enumerate_dict responses))] in
    msg <~ io_lift
      (MsgUserQuestion.init rt
         (PDict [(pstr "question_id", int_of_byte (urandom os));
                 (pstr "user_question", question_data)])) ;;
    _ <~ emit (Log INFO) ;;
    s <~ io_lift (MsgUserQuestion.as_json rt msg) ;;
    b <~ io_lift (utf8_encode s) ;;
    emit (UtSend (ItemBytes b))
  else if str_find_sub cmd (lit "send checklist version") =? 0 then
    self <~ get_self ;;
    msg <~ io_lift
      (MsgChecklistVersionNotification.init rt
         (PDict [(pstr "checklist_version",
                  PInt (len (checklists self)))])) ;;
    _ <~ emit (Log INFO) ;;
    s <~ io_lift (MsgChecklistVersionNotification.as_json rt msg) ;;
    b <~ io_lift (utf8_encode s) ;;
    emit (UtSend (ItemBytes b))
  else
    emit (Log WARNING).

Definition process_msg_from_terminal (rt : Runtime) (msg : Message)
  : io unit :=
  match msg with
  | LoginRequest m =>
      self <~ get_self ;;
      let uid := FieldInteger.value (MsgLoginRequest.uid m) in
      userdb <~ io_lift (py_getitem_str (cfg self) (lit "userdb")) ;;
      known <~ io_lift (str_in (integer_text uid) userdb) ;;
      if known then
        _ <~ emit (Log INFO) ;;
        userdb <~ io_lift (py_getitem_str (cfg self) (lit "userdb")) ;;
        userinfo <~ io_lift (py_getitem_str userdb (integer_text uid)) ;;
        username <~ io_lift (py_getitem_str userinfo (lit "username")) ;;
        profile <~ io_lift (py_getitem_str userinfo (lit "profile")) ;;
        r <~ io_lift
          (MsgLoginResponse.init rt
             (PDict [(pstr "response", PBool true); (pstr "uid", uid);
                     (pstr "username", username);
                     (pstr "profile", profile)])) ;;
        emit (UtSend (ItemMessage (LoginResponse r)))
      else
        _ <~ emit (Log INFO) ;;
        r <~ io_lift
          (MsgLoginResponse.init rt
             (PDict [(pstr "response", PBool false); (pstr "uid", uid);
                     (pstr "username", PStr []);
                     (pstr "profile", PInt 255)])) ;;
        emit (UtSend (ItemMessage (LoginResponse r)))
  | SetBlockStatus m => emit PrintLine
  | LogoutNotification m => emit (Log INFO)
  | ChecklistResponses m =>
      _ <~ io_lift (MsgChecklistResponses.as_dict m) ;;
      emit (Log INFO)
  | ChecklistVersionNotification m =>
      self <~ get_self ;;
      _ <~ emit (Log INFO) ;;
      if negb (py_eqb (MsgChecklistVersionNotification.checklist_version m)
                 (PInt (len (checklists self)))) then
        _ <~ emit (Log INFO) ;;
        send_current_checklist rt
      else
        emit (Log INFO)
  | UserQuestionResponse m =>
      _ <~ io_lift (MsgUserQuestionResponse.as_dict m) ;;
      emit (Log INFO)
  | ImpactReport m => emit (Log INFO)
  | _ => emit (Log WARNING)
  end.

(** * userterminal.py *)

(** [msg.as_json()] for what was taken from the queue: a bytes object has
    no such method. *)
Definition item_as_json (rt : Runtime) (msg : queue_item) : result pystr :=
  match msg with
  | ItemMessage m => Message_as_json rt m
  | ItemBytes _ => Raise AttributeError
  end.

(** How [client.send(data)] ends: it returns, it raises the
    [BluetoothError] that the loop catches, or it raises something else. *)
Inductive send_outcome : Type :=
| Sent
| BluetoothError
| SendRaises (e : exn).

(** The effects of the loop of [_subproc] on the outbound side: the call of
    [client.send], a warning logged, and a frame of type [frame_type]
    carrying [msg] put on the queue of the main program. *)
Inductive terminal_event : Type :=
| ClientSend (data : pystr)
| LogWarning
| MgrPut (frame_type : pystr) (msg : queue_item).

(** The part of one pass of the loop of [_subproc] that checks the outbound
    queue: [client] is [None] or the socket's [send], [queued] what
    [my_q.get_nowait()] returns ([None] for [queue.Empty]).  It returns the
    new value of [do_loop_delay]. *)
Definition subproc_outbound (rt : Runtime)
  (client : option (pystr -> send_outcome)) (queued : option queue_item)
  (do_loop_delay : bool) : list terminal_event * result bool :=
  match queued with
  | None => ([], Ok do_loop_delay)
  | Some msg =>
      match client with
      | Some send =>
          match item_as_json rt msg with
          | Raise e => ([], Raise e)
          | Ok data =>
              match send data with
              | Sent => ([ClientSend data], Ok false)
              | BluetoothError =>
                  ([ClientSend data; LogWarning;
                    MgrPut (lit "user_undelivered") msg], Ok false)
              | SendRaises e => ([ClientSend data], Raise e)
              end
          end
      | None => ([MgrPut (lit "user_undelivered") msg], Ok do_loop_delay)
      end
  end.
Unset Implicit Arguments.

(** * Properties *)

(** ** Basic facts *)

Lemma bind_ok {A B} (m : result A) (k : A -> result B) (b : B) :
  bind m k = Ok b -> exists a, m = Ok a /\ k a = Ok b.
Proof. destruct m as [a|e]; simpl; intros H; [eauto | discriminate]. Qed.

Lemma bind_raise {A B} (m : result A) (k : A -> result B) (e : exn) :
  bind m k = Raise e -> m = Raise e \/ exists a, m = Ok a /\ k a = Raise e.
Proof. destruct m as [a|e']; simpl; intros H; [eauto | left; congruence]. Qed.

Lemma py_eqb_int (a b : Z) : py_eqb (PInt a) (PInt b) = (a =? b).
Proof.
  simpl. unfold Qeq_bool, inject_Z. simpl. now rewrite !Z.mul_1_r.
Qed.

Lemma byte_to_Z_range (b : byte) : 0 <= byte_to_Z b < 256.
Proof.
  unfold byte_to_Z. pose proof (Byte.to_N_bounded b). lia.
Qed.

Lemma str_index_raises (s : pystr) (c : N) (e : exn) :
  str_index s c = Raise e -> e = ValueError.
Proof.
  unfold str_index. destruct (str_find s c); intros H; congruence.
Qed.
Lemma utf8_decode_raises_aux (n : nat) :
  forall b e, (length b <= n)%nat ->
    utf8_decode b = Raise e -> e = UnicodeDecodeError.
Proof.
  induction n as [|n IH]; intros b e Hlen H.
  - destruct b; [discriminate H | simpl in Hlen; lia].
  - destruct b as [|b0 r]; [discriminate H|].
    simpl in Hlen. cbn [utf8_decode] in H.
    repeat match type of H with
           | (if ?c then _ else _) = _ => destruct c
           | match ?r with [] => _ | _ :: _ => _ end = _ =>
               destruct r; simpl in Hlen
           | match cont ?a ?b ?c with _ => _ end = _ => destruct (cont a b c)
           | bind (utf8_decode ?r) _ = _ =>
               let E := fresh "E" in
               destruct (utf8_decode r) eqn:E;
               [ simpl in H | apply IH in E; [simpl in H | lia] ]
           end; try congruence.
Qed.

Lemma utf8_decode_raises (b : list byte) (e : exn) :
  utf8_decode b = Raise e -> e = UnicodeDecodeError.
Proof. apply (utf8_decode_raises_aux (length b)). lia. Qed.
(** C1 (code at the failing inputs): a login response built from valid
    fields serialises to 23 bytes, and the constructor reads these bytes
    back into a different record: [as_bytes] writes the username before the
    uid, the constructor reads the uid before the username.  The bytes
    constructor of [checklist_update] never returns a record, and
    [as_bytes] of [impact_report] never returns bytes. *)
Theorem login_response_bytes_roundtrip_differs :
  forall rt : Runtime,
    (exists m b m',
       MsgLoginResponse.init rt login_response_bob = Ok m /\
       MsgLoginResponse.as_bytes m = Ok b /\
       MsgLoginResponse.init rt (PBytes b) = Ok m' /\
       MsgLoginResponse_eqb m' m = false /\
       FieldInteger.value (MsgLoginResponse.uid m) = PInt 7 /\
       FieldInteger.value (MsgLoginResponse.uid m') = PInt 6451042 /\
       FieldText.value (MsgLoginResponse.username m) = pstr "bob" /\
       FieldText.value (MsgLoginResponse.username m') = pstr "") /\
    (forall b, is_ok (MsgChecklistUpdate.init rt (PBytes b)) = false) /\
    (forall m, is_ok (MsgImpactReport.as_bytes m) = false).
Proof.
  intros rt. split; [|split].
  - do 3 eexists. split; [reflexivity|]. split; [reflexivity|].
    split; [reflexivity|]. repeat split.
  - intros b. unfold MsgChecklistUpdate.init. cbn [load bind].
    destruct b as [|x b]; [reflexivity|]. cbn [next bind].
    now destruct (negb (byte_to_Z x =? MsgChecklistUpdate.TYPE)).
  - intros m. unfold MsgImpactReport.as_bytes. cbn [bytes_of_list py_byte].
    change (byte_of_Z MsgImpactReport.TYPE) with (Some x0f). cbn [bind].
    destruct (FieldInteger.as_bytes (MsgImpactReport.tagid m));
      cbn [bind]; [|reflexivity].
    destruct (py_byte (MsgImpactReport.severity m)); reflexivity.
Qed.
Lemma dict_setitem_nonempty (d : pydict) (k v : pyval) :
  dict_setitem d k v <> [].
Proof.
  destruct d as [|[k' v'] d]; simpl; [discriminate|].
  destruct (py_eqb k' k); discriminate.
Qed.

Lemma from_items_nonempty (rt : Runtime) (items : pydict) :
  forall acc r,
    FieldChecklistResponses.from_items rt (Some acc) items = Ok r ->
    exists d, r = Some d /\ (acc <> [] \/ items <> [] -> d <> []).
Proof.
  induction items as [|[k v] items IH]; intros acc r H.
  - simpl in H. injection H as <-. exists acc. split; [reflexivity|].
    intros [Ha|Hi]; [exact Ha | now contradiction Hi].
  - cbn [FieldChecklistResponses.from_items] in H.
    destruct (negb (in_0_1_2 v)); [discriminate H|].
    destruct (py_int rt k) as [ik|e]; [|discriminate H].
    cbn [bind FieldChecklistResponses.store] in H.
    apply IH in H. destruct H as (d & -> & Hd).
    exists d. split; [reflexivity|]. intros _. apply Hd. left.
    apply dict_setitem_nonempty.
Qed.

Lemma pack_nonempty (out : list byte) (items : pydict) :
  items <> [] -> FieldChecklistResponses.pack out items = Raise TypeError.
Proof.
  destruct items as [|[k v] items]; [now intros H|]. intros _.
  destruct v; try reflexivity; destruct k; reflexivity.
Qed.

Lemma checklist_responses_never_serialises (rt : Runtime) (v : pyval)
  (f : FieldChecklistResponses.t) :
  FieldChecklistResponses.init rt v = Ok f ->
  FieldChecklistResponses.as_bytes f = Raise TypeError.
Proof.
  unfold FieldChecklistResponses.init. intros H.
  apply bind_ok in H. destruct H as (n & Hn & H).
  destruct (n =? Z.of_nat FieldChecklistResponses.NUM_RESPONSES) eqn:En;
    cbn [negb] in H.
  2:{ destruct (py_getitem_str v (lit "responses")); [|discriminate H].
      cbn [bind] in H. destruct (py_len a); discriminate H. }
  apply Z.eqb_eq in En. subst n.
  destruct v; try discriminate H.
  - (* bytes: the first byte already fails *)
    destruct b as [|x b]; [discriminate Hn|]. discriminate H.
  - (* dict *)
    apply bind_ok in H. destruct H as (r & Hr & H). injection H as <-.
    apply from_items_nonempty in Hr. destruct Hr as (d' & -> & Hd).
    unfold FieldChecklistResponses.as_bytes. cbn.
    apply pack_nonempty. apply Hd. right.
    destruct d; [discriminate Hn | discriminate].
Qed.

(** C2 (code at the failing inputs): a binary field of width 31 built from
    the two-character string "ab" returns two bytes from [as_bytes], not
    31; and a checklist-responses field built from a valid five-entry
    mapping returns no bytes at all: [as_bytes] raises [TypeError], as it
    does for every field the constructor can build. *)
Theorem binary_and_responses_as_bytes_width :
  (exists f,
     FieldChecklistSegment.init (pstr "ab") = Ok f /\
     FieldBinary.as_bytes f = PBytes [x61; x62] /\
     py_len (FieldBinary.as_bytes f) = Ok 2 /\
     Z.of_nat FieldChecklistSegment.SIZE = 31) /\
  (forall rt : Runtime,
     (exists f,
        FieldChecklistResponses.init rt five_responses = Ok f /\
        FieldChecklistResponses.as_bytes f = Raise TypeError) /\
     (forall v, match FieldChecklistResponses.init rt v with
                | Ok f => FieldChecklistResponses.as_bytes f = Raise TypeError
                | Raise _ => True
                end)).
Proof.
  split.
  - eexists. repeat split.
  - intros rt. split.
    + eexists. split; reflexivity.
    + intros v.
      destruct (FieldChecklistResponses.init rt v) as [f|e] eqn:E;
        [|exact I].
      eapply checklist_responses_never_serialises; eassumption.
Qed.
Lemma py_int_int rt n : py_int rt (PInt n) = Ok n.
Proof. reflexivity. Qed.

(** Walking through a computation that is assumed to raise [KeyError]. *)
Ltac nokey_step :=
  match goal with
  | H : Raise _ = Raise KeyError |- _ => discriminate H
  | H : Ok _ = Raise _ |- _ => discriminate H
  | H : utf8_decode _ = Raise KeyError |- _ =>
      apply utf8_decode_raises in H; discriminate H
  | H : str_index _ _ = Raise KeyError |- _ =>
      apply str_index_raises in H; discriminate H
  | H : py_int _ (PInt _) = Raise _ |- _ => discriminate H
  | H : bind (Ok _) _ = Raise KeyError |- _ => cbn [bind] in H
  | H : bind (Raise _) _ = Raise KeyError |- _ => cbn [bind] in H
  | H : bind ?m ?k = Raise KeyError |- _ =>
      let a := fresh "a" in let E := fresh "E" in let K := fresh "K" in
      destruct (@bind_raise _ _ _ _ _ H) as [K | (a & E & K)]; clear H;
      cbv beta in K
  | H : (if ?c then _ else _) = Raise KeyError |- _ => destruct c
  | H : (let '(_, _) := ?p in _) = Raise KeyError |- _ => destruct p
  | H : match ?x with _ => _ end = Raise KeyError |- _ => destruct x
  end.

Ltac nokey := repeat nokey_step.

Ltac unfold_fields H :=
  unfold construct, load, next, assert_exhausted,
    FieldUID.init, FieldTagID.init, FieldUsername.init,
    FieldPayloadLength.init, FieldChecklistSegment.init,
    FieldFrameCounter.init, FieldTimestamp.init, FieldVehicleName.init,
    FieldUserQuestionResponse.init,
    FieldInteger.init, FieldInteger.set_value,
    FieldText.init, FieldText.set_value,
    FieldBinary.init, FieldBinary.set_value,
    FieldVarLenList.init, FieldVarLenList.set_value,
    FieldUWBPosition.init, FieldGPSPosition.init,
    FieldChecklistResponses.init, py_len, py_getitem_str, int_of_byte
    in H.

Lemma from_raw_no_keyerror self b :
  FieldChecklistResponses.from_raw self b <> Raise KeyError.
Proof.
  revert self. induction b as [|x b IH]; intros self H; simpl in H.
  - discriminate.
  - destruct self; simpl in H; [|discriminate]. now apply IH in H.
Qed.

Lemma typecode_class_no_keyerror rt b c cls :
  In (c, cls) typecode_to_msg -> cls rt (PBytes b) <> Raise KeyError.
Proof.
  unfold typecode_to_msg. intros Hin.
  repeat (destruct Hin as [Hin|Hin];
          [ injection Hin as _ <-; intros H;
            unfold MsgLoginRequest.init, MsgLoginResponse.init,
              MsgLogoutNotification.init, MsgChecklistUpdateStart.init,
              MsgChecklistUpdateSegment.init, MsgChecklistResponses.init,
              MsgChecklistVersionNotification.init,
              MsgUserQuestionStart.init, MsgUserQuestionSegment.init,
              MsgUserQuestionResponse.init, MsgImpactReport.init,
              MsgVehicleReport.init, MsgTagConfig.init,
              MsgSetBlockStatus.init, MsgTimeRequest.init, MsgTimeSet.init
              in H;
            unfold_fields H; nokey;
            try (eapply from_raw_no_keyerror; eassumption) | ]).
  destruct Hin.
Qed.

Lemma typecode_class_type rt msg c cls m :
  In (c, cls) typecode_to_msg -> cls rt msg = Ok m -> Message_TYPE m = c.
Proof.
  unfold typecode_to_msg. intros Hin.
  repeat (destruct Hin as [Hin|Hin];
          [ injection Hin as <- <-; unfold construct; intros H;
            apply bind_ok in H; destruct H as (a & _ & H);
            injection H as <-; reflexivity | ]).
  destruct Hin.
Qed.

Lemma dispatched_codes_table (k : Z) :
  In k dispatched_codes <-> In k (map fst typecode_to_msg).
Proof.
  split; simpl; intros H;
    repeat (destruct H as [H|H]; [subst k; tauto|]); contradiction.
Qed.

Lemma typecode_lookup_byte (c : byte) :
  match typecode_lookup (int_of_byte c) with
  | Ok cls => In (byte_to_Z c, cls) typecode_to_msg
  | Raise e => e = KeyError /\ ~ In (byte_to_Z c) dispatched_codes
  end.
Proof.
  unfold typecode_lookup, int_of_byte.
  destruct (find _ typecode_to_msg) as [e|] eqn:E.
  - apply find_some in E. destruct E as [Hin He].
    rewrite py_eqb_int in He. apply Z.eqb_eq in He.
    rewrite <- He. now destruct e.
  - split; [reflexivity|]. intros Hin.
    apply dispatched_codes_table in Hin. apply in_map_iff in Hin.
    destruct Hin as (e & He & Hin).
    pose proof (find_none _ _ E e Hin) as Hn. cbv beta in Hn.
    rewrite py_eqb_int, He, Z.eqb_refl in Hn. discriminate.
Qed.

(** C3 (as amended): [parse_bytes] looks the first byte of the buffer up in
    a table that has an entry for the codes 1-3, 5, 6, 8, 10-12 and 14-20,
    and calls the class found on the buffer: 1 is [MsgLoginRequest], 2
    [MsgLoginResponse], 3 [MsgLogoutNotification], 5
    [MsgChecklistUpdateStart], 6 [MsgChecklistUpdateSegment], 8
    [MsgChecklistResponses], 10 [MsgChecklistVersionNotification], 11
    [MsgUserQuestionStart], 12 [MsgUserQuestionSegment], 14
    [MsgUserQuestionResponse], 15 [MsgImpactReport], 16 [MsgVehicleReport],
    17 [MsgSetBlockStatus], 18 [MsgTimeRequest], 19 [MsgTimeSet] and 20
    [MsgTagConfig].  It raises [KeyError] exactly when the first byte is none
    of these codes (so for the reserved codes 4 and 9, and also for 7 and
    13, the codes of [checklist_update] and [user_question]); a message it
    returns belongs to the class whose [TYPE] is the first byte. *)
Theorem parse_bytes_dispatch :
  forall (rt : Runtime) (c : byte) (rest : list byte),
    (parse_bytes rt (PBytes (c :: rest)) = Raise KeyError <->
     ~ In (byte_to_Z c) dispatched_codes) /\
    parse_bytes rt (PBytes (c :: rest))
    = (let msg := PBytes (c :: rest) in
       match byte_to_Z c with
       | 1 => construct MsgLoginRequest.init LoginRequest rt msg
       | 2 => construct MsgLoginResponse.init LoginResponse rt msg
       | 3 => construct MsgLogoutNotification.init LogoutNotification rt msg
       | 5 =>
           construct MsgChecklistUpdateStart.init ChecklistUpdateStart rt msg
       | 6 =>
           construct MsgChecklistUpdateSegment.init ChecklistUpdateSegment
             rt msg
       | 8 => construct MsgChecklistResponses.init ChecklistResponses rt msg
       | 10 =>
           construct MsgChecklistVersionNotification.init
             ChecklistVersionNotification rt msg
       | 11 => construct MsgUserQuestionStart.init UserQuestionStart rt msg
       | 12 =>
           construct MsgUserQuestionSegment.init UserQuestionSegment rt msg
       | 14 =>
           construct MsgUserQuestionResponse.init UserQuestionResponse rt msg
       | 15 => construct MsgImpactReport.init ImpactReport rt msg
       | 16 => construct MsgVehicleReport.init VehicleReport rt msg
       | 17 => construct MsgSetBlockStatus.init SetBlockStatus rt msg
       | 18 => construct MsgTimeRequest.init TimeRequest rt msg
       | 19 => construct MsgTimeSet.init TimeSet rt msg
       | 20 => construct MsgTagConfig.init TagConfig rt msg
       | _ => Raise KeyError
       end) /\
    (In (byte_to_Z c) dispatched_codes ->
     exists cls, In (byte_to_Z c, cls) typecode_to_msg /\
                 parse_bytes rt (PBytes (c :: rest))
                 = cls rt (PBytes (c :: rest))) /\
    (forall m, parse_bytes rt (PBytes (c :: rest)) = Ok m ->
               Message_TYPE m = byte_to_Z c).
Proof.
  intros rt c rest. split; [|split].
  2: { cbv zeta. unfold parse_bytes. cbn [py_getitem_0 bind].
       unfold int_of_byte.
       destruct c;
         match goal with
         | |- context [byte_to_Z ?x] =>
             let k := eval vm_compute in (byte_to_Z x) in
             change (byte_to_Z x) with k
         end; cbv iota; reflexivity. }
  all: unfold parse_bytes; cbn [py_getitem_0 bind];
    pose proof (typecode_lookup_byte c) as L;
    destruct (typecode_lookup (int_of_byte c)) as [cls|e]; cbn [bind].
  - assert (Hd : In (byte_to_Z c) dispatched_codes).
    { apply dispatched_codes_table. apply in_map_iff.
      exists (byte_to_Z c, cls). now split. }
    split.
    + intros H.
      now apply typecode_class_no_keyerror with (c := byte_to_Z c) in H.
    + intros H. contradiction.
  - destruct L as [-> Hn]. split.
    + intros _. exact Hn.
    + reflexivity.
  - split.
    + intros _. exists cls. now split.
    + intros m H. eapply typecode_class_type; eassumption.
  - destruct L as [-> Hn]. split.
    + intros H. contradiction.
    + intros m H. discriminate H.
Qed.

Lemma parse_bytes_dispatch_witness :
  parse_bytes rt0 (PBytes [x04; x00]) = Raise KeyError /\
  parse_bytes rt0 (PBytes [x09; x00]) = Raise KeyError /\
  parse_bytes rt0 (PBytes [x01; x2a; x00; x00; x00; x07; x00; x00; x00])
  = construct MsgLoginRequest.init LoginRequest rt0
      (PBytes [x01; x2a; x00; x00; x00; x07; x00; x00; x00]) /\
  parse_bytes rt0 (PBytes [x03; x07; x00; x00; x00])
  = construct MsgLogoutNotification.init LogoutNotification rt0
      (PBytes [x03; x07; x00; x00; x00]).
Proof.
  split; [|split; [|split]].
  - apply (proj1 (parse_bytes_dispatch rt0 x04 [x00])).
    vm_compute. intros H. repeat (destruct H as [H|H]; [discriminate H|]).
    exact H.
  - apply (proj1 (parse_bytes_dispatch rt0 x09 [x00])).
    vm_compute. intros H. repeat (destruct H as [H|H]; [discriminate H|]).
    exact H.
  - exact (proj1 (proj2 (parse_bytes_dispatch rt0 x01
                           [x2a; x00; x00; x00; x07; x00; x00; x00]))).
  - exact (proj1 (proj2 (parse_bytes_dispatch rt0 x03
                           [x07; x00; x00; x00]))).
Defined.

(** C3 (as stated) fails: 7 and 13 are type codes of defined message
    classes, and [parse_bytes] has no entry for them. *)
Lemma parse_bytes_no_entry_for_7_and_13 :
  MsgChecklistUpdate.TYPE = 7 /\ MsgUserQuestion.TYPE = 13 /\
  In 7 message_types /\ In 13 message_types /\
  parse_bytes rt0 (PBytes (x07 :: x01 :: repeat x00 4096)) = Raise KeyError /\
  parse_bytes rt0 (PBytes (x0d :: x01 :: repeat x00 4096)) = Raise KeyError.
Proof.
  repeat split; try reflexivity; simpl; tauto.
Qed.
(** One pass of the loop of [checklist_splitter]. *)
Lemma split_loop_pass (it : list byte) (segments : list (list byte)) :
  split_loop it segments =
  if len (firstn 31 it) <? 31
  then segments ++ [firstn 31 it ++ zeros (31 - length (firstn 31 it))]
  else split_loop (skipn 31 it) (segments ++ [firstn 31 it]).
Proof.
  rewrite split_loop_equation_1. unfold split_loop_unfold_clause_1.
  cbv beta iota delta [inspect islice fst snd].
  change (Z.of_nat FieldChecklistSegment.SIZE) with 31.
  change FieldChecklistSegment.SIZE with 31%nat.
  destruct (len (firstn 31 it) <? 31); reflexivity.
Qed.
(** What the loop returns: the segments already there, followed by
    [length it / 31 + 1] segments of 31 bytes each that spell [it] and then
    only zero bytes. *)
Lemma split_loop_spec (n : nat) :
  forall (it : list byte) (segments : list (list byte)),
    (length it <= n)%nat ->
    exists tail,
      split_loop it segments = segments ++ tail /\
      length tail = (length it / 31 + 1)%nat /\
      Forall (fun s => length s = 31%nat) tail /\
      concat tail = it ++ zeros (31 - length it mod 31).
Proof.
  induction n as [|n IH]; intros it segments Hlen;
    rewrite split_loop_pass; unfold len; rewrite length_firstn.
  - destruct it; [|simpl in Hlen; lia]. simpl.
    exists [zeros 31]. repeat split. repeat constructor.
  - destruct (Z.of_nat (Nat.min 31 (length it)) <? 31) eqn:E.
    + apply Z.ltb_lt in E.
      assert (Hs : (length it < 31)%nat) by lia.
      rewrite firstn_all2 by lia. rewrite Nat.min_r by lia.
      exists [it ++ zeros (31 - length it)]. split; [reflexivity|].
      rewrite Nat.div_small, Nat.mod_small by lia.
      split; [reflexivity|]. split.
      * constructor; [|constructor]. unfold zeros.
        rewrite length_app, repeat_length. lia.
      * simpl. now rewrite app_nil_r.
    + apply Z.ltb_ge in E.
      assert (Hs : (31 <= length it)%nat) by lia.
      destruct (IH (skipn 31 it) (segments ++ [firstn 31 it]))
        as (tail & Ht & Hn & Hall & Hc).
      { rewrite length_skipn. lia. }
      exists (firstn 31 it :: tail). rewrite Ht, <- app_assoc.
      split; [reflexivity|].
      rewrite length_skipn in Hn, Hc.
      assert (Hd : (length it / 31 = (length it - 31) / 31 + 1)%nat).
      { replace (length it) with (length it - 31 + 1 * 31)%nat at 1 by lia.
        now rewrite Nat.div_add by lia. }
      assert (Hm : (length it mod 31 = (length it - 31) mod 31)%nat).
      { replace (length it) with (length it - 31 + 1 * 31)%nat at 1 by lia.
        now rewrite Nat.Div0.mod_add. }
      rewrite Hd, Hm.
      split; [cbn [length]; rewrite Hn; lia|]. split.
      * constructor; [|exact Hall]. rewrite length_firstn. lia.
      * cbn [concat]. rewrite Hc, app_assoc, firstn_skipn. reflexivity.
Qed.

Lemma checklist_segment_msgs_ok (rt : Runtime) (version : Z) :
  forall (segments : list (list byte)) (seq_no : Z),
    Forall (fun s => length s = 31%nat) segments ->
    checklist_segment_msgs rt (PInt version) seq_no segments
    = Ok (numbered_segments version seq_no segments).
Proof.
  induction segments as [|segment segments IH]; intros seq_no Hall.
  - reflexivity.
  - inversion Hall as [|? ? Hs Hall']; subst.
    cbn [checklist_segment_msgs numbered_segments].
    unfold MsgChecklistUpdateSegment.init. cbn [load bind].
    change (check_type _ MsgChecklistUpdateSegment.NAME) with (Ok tt).
    cbn [bind].
    change (dict_getitem _ (pstr "checklist_version"))
      with (Ok (PInt version)).
    cbn [bind py_int].
    change (dict_getitem _ (pstr "seq_no")) with (Ok (PInt seq_no)).
    cbn [bind py_int].
    change (dict_getitem _ (pstr "segment")) with (Ok (PBytes segment)).
    cbn [bind].
    unfold FieldChecklistSegment.init, FieldBinary.init,
      FieldBinary.set_value, len.
    rewrite Hs. change (Z.of_nat 31 =? Z.of_nat FieldChecklistSegment.SIZE)
      with true.
    cbn [negb bind]. rewrite IH by exact Hall'. reflexivity.
Qed.

(** What [checklist_splitter] returns for a document whose JSON text is
    [databytes]: a start message with [len databytes / 31 + 1] segments and
    the length of [databytes], followed by that many segment messages
    numbered from 0, whose 31-byte payloads spell [databytes] and then only
    zero bytes. *)
Lemma checklist_splitter_spec (rt : Runtime) (checklist_data : pyval)
  (version : Z) (s : pystr) (databytes : list byte) :
  json_dumps rt checklist_data = Ok s ->
  utf8_encode s = Ok databytes ->
  exists segments,
    checklist_splitter rt checklist_data (PInt version)
    = Ok (ChecklistUpdateStart
            (MsgChecklistUpdateStart.mk
               (PInt (len databytes / 31 + 1)) (PInt version)
               (FieldInteger.mk FieldPayloadLength.SIZE
                  (PInt (len databytes))))
          :: numbered_segments version 0 segments) /\
    len segments = len databytes / 31 + 1 /\
    Forall (fun seg => length seg = 31%nat) segments /\
    concat segments = databytes ++ zeros (31 - length databytes mod 31) /\
    firstn (length databytes) (concat segments) = databytes.
Proof.
  intros Hs Hb. unfold checklist_splitter. rewrite Hs. cbn [bind].
  rewrite Hb. cbn [bind].
  destruct (split_loop_spec (length databytes) databytes [] (le_n _))
    as (segments & Hl & Hn & Hall & Hc).
  cbn [app] in Hl. rewrite Hl. exists segments.
  assert (Hlen : len segments = len databytes / 31 + 1).
  { unfold len. rewrite Hn, Nat2Z.inj_add, Nat2Z.inj_div. reflexivity. }
  split; [|split; [exact Hlen|split; [exact Hall|split; [exact Hc|]]]].
  - unfold MsgChecklistUpdateStart.init. cbn [load bind].
    change (check_type _ MsgChecklistUpdateStart.NAME) with (Ok tt).
    cbn [bind].
    change (dict_getitem _ (pstr "segments")) with (Ok (PInt (len segments))).
    cbn [bind py_int].
    change (dict_getitem _ (pstr "checklist_version"))
      with (Ok (PInt version)).
    cbn [bind py_int].
    change (dict_getitem _ (pstr "length")) with (Ok (PInt (len databytes))).
    cbn [bind].
    change (FieldPayloadLength.init (PInt (len databytes)))
      with (Ok (FieldInteger.mk FieldPayloadLength.SIZE
                  (PInt (len databytes)))).
    cbn [bind]. rewrite checklist_segment_msgs_ok by exact Hall.
    cbn [bind app]. now rewrite Hlen.
  - rewrite Hc. rewrite firstn_app, Nat.sub_diag, firstn_all.
    simpl. now rewrite app_nil_r.
Qed.
(** C4 (code at the failing inputs): for a document whose JSON text is
    exactly 31 bytes, [checklist_splitter] announces and sends two segments,
    the second holding only zero bytes, where ceil(31/31) is 1: the loop
    ends on a short read only, so a text that fills its last segment is
    followed by an empty, padded one.  [user_question_splitter] returns
    nothing for any document: it raises [TypeError] in the first pass of
    its loop. *)
Theorem splitters_at_failing_inputs :
  forall rt : Runtime,
    (exists s databytes start seg0 seg1,
       json_dumps rt doc31 = Ok s /\
       utf8_encode s = Ok databytes /\
       len databytes = 31 /\
       (len databytes + 30) / 31 = 1 /\
       checklist_splitter rt doc31 (PInt 1)
       = Ok [ChecklistUpdateStart start;
             ChecklistUpdateSegment seg0;
             ChecklistUpdateSegment seg1] /\
       MsgChecklistUpdateStart.segments start = PInt 2 /\
       FieldInteger.value (MsgChecklistUpdateStart.length start) = PInt 31 /\
       FieldBinary.value (MsgChecklistUpdateSegment.segment seg0)
       = PBytes databytes /\
       FieldBinary.value (MsgChecklistUpdateSegment.segment seg1)
       = PBytes (zeros 31)) /\
    (forall user_question_data question_id,
       is_ok (user_question_splitter rt user_question_data question_id)
       = false) /\
    (exists s databytes,
       json_dumps rt doc31 = Ok s /\
       utf8_encode s = Ok databytes /\
       user_question_splitter rt doc31 (PInt 1) = Raise TypeError).
Proof.
  intros rt. split; [|split].
  - do 5 eexists. split; [reflexivity|]. split; [reflexivity|].
    split; [reflexivity|]. split; [reflexivity|].
    split; [reflexivity|]. repeat split.
  - intros d q. unfold user_question_splitter.
    destruct (json_dumps rt d); cbn [bind]; [|reflexivity].
    destruct (utf8_encode a); reflexivity.
  - do 2 eexists. split; [reflexivity|]. split; reflexivity.
Qed.
Lemma byte_to_N_zero (b : byte) : Byte.to_N b = 0%N -> b = x00.
Proof.
  intros H. pose proof (Byte.of_to_N b) as E. rewrite H in E.
  simpl in E. congruence.
Qed.

Lemma cont_inv (lo hi : N) (b : byte) (c : N) :
  cont lo hi b = Some c ->
  (lo <= Byte.to_N b <= hi)%N /\ c = (Byte.to_N b - 128)%N.
Proof.
  unfold cont. destruct (_ && _)%bool eqn:E; [|discriminate].
  intros H. injection H as <-. apply andb_true_iff in E.
  destruct E as [E1 E2]. apply N.leb_le in E1, E2. now split.
Qed.

(** A NUL character in decoded text comes from a NUL byte. *)
Lemma utf8_decode_nul_aux (n : nat) :
  forall b t, (length b <= n)%nat ->
    utf8_decode b = Ok t -> In NUL t -> In x00 b.
Proof.
  unfold NUL.
  induction n as [|n IH]; intros b t Hlen H Hin.
  - destruct b; [|simpl in Hlen; lia].
    simpl in H. injection H as <-. destruct Hin.
  - destruct b as [|b0 r].
    { simpl in H. injection H as <-. destruct Hin. }
    simpl in Hlen. cbn [utf8_decode] in H.
    destruct (Byte.to_N b0 <? 128)%N eqn:E0.
    { apply bind_ok in H. destruct H as (s & Hs & H). injection H as <-.
      destruct Hin as [Hin|Hin].
      - left. apply byte_to_N_zero. exact Hin.
      - right. apply (IH r s); [lia | assumption | assumption]. }
    apply N.ltb_ge in E0.
    destruct (Byte.to_N b0 <? 194)%N eqn:E1; [discriminate H|].
    apply N.ltb_ge in E1.
    destruct (Byte.to_N b0 <? 224)%N eqn:E2.
    { destruct r as [|b1 r1]; [discriminate H|].
      destruct (cont 128 191 b1) as [c1|] eqn:C1; [|discriminate H].
      apply bind_ok in H. destruct H as (s & Hs & H). injection H as <-.
      simpl in Hlen. destruct Hin as [Hin|Hin]; [lia|].
      right. right. apply (IH r1 s); [lia | assumption | assumption]. }
    destruct (Byte.to_N b0 <? 240)%N eqn:E3.
    { destruct r as [|b1 [|b2 r2]]; try discriminate H.
      match type of H with
      | match cont ?lo ?hi b1 with _ => _ end = _ =>
          destruct (cont lo hi b1) as [c1|] eqn:C1; [|discriminate H]
      end.
      destruct (cont 128 191 b2) as [c2|] eqn:C2; [|discriminate H].
      apply bind_ok in H. destruct H as (s & Hs & H). injection H as <-.
      simpl in Hlen. destruct Hin as [Hin|Hin].
      - apply cont_inv in C1. destruct C1 as [R1 ->].
        destruct (Byte.to_N b0 =? 224)%N eqn:E224.
        + apply N.eqb_eq in E224. lia.
        + apply N.eqb_neq in E224. apply N.ltb_ge in E2. lia.
      - right. right. right.
        apply (IH r2 s); [lia | assumption | assumption]. }
    destruct (Byte.to_N b0 <? 245)%N eqn:E4; [|discriminate H].
    destruct r as [|b1 [|b2 [|b3 r3]]]; try discriminate H.
    match type of H with
    | match cont ?lo ?hi b1 with _ => _ end = _ =>
        destruct (cont lo hi b1) as [c1|] eqn:C1; [|discriminate H]
    end.
    destruct (cont 128 191 b2) as [c2|] eqn:C2; [|discriminate H].
    destruct (cont 128 191 b3) as [c3|] eqn:C3; [|discriminate H].
    apply bind_ok in H. destruct H as (s & Hs & H). injection H as <-.
    simpl in Hlen. destruct Hin as [Hin|Hin].
    + apply cont_inv in C1. destruct C1 as [R1 ->].
      destruct (Byte.to_N b0 =? 240)%N eqn:E240.
      * apply N.eqb_eq in E240. lia.
      * apply N.eqb_neq in E240. apply N.ltb_ge in E3. lia.
    + do 4 right. apply (IH r3 s); [lia | assumption | assumption].
Qed.

Lemma str_find_in (s : pystr) (c : N) (i : nat) :
  str_find s c = Some i -> In c s.
Proof.
  revert i. induction s as [|x s IH]; simpl; intros i H; [discriminate|].
  destruct (x =? c)%N eqn:E.
  - left. now apply N.eqb_eq.
  - destruct (str_find s c); [|discriminate]. right. eapply IH. reflexivity.
Qed.

Lemma text_from_bytes_has_nul (length : nat) (b : list byte) (v : pyval) :
  FieldText.set_value length (PBytes b) = Ok v -> In x00 b.
Proof.
  unfold FieldText.set_value.
  destruct (len b >? Z.of_nat length); [discriminate|].
  intros H. apply bind_ok in H. destruct H as (t & Ht & H).
  apply bind_ok in H. destruct H as (p & Hp & _).
  unfold str_index in Hp. destruct (str_find t NUL) as [i|] eqn:E;
    [|discriminate Hp].
  apply str_find_in in E.
  now apply (utf8_decode_nul_aux (List.length b) b t).
Qed.

(** C5 (code at the failing input): the 16-character user name
    "abcdefghijklmnop" is accepted, its encoding is the 16 bytes of the name
    with no NUL byte, and decoding that encoding raises [ValueError]:
    [str.index] raises when there is no NUL, it does not return -1.  More
    generally a text field decodes no byte string without a NUL byte. *)
Theorem username_full_width_decode_fails :
  (exists f b,
     FieldUsername.init (pstr "abcdefghijklmnop") = Ok f /\
     FieldText.as_bytes f = Ok b /\
     len b = Z.of_nat FieldUsername.SIZE /\
     ~ In x00 b /\
     FieldUsername.init (PBytes b) = Raise ValueError) /\
  (forall (length : nat) (b : list byte),
     match FieldText.init (PBytes b) length with
     | Ok _ => In x00 b
     | Raise _ => True
     end).
Proof.
  split.
  - do 2 eexists. split; [reflexivity|]. split; [reflexivity|].
    split; [reflexivity|]. split; [|reflexivity].
    simpl. intros H. repeat (destruct H as [H|H]; [discriminate H|]). exact H.
  - intros length b. unfold FieldText.init.
    destruct (FieldText.set_value length (PBytes b)) as [v|e] eqn:E;
      cbn [bind]; [|exact I].
    eapply text_from_bytes_has_nul; eassumption.
Qed.
(** C6 (code at the failing inputs): a vehicle report is 28 bytes wide, and
    the constructor accepts a buffer cut to 11 bytes, reading both positions
    as zero, because the position fields only reject a slice that is too
    long.  A user question response is 20 bytes wide: the constructor reads
    one byte where the ten-byte response list is, so it accepts an 11-byte
    buffer (leaving [responses] without a value) and rejects the 20 bytes
    that [as_bytes] writes for a valid message.  A tag configuration of 5
    bytes instead of 19 is accepted as well. *)
Theorem short_buffers_accepted :
  forall rt : Runtime,
    (len vehicle_report_cut = 11 /\
     Z.of_nat (1 + FieldTagID.SIZE + FieldFrameCounter.SIZE
               + FieldUWBPosition.SIZE + FieldGPSPosition.SIZE) = 28 /\
     exists m,
       MsgVehicleReport.init rt (PBytes vehicle_report_cut) = Ok m /\
       FieldUWBPosition.value (MsgVehicleReport.uwbpos m)
       = PDict [(pstr "xpos", PFloat 0); (pstr "ypos", PFloat 0);
                (pstr "zpos", PFloat 0)] /\
       FieldGPSPosition.value (MsgVehicleReport.gpspos m)
       = PDict [(pstr "lat", PFloat 0); (pstr "lon", PFloat 0)]) /\
    (exists m0 b m,
       MsgUserQuestionResponse.init rt question_response_5_1 = Ok m0 /\
       MsgUserQuestionResponse.as_bytes m0 = Ok b /\
       len b = 20 /\
       MsgUserQuestionResponse.init rt (PBytes b) = Raise AssertionError /\
       MsgUserQuestionResponse.init rt (PBytes (firstn 11 b)) = Ok m /\
       FieldVarLenList.value (MsgUserQuestionResponse.responses m)
       = Raise AttributeError) /\
    (exists m,
       MsgTagConfig.init rt (PBytes [x14; x01; x02; x41; x00]) = Ok m /\
       FieldText.value (MsgTagConfig.vehicle_name m) = pstr "A").
Proof.
  intros rt. split; [|split].
  - split; [reflexivity|]. split; [reflexivity|].
    eexists. split; [reflexivity|]. split; reflexivity.
  - do 3 eexists. split; [reflexivity|]. split; [reflexivity|].
    split; [reflexivity|]. split; [reflexivity|]. split; reflexivity.
  - eexists. split; reflexivity.
Qed.
Lemma dict_setitem_fresh (d : pydict) (k v : pyval) :
  dict_lookup d k = None -> dict_setitem d k v = d ++ [(k, v)].
Proof.
  induction d as [|[k' v'] d IH]; simpl; intros H; [reflexivity|].
  destruct (py_eqb k' k); [discriminate H|]. now rewrite IH.
Qed.

Lemma dict_lookup_app (d e : pydict) (k : pyval) :
  dict_lookup (d ++ e) k =
  match dict_lookup d k with Some v => Some v | None => dict_lookup e k end.
Proof.
  induction d as [|[k' v'] d IH]; simpl; [reflexivity|].
  now destruct (py_eqb k' k).
Qed.

Lemma dict_lookup_none_in (d : pydict) (k k' v' : pyval) :
  dict_lookup d k = None -> In (k', v') d -> py_eqb k' k = false.
Proof.
  induction d as [|[k1 v1] d IH]; simpl; intros H Hin; [contradiction|].
  destruct (py_eqb k1 k) eqn:E; [discriminate H|].
  destruct Hin as [Hin|Hin]; [congruence | now apply IH].
Qed.

Lemma answer_entry_inv (kv : pyval * pyval) :
  answer_entry kv = true ->
  exists k a, kv = (PInt k, PInt a) /\ 0 <= a <= 2.
Proof.
  destruct kv as [[] []]; simpl; try discriminate.
  intros H. apply andb_true_iff in H. destruct H as [H1 H2].
  eexists _, _. split; [reflexivity | lia].
Qed.

Lemma in_0_1_2_answer (a : Z) : 0 <= a <= 2 -> in_0_1_2 (PInt a) = true.
Proof.
  intros H. unfold in_0_1_2. rewrite !py_eqb_int.
  assert (a = 0 \/ a = 1 \/ a = 2) as [->|[->| ->]] by lia; reflexivity.
Qed.

Lemma from_items_fresh (rt : Runtime) (d acc : pydict) :
  forallb answer_entry d = true ->
  distinct_keys d = true ->
  (forall k v, In (k, v) d -> dict_lookup acc k = None) ->
  FieldChecklistResponses.from_items rt (Some acc) d = Ok (Some (acc ++ d)).
Proof.
  revert acc. induction d as [|[k v] d IH]; intros acc Ha Hd Hacc.
  - simpl. now rewrite app_nil_r.
  - cbn [forallb] in Ha. apply andb_true_iff in Ha. destruct Ha as [Hkv Ha].
    cbn [distinct_keys] in Hd. apply andb_true_iff in Hd.
    destruct Hd as [Hk Hd].
    apply answer_entry_inv in Hkv. destruct Hkv as (k0 & a0 & E & Hr).
    injection E as -> ->.
    cbn [FieldChecklistResponses.from_items].
    rewrite (in_0_1_2_answer a0 Hr). cbn [negb py_int bind].
    unfold FieldChecklistResponses.store.
    rewrite dict_setitem_fresh by (apply (Hacc _ (PInt a0)); now left).
    cbn [bind]. rewrite IH; trivial.
    + now rewrite <- app_assoc.
    + intros k v Hin. rewrite dict_lookup_app.
      rewrite (Hacc k v) by now right.
      cbn [dict_lookup]. unfold dict_contains in Hk.
      destruct (dict_lookup d (PInt k0)) eqn:El; [discriminate Hk|].
      pose proof (dict_lookup_none_in _ _ _ _ El Hin) as Hne.
      assert (Hin' := Hin).
      rewrite forallb_forall in Ha. apply Ha in Hin'.
      apply answer_entry_inv in Hin'. destruct Hin' as (k1 & a1 & E1 & _).
      injection E1 as -> ->.
      rewrite py_eqb_int in *. rewrite Z.eqb_sym. now rewrite Hne.
Qed.

(** A checklist-responses field is built from a mapping only when the
    mapping has exactly [NUM_RESPONSES] = 5 entries; any other size is
    rejected with an exception.  A mapping of five distinct integer question
    ids to answers 0, 1 or 2 is accepted and stored as it is. *)
Lemma checklist_responses_from_dict (rt : Runtime) (d : pydict) :
  (len d <> 5 -> raises (FieldChecklistResponses.init rt (PDict d))) /\
  (len d = 5 ->
   forallb answer_entry d = true ->
   distinct_keys d = true ->
   FieldChecklistResponses.init rt (PDict d)
   = Ok (FieldChecklistResponses.mk (Some d))).
Proof.
  unfold FieldChecklistResponses.init. cbn [py_len bind].
  change (Z.of_nat FieldChecklistResponses.NUM_RESPONSES) with 5.
  split.
  - intros Hlen. apply Z.eqb_neq in Hlen. rewrite Hlen. cbn [negb].
    unfold raises.
    destruct (py_getitem_str (PDict d) (lit "responses")) as [r|e];
      cbn [bind]; [|eauto].
    destruct (py_len r); cbn [bind]; eauto.
  - intros Hlen Ha Hd. apply Z.eqb_eq in Hlen. rewrite Hlen. cbn [negb].
    pose proof (from_items_fresh rt d [] Ha Hd (fun _ _ _ => eq_refl)) as E.
    unfold pydict in *. rewrite E. reflexivity.
Qed.

(** The bytes branch stores into [_value] before anything created it: a
    five-byte slot raises [AttributeError] at its first byte, and a bytes
    object of another length fails the length check. *)
Lemma checklist_responses_bytes_raise (rt : Runtime) (b : list byte) :
  (List.length b = 5%nat ->
   FieldChecklistResponses.init rt (PBytes b) = Raise AttributeError) /\
  is_ok (FieldChecklistResponses.init rt (PBytes b)) = false.
Proof.
  unfold FieldChecklistResponses.init. cbn [py_len bind]. unfold len.
  change FieldChecklistResponses.NUM_RESPONSES with 5%nat.
  split.
  - intros H. rewrite H. cbn [Z.eqb Z.of_nat Pos.of_succ_nat Pos.succ
                               Pos.eqb negb].
    destruct b as [|x b]; [discriminate H|]. reflexivity.
  - destruct (Z.of_nat (List.length b) =? Z.of_nat 5) eqn:E; cbn [negb].
    + destruct b as [|x b]; [discriminate E|]. reflexivity.
    + reflexivity.
Qed.

(** C7 (code at the failing inputs): the decoding loop does split the byte
    0x43 into question 3 and answer 2, but it stores them into a mapping
    that was never created, so building the field from the five bytes
    43 00 00 00 00, as from any bytes object, raises instead of yielding
    the entry 3 -> 2.  On the encoding side the five-entry mapping
    {3: 2, 7: 0, 1: 1, 2: 0, 4: 1} is accepted and stored unchanged, as is
    every mapping of five distinct integer ids to answers 0, 1 or 2, but
    [as_bytes] raises [TypeError] on it, as on every field the constructor
    builds: no mapping is ever encoded, and none is decoded back.  The
    two-entry mapping {3: 2, 7: 0} is refused at construction, because the
    field takes exactly [NUM_RESPONSES] = 5 entries. *)
Theorem checklist_responses_not_decoded_nor_encoded :
  forall rt : Runtime,
    (* decoding *)
    FieldChecklistResponses.unpack x43 = (PInt 3, PInt 2) /\
    FieldChecklistResponses.from_raw (Some []) [x43]
    = Ok (Some [(PInt 3, PInt 2)]) /\
    FieldChecklistResponses.init rt (PBytes [x43; x00; x00; x00; x00])
    = Raise AttributeError /\
    (forall b : list byte,
        (List.length b = 5%nat ->
         FieldChecklistResponses.init rt (PBytes b) = Raise AttributeError) /\
        is_ok (FieldChecklistResponses.init rt (PBytes b)) = false) /\
    (* encoding *)
    (exists f,
        FieldChecklistResponses.init rt five_responses = Ok f /\
        FieldChecklistResponses.value f = Ok five_responses /\
        FieldChecklistResponses.as_bytes f = Raise TypeError) /\
    (forall d : pydict,
        len d = 5 ->
        forallb answer_entry d = true ->
        distinct_keys d = true ->
        exists f,
          FieldChecklistResponses.init rt (PDict d) = Ok f /\
          FieldChecklistResponses.value f = Ok (PDict d) /\
          FieldChecklistResponses.as_bytes f = Raise TypeError) /\
    (forall v : pyval,
        match FieldChecklistResponses.init rt v with
        | Ok f => FieldChecklistResponses.as_bytes f = Raise TypeError
        | Raise _ => True
        end) /\
    (* the two-entry mapping *)
    FieldChecklistResponses.init rt
      (PDict [(PInt 3, PInt 2); (PInt 7, PInt 0)]) = Raise KeyError /\
    (forall d : pydict,
        len d <> 5 -> raises (FieldChecklistResponses.init rt (PDict d))).
Proof.
  intros rt.
  split; [reflexivity|]. split; [reflexivity|]. split; [reflexivity|].
  split; [intros b; apply checklist_responses_bytes_raise|].
  split; [eexists; repeat split|].
  split.
  { intros d Hl Ha Hd.
    pose proof (proj2 (checklist_responses_from_dict rt d) Hl Ha Hd) as E.
    eexists. split; [exact E|]. split; [reflexivity|].
    eapply checklist_responses_never_serialises. exact E. }
  split.
  { intros v.
    destruct (FieldChecklistResponses.init rt v) as [f|e] eqn:E; [|exact I].
    eapply checklist_responses_never_serialises. exact E. }
  split; [reflexivity|].
  intros d. apply (proj1 (checklist_responses_from_dict rt d)).
Qed.
Lemma uwb_dim_bytes_fails (pos : pyval) :
  is_ok (FieldUWBPosition.dim_bytes pos) = false.
Proof.
  unfold FieldUWBPosition.dim_bytes.
  destruct (py_mul_float pos FieldUWBPosition.CONV_FACTOR); reflexivity.
Qed.

(** C8 (code at the failing input): the UWB position x = 1.234, y = -2.5,
    z = 0.0 is accepted by the constructor and cannot be encoded:
    [as_bytes] calls [to_bytes] on the float product of the first
    coordinate, which raises [AttributeError]; no UWB position field at all
    has an encoding. *)
Theorem uwb_position_as_bytes_fails :
  (exists f,
     FieldUWBPosition.init uwb_example = Ok f /\
     FieldUWBPosition.as_bytes f = Raise AttributeError) /\
  (forall f : FieldUWBPosition.t,
     is_ok (FieldUWBPosition.as_bytes f) = false).
Proof.
  split.
  - eexists. split; reflexivity.
  - intros f. unfold FieldUWBPosition.as_bytes.
    pose proof (uwb_dim_bytes_fails (FieldUWBPosition._xpos f)) as H.
    destruct (FieldUWBPosition.dim_bytes (FieldUWBPosition._xpos f));
      [discriminate H | reflexivity].
Qed.
(** C9 (code at the failing inputs): the dict [as_dict] returns for a tag
    configuration has the three field keys and no "type" key, so reading
    its "type" raises [KeyError]; and the dict returned for a checklist
    update segment holds the segment as a [bytes] object, which
    [json.dumps] refuses: [as_json] raises [TypeError]. *)
Theorem tag_config_as_dict_lacks_type :
  (forall m : MsgTagConfig.t,
     py_getitem_str (MsgTagConfig.as_dict m) (lit "type") = Raise KeyError /\
     exists a b c,
       MsgTagConfig.as_dict m
       = PDict [(pstr "crash_sens", a); (pstr "report_rate", b);
                (pstr "vehicle_name", c)]) /\
  (forall rt : Runtime,
     exists m seg,
       MsgChecklistUpdateSegment.init rt (PBytes checklist_segment_raw)
       = Ok m /\
       py_getitem_str (MsgChecklistUpdateSegment.as_dict m) (lit "segment")
       = Ok (PBytes seg) /\
       MsgChecklistUpdateSegment.as_json rt m = Raise TypeError).
Proof.
  split.
  - intros [a b c]. split; [reflexivity|]. do 3 eexists. reflexivity.
  - intros rt. do 2 eexists. split; [reflexivity|]. split; reflexivity.
Qed.
Lemma to_bytes_raises (v : pyval) (n : nat) (s : bool) (e : exn) :
  py_to_bytes v n s = Raise e -> e = AttributeError \/ e = OverflowError.
Proof.
  unfold py_to_bytes, int_to_bytes.
  destruct v; intros H; try (left; congruence);
  repeat match type of H with
         | (if ?c then _ else _) = _ => destruct c
         end; try discriminate; right; congruence.
Qed.

(** The guard on a mapping's own "type" entry passes when the entry is
    absent or names the class. *)
Lemma check_type_named (d : pydict) (NAME : pystr) :
  (forall ty, dict_lookup d (pstr "type") = Some ty ->
              py_eqb ty (PStr NAME) = true) ->
  check_type d NAME = Ok tt.
Proof.
  intros Hty. unfold check_type, dict_contains, dict_getitem.
  destruct (dict_lookup d (pstr "type")) as [ty|] eqn:E; [|reflexivity].
  cbn [bind]. now rewrite (Hty ty eq_refl).
Qed.

Lemma dict_getitem_some (d : pydict) (k v : pyval) :
  dict_lookup d k = Some v -> dict_getitem d k = Ok v.
Proof. intros H. unfold dict_getitem. now rewrite H. Qed.

Lemma dict_get_default (d : pydict) (k v : pyval) :
  dict_lookup d k = None -> dict_get d k v = v.
Proof. intros H. unfold dict_get. now rewrite H. Qed.

(** Building a message from a mapping whose entries are given by the
    hypotheses in the context. *)
Ltac from_mapping :=
  cbn [load bind];
  repeat match goal with
         | H : forall ty, dict_lookup ?d (pstr "type") = Some ty -> _ |- _ =>
             rewrite (check_type_named d _ H); clear H; cbn [bind]
         | H : dict_lookup ?d ?k = Some ?v |- _ =>
             rewrite (dict_getitem_some d k v H); clear H; cbn [bind]
         | H : dict_lookup ?d ?k = None |- _ =>
             rewrite (dict_get_default d k PNone H); clear H; cbn [bind]
         | H : ?x = Ok _ |- context [?x] => rewrite H; clear H; cbn [bind]
         end;
  try reflexivity.

(** C10: a message built from a mapping that leaves out an integer field
    its constructor reads with [value.get(key, None)] is constructed
    without error: the record holds what the other entries of the mapping
    give, and [None] in the field that was left out.  Serialising that
    record with [as_bytes] raises: the error of the missing field appears
    there, not at construction.  This is so for "tagid" in a login request
    (the exception is [AttributeError], from calling [to_bytes] on [None],
    unless the uid itself cannot be written, which is reported first), in a
    logout notification, a checklist-responses message, a user question
    response, an impact report, a vehicle report, a set-block-status
    message and a time request (always [AttributeError]: the tag id is
    written first), and for "uid" in a login response ([AttributeError]
    when the username before it is written). *)
Theorem missing_integer_field_raises_at_as_bytes :
  forall rt : Runtime,
    (* login_request without tagid *)
    (forall (d : pydict) (v : pyval) (u : FieldInteger.t),
        dict_lookup d (pstr "tagid") = None ->
        (forall ty, dict_lookup d (pstr "type") = Some ty ->
                    py_eqb ty (PStr MsgLoginRequest.NAME) = true) ->
        dict_lookup d (pstr "uid") = Some v ->
        FieldUID.init v = Ok u ->
        let m := MsgLoginRequest.mk u (FieldInteger.mk 8 PNone) in
        MsgLoginRequest.init rt (PDict d) = Ok m /\
        FieldInteger.value (MsgLoginRequest.tagid m) = PNone /\
        (exists e, MsgLoginRequest.as_bytes m = Raise e /\
                   (e = AttributeError \/ e = OverflowError)) /\
        (forall b, FieldInteger.as_bytes u = Ok b ->
                   MsgLoginRequest.as_bytes m = Raise AttributeError)) /\
    (* login_response without uid *)
    (forall (d : pydict) (vr vp : pyval) (p : Z) (un : FieldText.t),
        dict_lookup d (pstr "uid") = None ->
        (forall ty, dict_lookup d (pstr "type") = Some ty ->
                    py_eqb ty (PStr MsgLoginResponse.NAME) = true) ->
        dict_lookup d (pstr "response") = Some vr ->
        FieldUsername.init (dict_get d (pstr "username") PNone) = Ok un ->
        dict_lookup d (pstr "profile") = Some vp ->
        py_int rt vp = Ok p ->
        let m := MsgLoginResponse.mk (PBool (py_bool vr)) un
                   (FieldInteger.mk 4 PNone) (PInt p) in
        MsgLoginResponse.init rt (PDict d) = Ok m /\
        FieldInteger.value (MsgLoginResponse.uid m) = PNone /\
        raises (MsgLoginResponse.as_bytes m) /\
        (forall b, FieldText.as_bytes un = Ok b ->
                   MsgLoginResponse.as_bytes m = Raise AttributeError)) /\
    (* logout_notification without tagid *)
    (forall d : pydict,
        dict_lookup d (pstr "tagid") = None ->
        (forall ty, dict_lookup d (pstr "type") = Some ty ->
                    py_eqb ty (PStr MsgLogoutNotification.NAME) = true) ->
        let m := MsgLogoutNotification.mk (FieldInteger.mk 8 PNone) in
        MsgLogoutNotification.init rt (PDict d) = Ok m /\
        FieldInteger.value (MsgLogoutNotification.tagid m) = PNone /\
        MsgLogoutNotification.as_bytes m = Raise AttributeError) /\
    (* checklist_responses without tagid *)
    (forall (d : pydict) (vr vc : pyval) (r : FieldChecklistResponses.t)
            (c : Z),
        dict_lookup d (pstr "tagid") = None ->
        (forall ty, dict_lookup d (pstr "type") = Some ty ->
                    py_eqb ty (PStr MsgChecklistResponses.NAME) = true) ->
        dict_lookup d (pstr "responses") = Some vr ->
        FieldChecklistResponses.init rt vr = Ok r ->
        dict_lookup d (pstr "checklist_version") = Some vc ->
        py_int rt vc = Ok c ->
        let m := MsgChecklistResponses.mk (FieldInteger.mk 8 PNone) r
                   (PInt c) in
        MsgChecklistResponses.init rt (PDict d) = Ok m /\
        FieldInteger.value (MsgChecklistResponses.tagid m) = PNone /\
        MsgChecklistResponses.as_bytes m = Raise AttributeError) /\
    (* user_question_response without tagid *)
    (forall (d : pydict) (vq vr : pyval) (q : Z) (r : FieldVarLenList.t),
        dict_lookup d (pstr "tagid") = None ->
        (forall ty, dict_lookup d (pstr "type") = Some ty ->
                    py_eqb ty (PStr MsgUserQuestionResponse.NAME) = true) ->
        dict_lookup d (pstr "question_id") = Some vq ->
        py_int rt vq = Ok q ->
        dict_lookup d (pstr "responses") = Some vr ->
        FieldUserQuestionResponse.init vr = Ok r ->
        let m := MsgUserQuestionResponse.mk (FieldInteger.mk 8 PNone)
                   (PInt q) r in
        MsgUserQuestionResponse.init rt (PDict d) = Ok m /\
        FieldInteger.value (MsgUserQuestionResponse.tagid m) = PNone /\
        MsgUserQuestionResponse.as_bytes m = Raise AttributeError) /\
    (* impact_report without tagid *)
    (forall (d : pydict) (vs va : pyval) (s a : Z),
        dict_lookup d (pstr "tagid") = None ->
        (forall ty, dict_lookup d (pstr "type") = Some ty ->
                    py_eqb ty (PStr MsgImpactReport.NAME) = true) ->
        dict_lookup d (pstr "severity") = Some vs ->
        py_int rt vs = Ok s ->
        dict_lookup d (pstr "accel_direction") = Some va ->
        py_int rt va = Ok a ->
        let m := MsgImpactReport.mk (FieldInteger.mk 8 PNone) (PInt s)
                   (PInt a) in
        MsgImpactReport.init rt (PDict d) = Ok m /\
        FieldInteger.value (MsgImpactReport.tagid m) = PNone /\
        MsgImpactReport.as_bytes m = Raise AttributeError) /\
    (* vehicle_report without tagid *)
    (forall (d : pydict) (vf vu vg : pyval) (fc : FieldInteger.t)
            (u : FieldUWBPosition.t) (g : FieldGPSPosition.t),
        dict_lookup d (pstr "tagid") = None ->
        (forall ty, dict_lookup d (pstr "type") = Some ty ->
                    py_eqb ty (PStr MsgVehicleReport.NAME) = true) ->
        dict_lookup d (pstr "frame_counter") = Some vf ->
        FieldFrameCounter.init vf = Ok fc ->
        dict_lookup d (pstr "uwbpos") = Some vu ->
        FieldUWBPosition.init vu = Ok u ->
        dict_lookup d (pstr "gpspos") = Some vg ->
        FieldGPSPosition.init vg = Ok g ->
        let m := MsgVehicleReport.mk (FieldInteger.mk 8 PNone) fc u g in
        MsgVehicleReport.init rt (PDict d) = Ok m /\
        FieldInteger.value (MsgVehicleReport.tagid m) = PNone /\
        MsgVehicleReport.as_bytes m = Raise AttributeError) /\
    (* set_block_status without tagid *)
    (forall (d : pydict) (vb : pyval),
        dict_lookup d (pstr "tagid") = None ->
        (forall ty, dict_lookup d (pstr "type") = Some ty ->
                    py_eqb ty (PStr MsgSetBlockStatus.NAME) = true) ->
        dict_lookup d (pstr "block_status") = Some vb ->
        let m := MsgSetBlockStatus.mk (FieldInteger.mk 8 PNone)
                   (PBool (py_bool vb)) in
        MsgSetBlockStatus.init rt (PDict d) = Ok m /\
        FieldInteger.value (MsgSetBlockStatus.tagid m) = PNone /\
        MsgSetBlockStatus.as_bytes m = Raise AttributeError) /\
    (* time_request without tagid *)
    (forall d : pydict,
        dict_lookup d (pstr "tagid") = None ->
        (forall ty, dict_lookup d (pstr "type") = Some ty ->
                    py_eqb ty (PStr MsgTimeRequest.NAME) = true) ->
        let m := MsgTimeRequest.mk (FieldInteger.mk 8 PNone) in
        MsgTimeRequest.init rt (PDict d) = Ok m /\
        FieldInteger.value (MsgTimeRequest.tagid m) = PNone /\
        MsgTimeRequest.as_bytes m = Raise AttributeError).
Proof.
  intros rt. repeat apply conj; intros;
    match goal with m := _ |- _ => subst m end.
  - (* login_request *)
    split; [|split; [reflexivity|split]].
    + unfold MsgLoginRequest.init. from_mapping.
    + unfold MsgLoginRequest.as_bytes. simpl.
      destruct (FieldInteger.as_bytes u) as [b|e] eqn:E.
      * exists AttributeError. split; [reflexivity | now left].
      * exists e. split; [reflexivity|].
        apply to_bytes_raises in E. exact E.
    + intros b Hb. unfold MsgLoginRequest.as_bytes. simpl. rewrite Hb.
      reflexivity.
  - (* login_response *)
    split; [|split; [reflexivity|split]].
    + unfold MsgLoginResponse.init. from_mapping.
    + unfold raises, MsgLoginResponse.as_bytes. simpl.
      destruct (FieldText.as_bytes un) as [b|e] eqn:E.
      * exists AttributeError. now destruct (py_bool vr).
      * exists e. now destruct (py_bool vr).
    + intros b Hb. unfold MsgLoginResponse.as_bytes. simpl.
      rewrite Hb. now destruct (py_bool vr).
  - split; [|split; reflexivity].
    unfold MsgLogoutNotification.init. from_mapping.
  - split; [|split; reflexivity].
    unfold MsgChecklistResponses.init. from_mapping.
  - split; [|split; reflexivity].
    unfold MsgUserQuestionResponse.init. from_mapping.
  - split; [|split; reflexivity].
    unfold MsgImpactReport.init. from_mapping.
  - split; [|split; reflexivity].
    unfold MsgVehicleReport.init. from_mapping.
  - split; [|split; reflexivity].
    unfold MsgSetBlockStatus.init. from_mapping.
  - split; [|split; reflexivity].
    unfold MsgTimeRequest.init. from_mapping.
Qed.

(** The login request {"type": "login_request", "uid": 7}, the login
    response {"response": True, "username": "bob", "profile": 1} and the
    time request {}. *)
Lemma missing_integer_field_raises_at_as_bytes_witness :
  (MsgLoginRequest.init rt0
     (PDict [(pstr "type", pstr "login_request"); (pstr "uid", PInt 7)])
   = Ok (MsgLoginRequest.mk (FieldInteger.mk 4 (PInt 7))
           (FieldInteger.mk 8 PNone)) /\
   MsgLoginRequest.as_bytes
     (MsgLoginRequest.mk (FieldInteger.mk 4 (PInt 7))
        (FieldInteger.mk 8 PNone))
   = Raise AttributeError) /\
  (MsgLoginResponse.init rt0
     (PDict [(pstr "response", PBool true); (pstr "username", pstr "bob");
             (pstr "profile", PInt 1)])
   = Ok (MsgLoginResponse.mk (PBool true) (FieldText.mk 16 (pstr "bob"))
           (FieldInteger.mk 4 PNone) (PInt 1)) /\
   MsgLoginResponse.as_bytes
     (MsgLoginResponse.mk (PBool true) (FieldText.mk 16 (pstr "bob"))
        (FieldInteger.mk 4 PNone) (PInt 1))
   = Raise AttributeError) /\
  (MsgTimeRequest.init rt0 (PDict [])
   = Ok (MsgTimeRequest.mk (FieldInteger.mk 8 PNone)) /\
   MsgTimeRequest.as_bytes (MsgTimeRequest.mk (FieldInteger.mk 8 PNone))
   = Raise AttributeError).
Proof.
  pose proof (missing_integer_field_raises_at_as_bytes rt0)
    as (Hreq & Hresp & _ & _ & _ & _ & _ & _ & Htime).
  split; [|split].
  - destruct (Hreq [(pstr "type", pstr "login_request"); (pstr "uid", PInt 7)]
                (PInt 7) (FieldInteger.mk 4 (PInt 7)))
      as (H1 & _ & _ & H4).
    + reflexivity.
    + intros ty H. vm_compute in H. injection H as <-. reflexivity.
    + reflexivity.
    + reflexivity.
    + split; [exact H1|]. apply (H4 [x07; x00; x00; x00]). reflexivity.
  - destruct (Hresp [(pstr "response", PBool true);
                     (pstr "username", pstr "bob"); (pstr "profile", PInt 1)]
                (PBool true) (PInt 1) 1 (FieldText.mk 16 (pstr "bob")))
      as (H1 & _ & _ & H4).
    + reflexivity.
    + intros ty H. discriminate H.
    + reflexivity.
    + reflexivity.
    + reflexivity.
    + reflexivity.
    + split; [exact H1|].
      apply (H4 ([x62; x6f; x62] ++ repeat x00 13)). reflexivity.
  - destruct (Htime []) as (H1 & _ & H3).
    + reflexivity.
    + intros ty H. discriminate H.
    + split; [exact H1 | exact H3].
Defined.
(** ** Fields that do keep their width *)

Lemma le_bytes_length (length : nat) (n : Z) :
  List.length (le_bytes length n) = length.
Proof.
  revert n. induction length as [|l IH]; intros n; simpl; [reflexivity|].
  now rewrite IH.
Qed.

Lemma int_to_bytes_length (n : Z) (length : nat) (signed : bool)
  (b : list byte) :
  int_to_bytes n length signed = Ok b -> List.length b = length.
Proof.
  unfold int_to_bytes. intros H. destruct signed.
  - destruct ((8 * Z.of_nat length =? 0) && (n =? 0)) eqn:E.
    + injection H as <-. apply andb_true_iff in E. destruct E as [E _].
      apply Z.eqb_eq in E. simpl. lia.
    + destruct (_ && _) in H; [|discriminate H].
      injection H as <-. apply le_bytes_length.
  - destruct (n <? 0); [discriminate H|].
    destruct (2 ^ (8 * Z.of_nat length) <=? n); [discriminate H|].
    injection H as <-. apply le_bytes_length.
Qed.

Lemma py_to_bytes_length (v : pyval) (length : nat) (signed : bool)
  (b : list byte) :
  py_to_bytes v length signed = Ok b -> List.length b = length.
Proof.
  destruct v; simpl; try discriminate; apply int_to_bytes_length.
Qed.

(** An integer field that serialises does so in exactly its width. *)
Lemma integer_as_bytes_length (f : FieldInteger.t) (b : list byte) :
  FieldInteger.as_bytes f = Ok b ->
  List.length b = FieldInteger._length f.
Proof. apply py_to_bytes_length. Qed.

(** A text field that serialises does so in exactly its width. *)
Lemma text_as_bytes_length (f : FieldText.t) (b : list byte) :
  FieldText.as_bytes f = Ok b ->
  List.length b = FieldText._length f.
Proof.
  unfold FieldText.as_bytes. intros H.
  apply bind_ok in H. destruct H as (e & _ & H). injection H as <-.
  rewrite length_firstn, length_app. unfold zeros.
  rewrite repeat_length. lia.
Qed.

(** A GPS position that serialises does so in eight bytes. *)
Lemma gps_as_bytes_length (f : FieldGPSPosition.t) (b : list byte) :
  FieldGPSPosition.as_bytes f = Ok b ->
  List.length b = FieldGPSPosition.SIZE.
Proof.
  unfold FieldGPSPosition.as_bytes, FieldGPSPosition.coord_bytes. intros H.
  apply bind_ok in H. destruct H as (b1 & H1 & H).
  apply bind_ok in H. destruct H as (b2 & H2 & H). injection H as <-.
  apply bind_ok in H1. destruct H1 as (p1 & _ & H1).
  apply bind_ok in H2. destruct H2 as (p2 & _ & H2).
  apply py_to_bytes_length in H1, H2.
  rewrite length_app, H1, H2. reflexivity.
Qed.

(** The response list of a user question serialises in ten bytes. *)
Lemma question_response_as_bytes_length (v : pyval) (f : FieldVarLenList.t)
  (b : list byte) :
  FieldUserQuestionResponse.init v = Ok f ->
  FieldVarLenList.as_bytes f = Ok b ->
  List.length b = FieldUserQuestionResponse.SIZE.
Proof.
  unfold FieldUserQuestionResponse.init, FieldVarLenList.init. intros Hf H.
  apply bind_ok in Hf. destruct Hf as (l & _ & Hf). injection Hf as <-.
  unfold FieldVarLenList.as_bytes in H.
  cbn [FieldVarLenList._value FieldVarLenList._length] in H.
  destruct l as [l|]; [|discriminate H].
  apply bind_ok in H. destruct H as (n & _ & H).
  apply bind_ok in H. destruct H as (r & _ & H). injection H as <-.
  change (List.length (firstn 10 ([n] ++ r ++ zeros 20)) = 10%nat).
  rewrite length_firstn, !length_app. unfold zeros.
  rewrite repeat_length. cbn [List.length].
  lia.
Qed.

(** A binary field built from a list or from bytes holds exactly its
    width. *)
Lemma binary_as_bytes_length (v : pyval) (length : nat) (f : FieldBinary.t) :
  (forall s, v <> PStr s) -> v <> PNone ->
  FieldBinary.init v length = Ok f ->
  exists b, FieldBinary.as_bytes f = PBytes b /\ List.length b = length.
Proof.
  intros Hs Hn. unfold FieldBinary.init, FieldBinary.set_value. intros H.
  apply bind_ok in H. destruct H as (x & Hx & H). injection H as <-.
  cbn. destruct v; try discriminate Hx.
  - now contradiction Hn.
  - now contradiction (Hs s).
  - destruct (len b =? Z.of_nat length) eqn:E; [|discriminate Hx].
    injection Hx as <-. exists b. split; [reflexivity|].
    apply Z.eqb_eq in E. unfold len in E. lia.
  - destruct (len l =? Z.of_nat length) eqn:E; [|discriminate Hx].
    cbn [negb] in Hx. apply bind_ok in Hx. destruct Hx as (b & Hb & Hx).
    injection Hx as <-. exists b. split; [reflexivity|].
    apply Z.eqb_eq in E. unfold len in E.
    assert (L : forall l b, bytes_of_list l = Ok b ->
                            List.length b = List.length l).
    { clear. induction l as [|y l IH]; intros b H; simpl in H.
      - now injection H as <-.
      - apply bind_ok in H. destruct H as (y' & _ & H).
        apply bind_ok in H. destruct H as (r & Hr & H). injection H as <-.
        simpl. now rewrite (IH r Hr). }
    rewrite (L _ _ Hb). lia.
Qed.
(** ** A message whose three constructors and serialisers agree *)

Lemma byte_to_Z_wrap (n : Z) : byte_to_Z (byte_of_Z_wrap n) = n mod 256.
Proof.
  unfold byte_of_Z_wrap, byte_of_Z, byte_to_Z.
  pose proof (Z.mod_pos_bound n 256 ltac:(lia)) as Hn.
  destruct (n mod 256 <? 0) eqn:E; [apply Z.ltb_lt in E; lia|].
  destruct (Byte.of_N (Z.to_N (n mod 256))) as [b|] eqn:Eb.
  - apply Byte.to_of_N in Eb. rewrite Eb. lia.
  - apply Byte.of_N_None_iff in Eb. lia.
Qed.

Lemma int_from_le_bytes (length : nat) :
  forall n, 0 <= n < 2 ^ (8 * Z.of_nat length) ->
            int_from_bytes (le_bytes length n) = n.
Proof.
  induction length as [|l IH]; intros n Hn.
  - simpl in *. lia.
  - cbn [le_bytes int_from_bytes]. rewrite byte_to_Z_wrap, IH.
    + pose proof (Z.div_mod n 256 ltac:(lia)). lia.
    + replace (8 * Z.of_nat (S l)) with (8 + 8 * Z.of_nat l) in Hn by lia.
      rewrite Z.pow_add_r in Hn by lia. change (2 ^ 8) with 256 in Hn.
      split; [apply Z.div_pos; lia|].
      apply Z.div_lt_upper_bound; lia.
Qed.

(** A login request is read only from a buffer of exactly 13 bytes. *)
Lemma login_request_length_checked (rt : Runtime) (b : list byte)
  (m : MsgLoginRequest.t) :
  MsgLoginRequest.init rt (PBytes b) = Ok m -> len b = 13.
Proof.
  unfold MsgLoginRequest.init. cbn [load bind]. intros H.
  destruct b as [|ty it]; [discriminate H|]. cbn [next bind] in H.
  destruct (negb (byte_to_Z ty =? MsgLoginRequest.TYPE)); [discriminate H|].
  unfold islice, FieldUID.init, FieldTagID.init, FieldInteger.init,
    FieldInteger.set_value in H.
  change FieldUID.SIZE with 4%nat in H.
  change FieldTagID.SIZE with 8%nat in H.
  destruct (len (firstn 4 it) =? Z.of_nat 4) eqn:E1; [|discriminate H].
  cbn [negb bind] in H.
  destruct (len (firstn 8 (skipn 4 it)) =? Z.of_nat 8) eqn:E2;
    [|discriminate H].
  cbn [negb bind] in H.
  destruct (skipn 8 (skipn 4 it)) eqn:E3; [|discriminate H].
  apply Z.eqb_eq in E1, E2. unfold len in *.
  apply (f_equal (@List.length byte)) in E3.
  rewrite length_firstn in E1, E2. rewrite !length_skipn in E3.
  rewrite length_skipn in E2. cbn [List.length] in *. lia.
Qed.

(** A login request with a uid of 32 bits and a tag id of 64 bits
    serialises to 13 bytes, and the constructor reads the same record back
    from these bytes. *)
Lemma login_request_bytes_round_trip (rt : Runtime) (uid tagid : Z) :
  0 <= uid < 2 ^ 32 -> 0 <= tagid < 2 ^ 64 ->
  exists m b,
    MsgLoginRequest.init rt
      (PDict [(pstr "uid", PInt uid); (pstr "tagid", PInt tagid)]) = Ok m /\
    MsgLoginRequest.as_bytes m = Ok b /\
    len b = 13 /\
    MsgLoginRequest.init rt (PBytes b) = Ok m.
Proof.
  intros Hu Ht.
  exists (MsgLoginRequest.mk (FieldInteger.mk 4 (PInt uid))
                             (FieldInteger.mk 8 (PInt tagid))).
  exists ([x01] ++ le_bytes 4 uid ++ le_bytes 8 tagid).
  assert (Eu : FieldInteger.as_bytes (FieldInteger.mk 4 (PInt uid))
               = Ok (le_bytes 4 uid)).
  { unfold FieldInteger.as_bytes, py_to_bytes, int_to_bytes.
    cbn [FieldInteger._value FieldInteger._length].
    destruct (uid <? 0) eqn:E; [apply Z.ltb_lt in E; lia|].
    change (2 ^ (8 * Z.of_nat 4)) with (2 ^ 32).
    destruct (2 ^ 32 <=? uid) eqn:E'; [apply Z.leb_le in E'; lia|].
    reflexivity. }
  assert (Et : FieldInteger.as_bytes (FieldInteger.mk 8 (PInt tagid))
               = Ok (le_bytes 8 tagid)).
  { unfold FieldInteger.as_bytes, py_to_bytes, int_to_bytes.
    cbn [FieldInteger._value FieldInteger._length].
    destruct (tagid <? 0) eqn:E; [apply Z.ltb_lt in E; lia|].
    change (2 ^ (8 * Z.of_nat 8)) with (2 ^ 64).
    destruct (2 ^ 64 <=? tagid) eqn:E'; [apply Z.leb_le in E'; lia|].
    reflexivity. }
  split; [reflexivity|]. split; [|split].
  - unfold MsgLoginRequest.as_bytes.
    cbn [MsgLoginRequest.uid MsgLoginRequest.tagid].
    rewrite Eu, Et. reflexivity.
  - unfold len. rewrite !length_app, !le_bytes_length. reflexivity.
  - unfold MsgLoginRequest.init. cbn [load bind app next].
    change (negb (byte_to_Z x01 =? MsgLoginRequest.TYPE)) with false.
    cbv iota. unfold islice.
    change FieldUID.SIZE with 4%nat. change FieldTagID.SIZE with 8%nat.
    rewrite firstn_app, skipn_app, le_bytes_length, Nat.sub_diag.
    rewrite firstn_O, skipn_O, app_nil_r.
    rewrite (firstn_all2 (n := 4) (le_bytes 4 uid))
      by (rewrite le_bytes_length; lia).
    rewrite (skipn_all2 (n := 4) (le_bytes 4 uid))
      by (rewrite le_bytes_length; lia).
    rewrite app_nil_l.
    rewrite (firstn_all2 (n := 8) (le_bytes 8 tagid))
      by (rewrite le_bytes_length; lia).
    rewrite (skipn_all2 (n := 8) (le_bytes 8 tagid))
      by (rewrite le_bytes_length; lia).
    unfold FieldUID.init, FieldTagID.init, FieldInteger.init,
      FieldInteger.set_value, len.
    rewrite !le_bytes_length.
    change FieldUID.SIZE with 4%nat. change FieldTagID.SIZE with 8%nat.
    rewrite !Z.eqb_refl. cbn [negb bind assert_exhausted].
    rewrite (int_from_le_bytes 4 uid) by (change (8 * Z.of_nat 4) with 32; lia).
    rewrite (int_from_le_bytes 8 tagid)
      by (change (8 * Z.of_nat 8) with 64; lia).
    reflexivity.
Qed.
(** ** Text fields below their width *)

Ltac ndiv := zify; Z.to_euclidean_division_equations; lia.

Lemma to_N_wrap (n : N) : (n < 256)%N -> Byte.to_N (byte_of_N_wrap n) = n.
Proof.
  intros H. unfold byte_of_N_wrap. rewrite N.mod_small by exact H.
  destruct (Byte.of_N n) as [b|] eqn:E.
  - now apply Byte.to_of_N.
  - apply Byte.of_N_None_iff in E. lia.
Qed.

Ltac decide_cmp :=
  repeat match goal with
         | |- context [(?a =? ?b)%N] =>
             destruct (N.eqb_spec a b); try (exfalso; ndiv)
         | |- context [(?a <? ?b)%N] =>
             destruct (N.ltb_spec a b); try (exfalso; ndiv)
         | |- context [(?a <=? ?b)%N] =>
             destruct (N.leb_spec a b); try (exfalso; ndiv)
         end.

Lemma Ok_inj {A : Type} (a b : A) : Ok a = Ok b -> a = b.
Proof. congruence. Qed.

(** Decoding the encoding of one code point gives the code point back. *)
Lemma utf8_decode_encode_cp (c : N) (bs rest : list byte) :
  utf8_encode_cp c = Ok bs ->
  utf8_decode (bs ++ rest) = (s <- utf8_decode rest ;; Ok (c :: s)).
Proof.
  unfold utf8_encode_cp.
  destruct (N.ltb_spec c 128).
  { intros E. apply Ok_inj in E. subst bs. cbn [app utf8_decode].
    rewrite to_N_wrap by lia. decide_cmp. reflexivity. }
  destruct (N.ltb_spec c 2048).
  { intros E. apply Ok_inj in E. subst bs. cbn [app utf8_decode]. unfold cont.
    rewrite !to_N_wrap by ndiv. decide_cmp. cbn [andb].
    destruct (utf8_decode rest); cbn [bind]; [|reflexivity].
    do 2 f_equal. ndiv. }
  destruct (N.ltb_spec c 65536).
  { destruct (N.leb_spec 55296 c); destruct (N.leb_spec c 57343);
      cbn [andb]; try discriminate;
      intros E; apply Ok_inj in E; subst bs; cbn [app utf8_decode]; unfold cont;
      rewrite !to_N_wrap by ndiv; decide_cmp; cbn [andb];
      (destruct (utf8_decode rest); cbn [bind]; [|reflexivity]);
      do 2 f_equal; ndiv. }
  destruct (N.ltb_spec c 1114112); [|discriminate].
  intros E. apply Ok_inj in E. subst bs. cbn [app utf8_decode]. unfold cont.
  rewrite !to_N_wrap by ndiv. decide_cmp; cbn [andb];
    (destruct (utf8_decode rest); cbn [bind]; [|reflexivity]);
    do 2 f_equal; ndiv.
Qed.

Lemma utf8_decode_encode (s : pystr) :
  forall bs rest,
    utf8_encode s = Ok bs ->
    utf8_decode (bs ++ rest) = (t <- utf8_decode rest ;; Ok (s ++ t)).
Proof.
  induction s as [|c s IH]; intros bs rest H.
  - simpl in H. injection H as <-. cbn [app].
    now destruct (utf8_decode rest).
  - cbn [utf8_encode] in H.
    apply bind_ok in H. destruct H as (b & Hb & H).
    apply bind_ok in H. destruct H as (r & Hr & H). injection H as <-.
    rewrite <- app_assoc.
    rewrite (utf8_decode_encode_cp c b (r ++ rest) Hb).
    rewrite (IH r rest Hr).
    now destruct (utf8_decode rest).
Qed.

Lemma utf8_decode_zeros (k : nat) : utf8_decode (zeros k) = Ok (repeat NUL k).
Proof.
  induction k as [|k IH]; [reflexivity|].
  unfold zeros in *. cbn [repeat utf8_decode].
  change (Byte.to_N x00 <? 128)%N with true. cbv iota.
  rewrite IH. reflexivity.
Qed.

Lemma str_find_app_nul (s : pystr) (k : nat) :
  ~ In NUL s ->
  str_find (s ++ repeat NUL (S k)) NUL = Some (List.length s).
Proof.
  induction s as [|x s IH]; intros Hn.
  - reflexivity.
  - cbn [app str_find List.length].
    destruct (N.eqb_spec x NUL) as [->|Hx].
    + exfalso. apply Hn. now left.
    + rewrite IH; [reflexivity|]. intros Hin. apply Hn. now right.
Qed.

Lemma firstn_repeat_le {A : Type} (x : A) (k n : nat) :
  (k <= n)%nat -> firstn k (repeat x n) = repeat x k.
Proof.
  revert n. induction k as [|k IH]; intros n H; [reflexivity|].
  destruct n as [|n]; [lia|]. cbn [repeat firstn]. rewrite IH by lia.
  reflexivity.
Qed.

(** X4: a text without NUL whose encoding is shorter than the width is
    accepted, padded to the width with NUL bytes, and decoded from these
    bytes to the same field. *)
Lemma text_round_trip_below_width (length : nat) (s : pystr)
  (e : list byte) :
  utf8_encode s = Ok e ->
  (List.length e < length)%nat ->
  ~ In NUL s ->
  exists f b,
    FieldText.init (PStr s) length = Ok f /\
    FieldText.as_bytes f = Ok b /\
    b = e ++ zeros (length - List.length e) /\
    List.length b = length /\
    FieldText.init (PBytes b) length = Ok f.
Proof.
  intros He Hlen Hn.
  exists (FieldText.mk length (PStr s)), (e ++ zeros (length - List.length e)).
  assert (Hb : List.length (e ++ zeros (length - List.length e)) = length).
  { rewrite length_app. unfold zeros. rewrite repeat_length. lia. }
  split; [|split; [|split; [reflexivity|split; [exact Hb|]]]].
  - unfold FieldText.init, FieldText.set_value. rewrite He. cbn [bind].
    destruct (len e >? Z.of_nat length) eqn:E; [|reflexivity].
    apply Z.gtb_lt in E. unfold len in E. lia.
  - unfold FieldText.as_bytes. cbn [FieldText._value FieldText._length].
    cbn [py_encode]. rewrite He. cbn [bind]. f_equal.
    rewrite firstn_app.
    rewrite (firstn_all2 (n := length) e) by lia.
    f_equal. unfold zeros. apply firstn_repeat_le. lia.
  - unfold FieldText.init, FieldText.set_value, len. rewrite Hb.
    destruct (Z.of_nat length >? Z.of_nat length) eqn:E;
      [apply Z.gtb_lt in E; lia|].
    rewrite (utf8_decode_encode s e _ He), utf8_decode_zeros. cbn [bind].
    unfold str_index.
    destruct (length - List.length e)%nat as [|k] eqn:Ek; [lia|].
    rewrite (str_find_app_nul s k Hn). cbn [bind].
    destruct (Z.of_nat (List.length s) =? -1) eqn:E1;
      [apply Z.eqb_eq in E1; lia|].
    unfold str_prefix.
    destruct (Z.of_nat (List.length s) <? 0) eqn:E2;
      [apply Z.ltb_lt in E2; lia|].
    rewrite Nat2Z.id, firstn_app, Nat.sub_diag, firstn_O, app_nil_r.
    rewrite firstn_all. reflexivity.
Qed.
(** ** Integer fields *)

Lemma byte_of_Z_to_Z (b : byte) : byte_of_Z_wrap (byte_to_Z b) = b.
Proof.
  unfold byte_of_Z_wrap, byte_of_Z.
  pose proof (byte_to_Z_range b) as H.
  rewrite Z.mod_small by lia.
  destruct (byte_to_Z b <? 0) eqn:E; [apply Z.ltb_lt in E; lia|].
  unfold byte_to_Z. rewrite N2Z.id, Byte.of_to_N. reflexivity.
Qed.

Lemma int_from_bytes_range (b : list byte) :
  0 <= int_from_bytes b < 2 ^ (8 * len b).
Proof.
  unfold len. induction b as [|x b IH].
  - simpl. lia.
  - cbn [int_from_bytes List.length]. pose proof (byte_to_Z_range x).
    replace (8 * Z.of_nat (S (List.length b)))
      with (8 + 8 * Z.of_nat (List.length b)) by lia.
    rewrite Z.pow_add_r by lia. change (2 ^ 8) with 256. lia.
Qed.

Lemma le_bytes_from_bytes (b : list byte) :
  le_bytes (List.length b) (int_from_bytes b) = b.
Proof.
  induction b as [|x b IH]; [reflexivity|].
  cbn [int_from_bytes List.length le_bytes].
  pose proof (byte_to_Z_range x) as Hx.
  replace (byte_to_Z x + 256 * int_from_bytes b)
    with (byte_to_Z x + int_from_bytes b * 256) by lia.
  f_equal.
  - unfold byte_of_Z_wrap. rewrite Z.mod_add by lia.
    apply byte_of_Z_to_Z.
  - rewrite Z.div_add by lia. rewrite Z.div_small by lia. exact IH.
Qed.

Lemma int_to_bytes_unsigned (n : Z) (length : nat) :
  int_to_bytes n length false =
  if (n <? 0) || (2 ^ (8 * Z.of_nat length) <=? n)
  then Raise OverflowError else Ok (le_bytes length n).
Proof.
  unfold int_to_bytes. destruct (n <? 0); [reflexivity|].
  now destruct (_ <=? n).
Qed.
Lemma le_bytes_nth (length : nat) :
  forall (n : Z) (i : nat),
    (i < length)%nat ->
    nth_error (le_bytes length n) i
    = Some (byte_of_Z_wrap (n / 256 ^ Z.of_nat i)).
Proof.
  induction length as [|l IH]; intros n i Hi; [lia|].
  destruct i as [|i]; cbn [le_bytes nth_error].
  - now rewrite Z.pow_0_r, Z.div_1_r.
  - rewrite IH by lia. f_equal. f_equal.
    rewrite Nat2Z.inj_succ, Z.pow_succ_r by lia.
    rewrite Z.div_div by lia. reflexivity.
Qed.

(** X1: an integer field built from an int [n] between 0 and
    256^length - 1 serialises to exactly [length] bytes in little-endian
    order (byte [i] is the [i]-th base-256 digit of [n], least significant
    first), and the field built from these bytes is the same field. *)
Theorem integer_field_round_trip :
  forall (length : nat) (n : Z),
    0 <= n < 2 ^ (8 * Z.of_nat length) ->
    exists f b,
      FieldInteger.init (PInt n) length = Ok f /\
      FieldInteger.value f = PInt n /\
      FieldInteger.as_bytes f = Ok b /\
      List.length b = length /\
      (forall i : nat,
          (i < length)%nat ->
          option_map byte_to_Z (nth_error b i)
          = Some ((n / 256 ^ Z.of_nat i) mod 256)) /\
      FieldInteger.init (PBytes b) length = Ok f.
Proof.
  intros length n Hn.
  exists (FieldInteger.mk length (PInt n)), (le_bytes length n).
  split; [reflexivity|]. split; [reflexivity|]. split; [|split; [|split]].
  - unfold FieldInteger.as_bytes.
    cbn [FieldInteger._value FieldInteger._length py_to_bytes].
    rewrite int_to_bytes_unsigned.
    destruct (n <? 0) eqn:E1; [apply Z.ltb_lt in E1; lia|].
    destruct (2 ^ (8 * Z.of_nat length) <=? n) eqn:E2;
      [apply Z.leb_le in E2; lia | reflexivity].
  - apply le_bytes_length.
  - intros i Hi. rewrite (le_bytes_nth length n i Hi).
    cbn [option_map]. now rewrite byte_to_Z_wrap.
  - unfold FieldInteger.init, FieldInteger.set_value, len.
    rewrite le_bytes_length, Z.eqb_refl. cbn [negb bind].
    now rewrite int_from_le_bytes.
Qed.

Lemma integer_field_round_trip_witness :
  exists f b,
    FieldInteger.init (PInt 258) 2 = Ok f /\
    FieldInteger.value f = PInt 258 /\
    FieldInteger.as_bytes f = Ok b /\
    List.length b = 2%nat /\
    (forall i : nat,
        (i < 2)%nat ->
        option_map byte_to_Z (nth_error b i)
        = Some ((258 / 256 ^ Z.of_nat i) mod 256)) /\
    FieldInteger.init (PBytes b) 2 = Ok f.
Proof.
  apply (integer_field_round_trip 2 258). simpl. lia.
Defined.

(** X2: an integer field takes any int without a range check; the check is
    made by [as_bytes], which raises [OverflowError] exactly when the int is
    negative or does not fit in [length] bytes, and returns [length] bytes
    otherwise. *)
Theorem integer_field_overflow :
  forall (length : nat) (n : Z),
    FieldInteger.init (PInt n) length
    = Ok (FieldInteger.mk length (PInt n)) /\
    (FieldInteger.as_bytes (FieldInteger.mk length (PInt n))
     = Raise OverflowError <->
     n < 0 \/ 2 ^ (8 * Z.of_nat length) <= n) /\
    (is_ok (FieldInteger.as_bytes (FieldInteger.mk length (PInt n))) = true
     <-> 0 <= n < 2 ^ (8 * Z.of_nat length)).
Proof.
  intros length n. split; [reflexivity|].
  unfold FieldInteger.as_bytes.
  cbn [FieldInteger._value FieldInteger._length py_to_bytes].
  rewrite int_to_bytes_unsigned.
  destruct (n <? 0) eqn:E1; cbn [orb].
  - apply Z.ltb_lt in E1. split; split; intros H;
      try reflexivity; try discriminate H; lia.
  - apply Z.ltb_ge in E1.
    destruct (2 ^ (8 * Z.of_nat length) <=? n) eqn:E2.
    + apply Z.leb_le in E2. split; split; intros H;
        try reflexivity; try discriminate H; lia.
    + apply Z.leb_gt in E2. split; split; intros H;
        try reflexivity; try discriminate H; lia.
Qed.

(** X3: an integer field is built from bytes only when there are exactly
    [length] of them ([ValueError] otherwise); its value is then an int
    between 0 and 256^length - 1, and [as_bytes] returns the same bytes. *)
Theorem integer_field_decode_encode :
  forall (length : nat) (b : list byte),
    (List.length b <> length ->
     FieldInteger.init (PBytes b) length = Raise ValueError) /\
    (List.length b = length ->
     exists f n,
       FieldInteger.init (PBytes b) length = Ok f /\
       FieldInteger.value f = PInt n /\
       0 <= n < 2 ^ (8 * Z.of_nat length) /\
       FieldInteger.as_bytes f = Ok b).
Proof.
  intros length b. unfold FieldInteger.init, FieldInteger.set_value, len.
  split; intros H.
  - destruct (Z.of_nat (List.length b) =? Z.of_nat length) eqn:E;
      [apply Z.eqb_eq in E; lia | reflexivity].
  - rewrite H, Z.eqb_refl. cbn [negb bind].
    exists (FieldInteger.mk length (PInt (int_from_bytes b))),
      (int_from_bytes b).
    pose proof (int_from_bytes_range b) as R. unfold len in R.
    rewrite H in R.
    split; [reflexivity|]. split; [reflexivity|]. split; [exact R|].
    unfold FieldInteger.as_bytes.
  cbn [FieldInteger._value FieldInteger._length py_to_bytes].
  rewrite int_to_bytes_unsigned.
    destruct (int_from_bytes b <? 0) eqn:E1; [apply Z.ltb_lt in E1; lia|].
    destruct (2 ^ (8 * Z.of_nat length) <=? int_from_bytes b) eqn:E2;
      [apply Z.leb_le in E2; lia|].
    cbn [orb]. rewrite <- H. now rewrite le_bytes_from_bytes.
Qed.

Lemma integer_field_decode_encode_witness :
  FieldInteger.init (PBytes [x01; x02; x03]) 4 = Raise ValueError /\
  exists f n,
    FieldInteger.init (PBytes [x01; x02; x03; x04]) 4 = Ok f /\
    FieldInteger.value f = PInt n /\
    0 <= n < 2 ^ (8 * Z.of_nat 4) /\
    FieldInteger.as_bytes f = Ok [x01; x02; x03; x04].
Proof.
  split.
  - apply (proj1 (integer_field_decode_encode 4 [x01; x02; x03])).
    simpl. lia.
  - apply (proj2 (integer_field_decode_encode 4 [x01; x02; x03; x04])).
    reflexivity.
Defined.
(** ** Text fields with an embedded NUL *)

Lemma str_find_first (s t : pystr) (c : N) :
  ~ In c s -> str_find (s ++ c :: t) c = Some (List.length s).
Proof.
  induction s as [|x s IH]; intros Hn.
  - cbn [app str_find List.length]. now rewrite N.eqb_refl.
  - cbn [app str_find List.length].
    destruct (N.eqb_spec x c) as [->|Hx].
    + exfalso. apply Hn. now left.
    + rewrite IH; [reflexivity|]. intros Hin. apply Hn. now right.
Qed.

Lemma text_as_bytes_padded (length : nat) (s : pystr) (e : list byte) :
  utf8_encode s = Ok e -> (List.length e <= length)%nat ->
  FieldText.as_bytes (FieldText.mk length (PStr s))
  = Ok (e ++ zeros (length - List.length e)).
Proof.
  intros He Hlen. unfold FieldText.as_bytes.
  cbn [FieldText._value FieldText._length py_encode]. rewrite He.
  cbn [bind]. f_equal. rewrite firstn_app.
  rewrite (firstn_all2 (n := length) e) by lia.
  f_equal. unfold zeros. apply firstn_repeat_le. lia.
Qed.

(** X5: a text with a NUL character in it is accepted when its encoding
    fits the width, and it is not recovered from its own encoding: the field
    decoded from the bytes [as_bytes] returns holds only the characters
    before the first NUL. *)
Theorem text_round_trip_cut_at_nul :
  forall (length : nat) (s1 s2 : pystr) (e : list byte),
    utf8_encode (s1 ++ NUL :: s2) = Ok e ->
    (List.length e <= length)%nat ->
    ~ In NUL s1 ->
    exists f b,
      FieldText.init (PStr (s1 ++ NUL :: s2)) length = Ok f /\
      FieldText.value f = PStr (s1 ++ NUL :: s2) /\
      FieldText.as_bytes f = Ok b /\
      FieldText.init (PBytes b) length
      = Ok (FieldText.mk length (PStr s1)).
Proof.
  intros length s1 s2 e He Hlen Hn.
  exists (FieldText.mk length (PStr (s1 ++ NUL :: s2))).
  exists (e ++ zeros (length - List.length e)).
  split; [|split; [reflexivity|split]].
  - unfold FieldText.init, FieldText.set_value. rewrite He. cbn [bind].
    destruct (len e >? Z.of_nat length) eqn:E; [|reflexivity].
    apply Z.gtb_lt in E. unfold len in E. lia.
  - now apply text_as_bytes_padded.
  - unfold FieldText.init, FieldText.set_value, len.
    rewrite length_app. unfold zeros at 1. rewrite repeat_length.
    destruct (Z.of_nat (List.length e + (length - List.length e))
              >? Z.of_nat length) eqn:E; [apply Z.gtb_lt in E; lia|].
    rewrite (utf8_decode_encode _ e _ He), utf8_decode_zeros. cbn [bind].
    unfold str_index. rewrite <- app_assoc. cbn [app].
    rewrite (str_find_first s1 _ NUL Hn). cbn [bind].
    destruct (Z.of_nat (List.length s1) =? -1) eqn:E1;
      [apply Z.eqb_eq in E1; lia|].
    unfold str_prefix.
    destruct (Z.of_nat (List.length s1) <? 0) eqn:E2;
      [apply Z.ltb_lt in E2; lia|].
    rewrite Nat2Z.id, firstn_app, Nat.sub_diag, firstn_O, app_nil_r.
    rewrite firstn_all. reflexivity.
Qed.

Lemma text_round_trip_cut_at_nul_witness :
  exists f b,
    FieldText.init (PStr ([97; 98] ++ NUL :: [99])%N) 16 = Ok f /\
    FieldText.value f = PStr ([97; 98] ++ NUL :: [99])%N /\
    FieldText.as_bytes f = Ok b /\
    FieldText.init (PBytes b) 16
    = Ok (FieldText.mk 16 (PStr [97; 98]%N)).
Proof.
  apply (text_round_trip_cut_at_nul 16 [97; 98]%N [99%N]
           [x61; x62; x00; x63]).
  - reflexivity.
  - simpl. lia.
  - simpl. intros [H|[H|H]]; try discriminate H. exact H.
Defined.

Lemma text_round_trip_below_width_witness :
  exists f b,
    FieldText.init (PStr (lit "bob")) 16 = Ok f /\
    FieldText.as_bytes f = Ok b /\
    b = [x62; x6f; x62] ++ zeros (16 - List.length [x62; x6f; x62]) /\
    List.length b = 16%nat /\
    FieldText.init (PBytes b) 16 = Ok f.
Proof.
  apply (text_round_trip_below_width 16 (lit "bob") [x62; x6f; x62]).
  - reflexivity.
  - simpl. lia.
  - simpl. intros [H|[H|[H|H]]]; try discriminate H. exact H.
Defined.
(** ** Binary fields *)

Lemma bytes_of_list_ints (b : list byte) :
  bytes_of_list (map int_of_byte b) = Ok b.
Proof.
  induction b as [|x b IH]; [reflexivity|].
  cbn [map bytes_of_list]. unfold int_of_byte at 1, py_byte, byte_of_Z.
  pose proof (byte_to_Z_range x) as H.
  destruct (byte_to_Z x <? 0) eqn:E; [apply Z.ltb_lt in E; lia|].
  unfold byte_to_Z. rewrite N2Z.id, Byte.of_to_N. cbn [bind].
  rewrite IH. reflexivity.
Qed.

(** X6: a binary field takes exactly [length] bytes, given as a bytes
    object or as the list of their values, and [as_bytes] returns these
    bytes unchanged; any other number of bytes or of list elements is
    refused with [ValueError]. *)
Theorem binary_field_passthrough :
  forall (length : nat) (b : list byte),
    (List.length b = length ->
     FieldBinary.init (PBytes b) length
     = Ok (FieldBinary.mk length (PBytes b)) /\
     FieldBinary.init (PList (map int_of_byte b)) length
     = Ok (FieldBinary.mk length (PBytes b)) /\
     FieldBinary.as_bytes (FieldBinary.mk length (PBytes b)) = PBytes b) /\
    (List.length b <> length ->
     FieldBinary.init (PBytes b) length = Raise ValueError /\
     FieldBinary.init (PList (map int_of_byte b)) length
     = Raise ValueError).
Proof.
  intros length b.
  unfold FieldBinary.init, FieldBinary.set_value, len.
  rewrite length_map. split; intros H.
  - rewrite H, Z.eqb_refl. cbn [negb bind]. rewrite bytes_of_list_ints.
    repeat split.
  - destruct (Z.of_nat (List.length b) =? Z.of_nat length) eqn:E;
      [apply Z.eqb_eq in E; lia|]. split; reflexivity.
Qed.

Lemma binary_field_passthrough_witness :
  (FieldBinary.init (PBytes [x01; x02]) 2
   = Ok (FieldBinary.mk 2 (PBytes [x01; x02])) /\
   FieldBinary.init (PList (map int_of_byte [x01; x02])) 2
   = Ok (FieldBinary.mk 2 (PBytes [x01; x02])) /\
   FieldBinary.as_bytes (FieldBinary.mk 2 (PBytes [x01; x02]))
   = PBytes [x01; x02]) /\
  (FieldBinary.init (PBytes [x01; x02]) 31 = Raise ValueError /\
   FieldBinary.init (PList (map int_of_byte [x01; x02])) 31
   = Raise ValueError).
Proof.
  split.
  - apply (proj1 (binary_field_passthrough 2 [x01; x02])). reflexivity.
  - apply (proj2 (binary_field_passthrough 31 [x01; x02])). simpl. lia.
Defined.

(** ** Variable-length lists *)

Lemma bytes_of_bools (l : list bool) :
  bytes_of_list (map PBool l)
  = Ok (map (fun x : bool => if x then x01 else x00) l).
Proof.
  induction l as [|x l IH]; [reflexivity|].
  cbn [map bytes_of_list py_byte bind]. rewrite IH. reflexivity.
Qed.

Lemma bools_of_bytes (l : list bool) :
  map (fun x => PBool (negb (byte_to_Z x =? 0)))
      (map (fun x : bool => if x then x01 else x00) l)
  = map PBool l.
Proof.
  induction l as [|x l IH]; [reflexivity|].
  cbn [map]. rewrite IH. now destruct x.
Qed.

(** X7: a list of at most nine booleans is accepted as a user question
    response and serialises to ten bytes: the number of answers, then one
    byte per answer (1 for [True], 0 for [False]), then zero bytes up to
    the width; the field built from these bytes is the same field.  A
    longer list is refused with [ValueError]. *)
Theorem question_response_round_trip :
  forall l : list bool,
    ((List.length l <= 9)%nat ->
     exists f b,
       FieldUserQuestionResponse.init (PList (map PBool l)) = Ok f /\
       FieldVarLenList.value f = Ok (PList (map PBool l)) /\
       FieldVarLenList.as_bytes f = Ok b /\
       List.length b = FieldUserQuestionResponse.SIZE /\
       map byte_to_Z b
       = Z.of_nat (List.length l)
           :: map Z.b2z l ++ repeat 0 (9 - List.length l) /\
       FieldUserQuestionResponse.init (PBytes b) = Ok f) /\
    ((9 < List.length l)%nat ->
     FieldUserQuestionResponse.init (PList (map PBool l))
     = Raise ValueError).
Proof.
  intros l.
  unfold FieldUserQuestionResponse.init, FieldVarLenList.init,
    FieldVarLenList.set_value, len.
  rewrite length_map.
  change (Z.of_nat FieldUserQuestionResponse.SIZE - 1) with 9.
  split; intros H.
  - destruct (Z.of_nat (List.length l) >? 9) eqn:E;
      [apply Z.gtb_lt in E; lia|]. cbn [bind].
    set (n := byte_of_Z_wrap (Z.of_nat (List.length l))).
    set (bs := map (fun x : bool => if x then x01 else x00) l).
    exists (FieldVarLenList.mk FieldUserQuestionResponse.SIZE
              (Some (map PBool l))).
    exists ([n] ++ bs ++ zeros (9 - List.length l)).
    assert (Hn : py_byte (PInt (len (map PBool l))) = Ok n).
    { unfold py_byte, len, byte_of_Z. rewrite length_map.
      destruct (Z.of_nat (List.length l) <? 0) eqn:E0;
        [apply Z.ltb_lt in E0; lia|].
      subst n. unfold byte_of_Z_wrap, byte_of_Z.
      rewrite Z.mod_small by lia. rewrite E0.
      destruct (Byte.of_N (Z.to_N (Z.of_nat (List.length l)))) eqn:Eb;
        [reflexivity|].
      apply Byte.of_N_None_iff in Eb. lia. }
    assert (Hb : List.length bs = List.length l)
      by (subst bs; apply length_map).
    assert (Hz : byte_to_Z n = Z.of_nat (List.length l)).
    { subst n. rewrite byte_to_Z_wrap. apply Z.mod_small. lia. }
    split; [reflexivity|]. split; [reflexivity|].
    split; [|split; [|split]].
    + unfold FieldVarLenList.as_bytes.
      cbn [FieldVarLenList._value FieldVarLenList._length].
      rewrite Hn. cbn [bind]. rewrite bytes_of_bools. cbn [bind].
      fold bs. f_equal.
      change FieldUserQuestionResponse.SIZE with (S 9).
      change (([n] ++ bs) ++ zeros 20) with (n :: (bs ++ zeros 20)).
      change ([n] ++ bs ++ zeros (9 - List.length l))
        with (n :: (bs ++ zeros (9 - List.length l))).
      rewrite firstn_cons. f_equal.
      rewrite firstn_app, (firstn_all2 (n := 9) bs) by lia.
      f_equal. rewrite Hb. unfold zeros. apply firstn_repeat_le. lia.
    + rewrite !length_app. unfold zeros. rewrite repeat_length, Hb.
      cbn [List.length]. change FieldUserQuestionResponse.SIZE with 10%nat.
      lia.
    + cbn [app map]. rewrite Hz. f_equal. rewrite map_app. f_equal.
      * subst bs. rewrite map_map. apply map_ext. now intros [].
      * unfold zeros. now rewrite map_repeat.
    + rewrite !length_app. unfold zeros at 1. rewrite repeat_length, Hb.
      cbn [List.length app].
      change (Z.of_nat FieldUserQuestionResponse.SIZE) with 10.
      match goal with
      | |- context [negb (?x =? 10)] => replace x with 10 by lia
      end.
      cbn [negb Z.eqb Pos.eqb bind]. rewrite Hz, Nat2Z.id.
      rewrite firstn_app, Hb, Nat.sub_diag, firstn_O, app_nil_r.
      rewrite firstn_all2 by lia. subst bs. rewrite bools_of_bytes.
      reflexivity.
  - destruct (Z.of_nat (List.length l) >? 9) eqn:E;
      [reflexivity | ]. rewrite Z.gtb_ltb in E. apply Z.ltb_ge in E. lia.
Qed.

Lemma question_response_round_trip_witness :
  exists f b,
    FieldUserQuestionResponse.init (PList (map PBool [true; false])) = Ok f /\
    FieldVarLenList.value f = Ok (PList (map PBool [true; false])) /\
    FieldVarLenList.as_bytes f = Ok b /\
    List.length b = FieldUserQuestionResponse.SIZE /\
    map byte_to_Z b = [2; 1; 0; 0; 0; 0; 0; 0; 0; 0] /\
    FieldUserQuestionResponse.init (PBytes b) = Ok f.
Proof.
  apply (proj1 (question_response_round_trip [true; false])). simpl. lia.
Defined.
(** X8: a user question response is decoded from any ten bytes without an
    error: the first byte is taken as the number of answers and at most the
    nine bytes that follow are read, each non-zero byte as [True]; a count
    above nine is not refused, it yields nine answers.  Any other number of
    bytes raises [ValueError]. *)
Theorem question_response_decode :
  forall b : list byte,
    (List.length b = 10%nat ->
     exists c rest l,
       b = c :: rest /\
       FieldUserQuestionResponse.init (PBytes b)
       = Ok (FieldVarLenList.mk 10 (Some l)) /\
       l = map (fun x => PBool (negb (byte_to_Z x =? 0)))
               (firstn (Z.to_nat (byte_to_Z c)) rest) /\
       Z.of_nat (List.length l) = Z.min (byte_to_Z c) 9) /\
    (List.length b <> 10%nat ->
     FieldUserQuestionResponse.init (PBytes b) = Raise ValueError).
Proof.
  intros b.
  unfold FieldUserQuestionResponse.init, FieldVarLenList.init,
    FieldVarLenList.set_value, len.
  change (Z.of_nat FieldUserQuestionResponse.SIZE) with 10.
  change FieldUserQuestionResponse.SIZE with 10%nat.
  split; intros H.
  - destruct b as [|c rest]; [discriminate H|].
    rewrite H. cbn [Z.of_nat Z.eqb Pos.of_succ_nat Pos.succ Pos.eqb negb bind].
    eexists c, rest, _. split; [reflexivity|]. split; [reflexivity|].
    split; [reflexivity|].
    rewrite length_map, length_firstn.
    pose proof (byte_to_Z_range c). simpl in H. lia.
  - destruct (Z.of_nat (List.length b) =? 10) eqn:E;
      [apply Z.eqb_eq in E; lia | reflexivity].
Qed.

Lemma question_response_decode_witness :
  exists c rest l,
    [xff; x01; x00; x00; x00; x00; x00; x00; x00; x02] = c :: rest /\
    FieldUserQuestionResponse.init
      (PBytes [xff; x01; x00; x00; x00; x00; x00; x00; x00; x02])
    = Ok (FieldVarLenList.mk 10 (Some l)) /\
    l = map (fun x => PBool (negb (byte_to_Z x =? 0)))
            (firstn (Z.to_nat (byte_to_Z c)) rest) /\
    Z.of_nat (List.length l) = Z.min (byte_to_Z c) 9.
Proof.
  apply (proj1 (question_response_decode
                  [xff; x01; x00; x00; x00; x00; x00; x00; x00; x02])).
  reflexivity.
Defined.

(** ** Checklist responses with an answer that is not allowed *)

Lemma from_items_bad_answer (rt : Runtime) (d : pydict) :
  forall acc,
    forallb (fun kv => match fst kv with PInt _ => true | _ => false end) d
    = true ->
    existsb (fun kv => negb (in_0_1_2 (snd kv))) d = true ->
    FieldChecklistResponses.from_items rt (Some acc) d = Raise ValueError.
Proof.
  induction d as [|[k v] d IH]; intros acc Hk Hv; [discriminate Hv|].
  cbn [forallb existsb fst snd] in Hk, Hv.
  apply andb_true_iff in Hk. destruct Hk as [Hk Hd].
  cbn [FieldChecklistResponses.from_items].
  destruct (negb (in_0_1_2 v)) eqn:E; [reflexivity|].
  cbn [orb] in Hv. destruct k; try discriminate Hk.
  cbn [py_int bind FieldChecklistResponses.store]. now apply IH.
Qed.

(** X9: a checklist-responses mapping of five entries with integer
    question ids is refused with [ValueError] as soon as one of its answers
    is not 0, 1 or 2. *)
Theorem checklist_responses_bad_answer :
  forall (rt : Runtime) (d : pydict),
    len d = 5 ->
    forallb (fun kv => match fst kv with PInt _ => true | _ => false end) d
    = true ->
    existsb (fun kv => negb (in_0_1_2 (snd kv))) d = true ->
    FieldChecklistResponses.init rt (PDict d) = Raise ValueError.
Proof.
  intros rt d Hlen Hk Hv. unfold FieldChecklistResponses.init.
  cbn [py_len bind]. rewrite Hlen.
  change (negb (5 =? Z.of_nat FieldChecklistResponses.NUM_RESPONSES))
    with false. cbv iota.
  pose proof (from_items_bad_answer rt d [] Hk Hv) as E.
  unfold pydict in *. now rewrite E.
Qed.

Lemma checklist_responses_bad_answer_witness :
  FieldChecklistResponses.init rt0
    (PDict [(PInt 3, PInt 2); (PInt 7, PInt 0); (PInt 1, PInt 3);
            (PInt 2, PInt 0); (PInt 4, PInt 1)]) = Raise ValueError.
Proof.
  apply (checklist_responses_bad_answer rt0); reflexivity.
Defined.
(** ** The text [json.dumps] writes *)

Lemma pyval_induction (P : pyval -> Prop) :
  P PNone ->
  (forall b, P (PBool b)) ->
  (forall n, P (PInt n)) ->
  (forall q, P (PFloat q)) ->
  (forall s, P (PStr s)) ->
  (forall b, P (PBytes b)) ->
  (forall l, Forall P l -> P (PList l)) ->
  (forall d, Forall (fun kv => P (snd kv)) d -> P (PDict d)) ->
  forall v, P v.
Proof.
  intros HN HB HI HF HS HY HL HD.
  fix IH 1. intros v. destruct v as [ |b|n|q|s|b|l|d].
  - exact HN.
  - apply HB.
  - apply HI.
  - apply HF.
  - apply HS.
  - apply HY.
  - apply HL. induction l as [|x l IHl]; constructor; [apply IH | exact IHl].
  - apply HD. induction d as [|[k x] d IHd]; constructor;
      [apply IH | exact IHd].
Qed.

Lemma digits_ascii (fuel : nat) :
  forall n acc, Forall ascii_char acc -> Forall ascii_char (digits fuel n acc).
Proof.
  induction fuel as [|f IH]; intros n acc Hacc; [exact Hacc|].
  cbn [digits].
  assert (Hd : ascii_char (48 + n mod 10)%N).
  { unfold ascii_char. ndiv. }
  destruct (n / 10 =? 0)%N.
  - now constructor.
  - apply IH. now constructor.
Qed.

Lemma str_of_Z_ascii (z : Z) : Forall ascii_char (str_of_Z z).
Proof.
  unfold str_of_Z. apply Forall_app. split.
  - destruct (z <? 0); repeat constructor; unfold ascii_char; lia.
  - apply digits_ascii. constructor.
Qed.

Lemma hex_digit_ascii (n : N) : (n < 16)%N -> ascii_char (hex_digit n).
Proof.
  intros H. unfold hex_digit, ascii_char.
  destruct (N.ltb_spec n 10); lia.
Qed.

Lemma u_escape_ascii (n : N) : Forall ascii_char (u_escape n).
Proof.
  unfold u_escape.
  repeat constructor; try (unfold ascii_char; lia);
    apply hex_digit_ascii; apply N.mod_lt; lia.
Qed.

Lemma json_escape_char_ascii (c : N) : Forall ascii_char (json_escape_char c).
Proof.
  unfold json_escape_char.
  repeat match goal with
         | |- context [(?a =? ?b)%N] => destruct (N.eqb_spec a b)
         end;
    try (repeat constructor; unfold ascii_char; lia).
  destruct (N.leb_spec 32 c); destruct (N.leb_spec c 126); cbn [andb];
    try (repeat constructor; unfold ascii_char; lia);
    (destruct (N.ltb_spec c 65536);
     [apply u_escape_ascii
     | apply Forall_app; split; apply u_escape_ascii]).
Qed.

Lemma quoted_ascii (s : pystr) :
  Forall ascii_char s -> Forall ascii_char (quoted s).
Proof.
  intros H. unfold quoted. apply Forall_app. split.
  - repeat constructor; unfold ascii_char; lia.
  - apply Forall_app. split; [exact H|].
    repeat constructor; unfold ascii_char; lia.
Qed.

Lemma json_string_ascii (s : pystr) : Forall ascii_char (json_string s).
Proof.
  unfold json_string. apply quoted_ascii.
  induction s as [|c s IH]; [constructor|].
  cbn [flat_map]. apply Forall_app. split;
    [apply json_escape_char_ascii | exact IH].
Qed.

Lemma join_ascii (sep : pystr) (l : list pystr) :
  Forall ascii_char sep -> Forall (Forall ascii_char) l ->
  Forall ascii_char (join sep l).
Proof.
  intros Hsep Hl. induction Hl as [|x l Hx Hl IH]; [constructor|].
  cbn [join]. destruct l as [|y l]; [exact Hx|].
  apply Forall_app. split; [exact Hx|].
  apply Forall_app. split; [exact Hsep | exact IH].
Qed.

Ltac ascii_lit := repeat constructor; unfold ascii_char; lia.

Lemma json_key_ascii (rt : Runtime) (k : pyval) (s : pystr) :
  ascii_floats rt -> json_key rt k = Ok s -> Forall ascii_char s.
Proof.
  intros Hf. destruct k; simpl; intros H; try discriminate H;
    apply Ok_inj in H; subst s.
  - apply quoted_ascii. ascii_lit.
  - apply quoted_ascii. destruct b; ascii_lit.
  - apply quoted_ascii. apply str_of_Z_ascii.
  - apply quoted_ascii. apply Hf.
  - apply json_string_ascii.
Qed.

(** Whatever [json.dumps] returns is ASCII text without a NUL. *)
Lemma json_dumps_ascii (rt : Runtime) :
  ascii_floats rt ->
  forall v txt, json_dumps rt v = Ok txt -> Forall ascii_char txt.
Proof.
  intros Hf v. induction v using pyval_induction; intros txt Hs.
  - apply Ok_inj in Hs. subst txt. ascii_lit.
  - apply Ok_inj in Hs. subst txt. destruct b; ascii_lit.
  - apply Ok_inj in Hs. subst txt. apply str_of_Z_ascii.
  - apply Ok_inj in Hs. subst txt. apply Hf.
  - apply Ok_inj in Hs. subst txt. apply json_string_ascii.
  - discriminate Hs.
  - cbn [json_dumps] in Hs. apply bind_ok in Hs.
    destruct Hs as (items & Hi & Hs). apply Ok_inj in Hs. subst txt.
    apply Forall_app. split; [ascii_lit|].
    apply Forall_app. split; [|ascii_lit].
    apply join_ascii; [ascii_lit|].
    revert items Hi. induction H as [|x l Hx Hl IH]; intros items Hi.
    + apply Ok_inj in Hi. subst items. constructor.
    + apply bind_ok in Hi. destruct Hi as (sx & Hsx & Hi).
      apply bind_ok in Hi. destruct Hi as (r & Hr & Hi).
      apply Ok_inj in Hi. subst items. constructor.
      * now apply Hx.
      * now apply IH.
  - cbn [json_dumps] in Hs. apply bind_ok in Hs.
    destruct Hs as (items & Hi & Hs). apply Ok_inj in Hs. subst txt.
    apply Forall_app. split; [ascii_lit|].
    apply Forall_app. split; [|ascii_lit].
    apply join_ascii; [ascii_lit|].
    revert items Hi. induction H as [|[k x] l Hx Hl IH]; intros items Hi.
    + apply Ok_inj in Hi. subst items. constructor.
    + apply bind_ok in Hi. destruct Hi as (ks & Hks & Hi).
      apply bind_ok in Hi. destruct Hi as (sx & Hsx & Hi).
      apply bind_ok in Hi. destruct Hi as (r & Hr & Hi).
      apply Ok_inj in Hi. subst items. constructor.
      * apply Forall_app. split; [now apply (json_key_ascii rt k)|].
        apply Forall_app. split; [ascii_lit | now apply Hx].
      * now apply IH.
Qed.
Lemma in_firstn {A : Type} (x : A) (n : nat) (l : list A) :
  In x (firstn n l) -> In x l.
Proof.
  intros H. rewrite <- (firstn_skipn n l). apply in_or_app. now left.
Qed.

(** ** JSON fields *)

Lemma utf8_encode_ascii (s : pystr) :
  Forall (fun c => (c < 128)%N) s ->
  utf8_encode s = Ok (map byte_of_N_wrap s).
Proof.
  induction 1 as [|c s Hc Hs IH]; [reflexivity|].
  cbn [utf8_encode map]. unfold utf8_encode_cp.
  destruct (N.ltb_spec c 128); [|lia]. cbn [bind]. rewrite IH.
  reflexivity.
Qed.

Lemma utf8_decode_ascii (s : pystr) :
  Forall (fun c => (c < 128)%N) s ->
  utf8_decode (map byte_of_N_wrap s) = Ok s.
Proof.
  intros H. pose proof (utf8_encode_ascii s H) as E.
  pose proof (utf8_decode_encode s _ [] E) as D.
  rewrite app_nil_r in D. rewrite D. cbn [utf8_decode bind].
  now rewrite app_nil_r.
Qed.

Lemma ascii_below_128 (s : pystr) (k : nat) :
  Forall ascii_char s ->
  Forall (fun c => (c < 128)%N) (s ++ repeat NUL k).
Proof.
  intros H. apply Forall_app. split.
  - eapply Forall_impl; [|exact H]. unfold ascii_char. intros c Hc. lia.
  - apply Forall_forall. intros c Hc. apply repeat_spec in Hc.
    subst c. unfold NUL. lia.
Qed.

Lemma str_find_none (s : pystr) :
  Forall ascii_char s -> str_find s NUL = None.
Proof.
  induction 1 as [|c s Hc Hs IH]; [reflexivity|].
  cbn [str_find]. unfold ascii_char, NUL in *.
  destruct (N.eqb_spec c 0); [lia|]. now rewrite IH.
Qed.

Lemma ascii_no_nul (s : pystr) : Forall ascii_char s -> ~ In NUL s.
Proof.
  intros H Hin. rewrite Forall_forall in H. apply H in Hin.
  unfold ascii_char, NUL in Hin. lia.
Qed.

Lemma json_text_padded (length : nat) (s : pystr) :
  (List.length s <= length)%nat ->
  firstn length (s ++ repeat NUL length)
  = s ++ repeat NUL (length - List.length s).
Proof.
  intros H. rewrite firstn_app, (firstn_all2 (n := length) s) by lia.
  f_equal. apply firstn_repeat_le. lia.
Qed.

(** The text a JSON field is decoded from: the padded text up to its first
    NUL, or all of it when it has none. *)
Lemma json_strvalue (s : pystr) (k : nat) :
  Forall ascii_char s ->
  match str_index (s ++ repeat NUL k) NUL with
  | Raise _ => s ++ repeat NUL k
  | Ok i => str_prefix (s ++ repeat NUL k) i
  end = s.
Proof.
  intros H. unfold str_index. destruct k as [|k].
  - cbn [repeat]. rewrite app_nil_r, (str_find_none s H). reflexivity.
  - rewrite (str_find_app_nul s k (ascii_no_nul s H)).
    unfold str_prefix.
    destruct (Z.of_nat (List.length s) <? 0) eqn:E;
      [apply Z.ltb_lt in E; lia|].
    rewrite Nat2Z.id, firstn_app, Nat.sub_diag, firstn_O, app_nil_r.
    apply firstn_all.
Qed.

Lemma byte_to_N_wrap (c : N) :
  (c < 256)%N -> Byte.to_N (byte_of_N_wrap c) = c.
Proof.
  intros H. unfold byte_of_N_wrap. rewrite N.mod_small by exact H.
  destruct (Byte.of_N c) eqn:E.
  - now apply Byte.to_of_N.
  - apply Byte.of_N_None_iff in E. lia.
Qed.

Lemma bytes_to_N_wrap (t : pystr) :
  Forall (fun c => (c < 128)%N) t ->
  map Byte.to_N (map byte_of_N_wrap t) = t.
Proof.
  induction 1 as [|c t Hc Ht IH]; [reflexivity|].
  cbn [map]. rewrite IH, byte_to_N_wrap by lia. reflexivity.
Qed.

(** X10: a value whose JSON text has at most [length] characters is
    accepted by a JSON field and serialises to exactly [length] bytes: the
    character codes of the text, one byte each, followed by NUL bytes up to
    the width.  The field decoded from these bytes holds what [json.loads]
    returns for the text.  This includes a text that fills the field, where
    there is no NUL to cut at. *)
Theorem json_field_round_trip :
  forall (rt : Runtime) (length : nat) (v v' : pyval) (s : pystr),
    ascii_floats rt ->
    json_dumps rt v = Ok s ->
    (List.length s <= length)%nat ->
    json_loads rt s = Ok v' ->
    exists f b,
      FieldJSON.init rt v length = Ok f /\
      FieldJSON.value f = v /\
      FieldJSON.as_bytes rt f = Ok b /\
      List.length b = length /\
      map Byte.to_N b = s ++ repeat 0%N (length - List.length s) /\
      FieldJSON.init rt (PBytes b) length = Ok (FieldJSON.mk length v').
Proof.
  intros rt length v v' s Hf Hs Hlen Hl.
  pose proof (json_dumps_ascii rt Hf v s Hs) as Ha.
  assert (He : utf8_encode s = Ok (map byte_of_N_wrap s)).
  { apply utf8_encode_ascii. eapply Forall_impl; [|exact Ha].
    unfold ascii_char. intros c Hc. lia. }
  set (t := s ++ repeat NUL (length - List.length s)).
  assert (Ht : Forall (fun c => (c < 128)%N) t)
    by (apply ascii_below_128; exact Ha).
  exists (FieldJSON.mk length v), (map byte_of_N_wrap t).
  assert (Hb : List.length (map byte_of_N_wrap t) = length).
  { subst t. rewrite length_map, length_app, repeat_length. lia. }
  split; [|split; [reflexivity|split; [|split; [exact Hb|split]]]].
  - unfold FieldJSON.init.
    assert (E : FieldJSON.set_value rt length v = Ok v).
    { destruct v; try discriminate Hs; unfold FieldJSON.set_value;
        rewrite Hs; cbn [bind]; rewrite He; cbn [bind];
        unfold len; rewrite length_map;
        (destruct (Z.of_nat (List.length s) >? Z.of_nat length) eqn:E;
         [rewrite Z.gtb_ltb in E; apply Z.ltb_lt in E; lia | reflexivity]). }
    rewrite E. reflexivity.
  - unfold FieldJSON.as_bytes.
    cbn [FieldJSON._value FieldJSON._length]. rewrite Hs. cbn [bind].
    rewrite (json_text_padded length s Hlen). fold t.
    now apply utf8_encode_ascii.
  - rewrite (bytes_to_N_wrap t Ht). reflexivity.
  - unfold FieldJSON.init, FieldJSON.set_value, len. rewrite Hb.
    rewrite Z.eqb_refl. cbn [negb]. rewrite (utf8_decode_ascii t Ht).
    cbn [bind]. subst t. rewrite (json_strvalue s _ Ha). rewrite Hl.
    reflexivity.
Qed.

(** A runtime that reads the text "7" as the int 7; the field is four
    bytes wide, so three NUL bytes follow the digit. *)
Lemma json_field_round_trip_witness :
  exists f b,
    FieldJSON.init
      {| json_loads := fun _ => Ok (PInt 7);
         int_of_str := fun _ => Raise ValueError;
         float_repr := fun _ => [] |} (PInt 7) 4 = Ok f /\
    FieldJSON.value f = PInt 7 /\
    FieldJSON.as_bytes
      {| json_loads := fun _ => Ok (PInt 7);
         int_of_str := fun _ => Raise ValueError;
         float_repr := fun _ => [] |} f = Ok b /\
    List.length b = 4%nat /\
    map Byte.to_N b = [55; 0; 0; 0]%N /\
    FieldJSON.init
      {| json_loads := fun _ => Ok (PInt 7);
         int_of_str := fun _ => Raise ValueError;
         float_repr := fun _ => [] |} (PBytes b) 4
    = Ok (FieldJSON.mk 4 (PInt 7)).
Proof.
  apply (json_field_round_trip
           {| json_loads := fun _ => Ok (PInt 7);
              int_of_str := fun _ => Raise ValueError;
              float_repr := fun _ => [] |} 4 (PInt 7) (PInt 7) [55%N]).
  - intros q. constructor.
  - reflexivity.
  - simpl. lia.
  - reflexivity.
Defined.

(** X11: whatever value a JSON field holds, [as_bytes] returns exactly
    [length] bytes when it returns: a JSON text longer than the field is cut
    to the width without an error. *)
Theorem json_field_width :
  forall (rt : Runtime) (f : FieldJSON.t) (b : list byte),
    ascii_floats rt ->
    FieldJSON.as_bytes rt f = Ok b ->
    List.length b = FieldJSON._length f.
Proof.
  intros rt f b Hf H. unfold FieldJSON.as_bytes in H.
  apply bind_ok in H. destruct H as (s & Hs & H).
  pose proof (json_dumps_ascii rt Hf _ s Hs) as Ha.
  assert (Ht : Forall (fun c => (c < 128)%N)
                 (firstn (FieldJSON._length f)
                    (s ++ repeat NUL (FieldJSON._length f)))).
  { apply Forall_forall. intros c Hc. apply in_firstn in Hc.
    pose proof (ascii_below_128 s (FieldJSON._length f) Ha) as A.
    rewrite Forall_forall in A. now apply A. }
  rewrite (utf8_encode_ascii _ Ht) in H. apply Ok_inj in H. subst b.
  rewrite length_map, length_firstn, length_app, repeat_length. lia.
Qed.

Lemma json_field_width_witness :
  List.length [x5b; x31; x2c; x20]
  = FieldJSON._length (FieldJSON.mk 4 (PList [PInt 1; PInt 2; PInt 3])).
Proof.
  apply (json_field_width rt0
           (FieldJSON.mk 4 (PList [PInt 1; PInt 2; PInt 3]))).
  - intros q. constructor.
  - reflexivity.
Defined.
(** ** Messages read from the wire *)

Lemma type_byte (ty : byte) (T : Z) :
  byte_to_Z ty = T -> ty = byte_of_Z_wrap T.
Proof. intros <-. symmetry. apply byte_of_Z_to_Z. Qed.

Lemma byte_reencoded (x : byte) : bytes_of_list [int_of_byte x] = Ok [x].
Proof.
  unfold int_of_byte. cbn [bytes_of_list py_byte].
  pose proof (byte_of_Z_to_Z x) as H. unfold byte_of_Z_wrap in H.
  pose proof (byte_to_Z_range x) as R.
  rewrite Z.mod_small in H by lia.
  destruct (byte_of_Z (byte_to_Z x)) as [b|] eqn:E.
  - subst b. reflexivity.
  - exfalso. unfold byte_of_Z in E.
    destruct (byte_to_Z x <? 0) eqn:E0; [apply Z.ltb_lt in E0; lia|].
    apply Byte.of_N_None_iff in E. lia.
Qed.

Lemma integer_from_bytes (length : nat) (raw : list byte)
  (f : FieldInteger.t) :
  FieldInteger.init (PBytes raw) length = Ok f ->
  List.length raw = length /\
  f = FieldInteger.mk length (PInt (int_from_bytes raw)) /\
  FieldInteger.as_bytes f = Ok raw.
Proof.
  unfold FieldInteger.init, FieldInteger.set_value, len. intros H.
  destruct (Z.eqb_spec (Z.of_nat (List.length raw)) (Z.of_nat length))
    as [E|E]; [|discriminate H].
  apply Nat2Z.inj in E. cbn [negb bind] in H. apply Ok_inj in H. subst f.
  split; [exact E|]. split; [reflexivity|].
  unfold FieldInteger.as_bytes.
  cbn [FieldInteger._value FieldInteger._length py_to_bytes].
  rewrite int_to_bytes_unsigned.
  pose proof (int_from_bytes_range raw) as R. unfold len in R.
  rewrite E in R.
  destruct (int_from_bytes raw <? 0) eqn:E1; [apply Z.ltb_lt in E1; lia|].
  destruct (2 ^ (8 * Z.of_nat length) <=? int_from_bytes raw) eqn:E2;
    [apply Z.leb_le in E2; lia|].
  cbn [orb]. rewrite <- E. now rewrite le_bytes_from_bytes.
Qed.

Lemma binary_from_bytes (length : nat) (raw : list byte)
  (f : FieldBinary.t) :
  FieldBinary.init (PBytes raw) length = Ok f ->
  List.length raw = length /\ f = FieldBinary.mk length (PBytes raw).
Proof.
  unfold FieldBinary.init, FieldBinary.set_value, len. intros H.
  destruct (Z.eqb_spec (Z.of_nat (List.length raw)) (Z.of_nat length))
    as [E|E]; [|discriminate H].
  apply Nat2Z.inj in E. cbn [negb bind] in H. apply Ok_inj in H.
  now subst f.
Qed.

Lemma islice_app (it raw rest : list byte) (n : nat) :
  islice it n = (raw, rest) ->
  it = raw ++ rest /\
  List.length raw = Nat.min n (List.length raw + List.length rest).
Proof.
  unfold islice. intros H. injection H as <- <-. split.
  - symmetry. apply firstn_skipn.
  - rewrite length_firstn, length_skipn.
    destruct (Nat.le_ge_cases n (List.length it)); lia.
Qed.

Lemma construct_inv {A : Type} (init : Runtime -> pyval -> result A)
  (inj : A -> Message) (rt : Runtime) (msg : pyval) (m : Message) :
  construct init inj rt msg = Ok m ->
  exists x, init rt msg = Ok x /\ m = inj x.
Proof.
  unfold construct. intros H. apply bind_ok in H.
  destruct H as (x & Hx & H). apply Ok_inj in H. now exists x.
Qed.

(** Reading a constructor's pass over the bytes of a buffer, one read at a
    time. *)
Ltac wire_step H :=
  lazymatch type of H with
  | bind (next ?it) _ = Ok _ =>
      destruct it; [discriminate H|]; cbn [next bind] in H;
      cbv beta iota in H
  | (if negb (?a =? ?b) then _ else _) = Ok _ =>
      let E := fresh "Ety" in
      destruct (Z.eqb_spec a b) as [E|E]; cbn [negb] in H;
      [apply type_byte in E|discriminate H]
  | (let '(_, _) := islice ?it ?n in _) = Ok _ =>
      let raw := fresh "raw" in let rest := fresh "it" in
      let E := fresh "E" in let S := fresh "S" in
      destruct (islice it n) as [raw rest] eqn:E;
      apply islice_app in E; destruct E as [E S]; subst it
  | bind (assert_exhausted ?it) _ = Ok _ =>
      destruct it; [|discriminate H];
      cbn [assert_exhausted bind] in H
  | bind _ _ = Ok _ =>
      let f := fresh "f" in let Hf := fresh "Hf" in
      apply bind_ok in H; destruct H as (f & Hf & H)
  | Ok _ = Ok _ => apply Ok_inj in H
  | Raise _ = Ok _ => discriminate H
  end.

Ltac field_inv :=
  repeat match goal with
    | H : FieldInteger.init (PBytes _) _ = Ok _ |- _ =>
        apply integer_from_bytes in H;
        let L := fresh "L" in let V := fresh "V" in let B := fresh "B" in
        destruct H as (L & V & B)
    | H : FieldBinary.init (PBytes _) _ = Ok _ |- _ =>
        apply binary_from_bytes in H;
        let L := fresh "L" in let V := fresh "V" in
        destruct H as (L & V)
    end.

Ltac wire_inv H :=
  cbn [load bind] in H; repeat wire_step H;
  unfold FieldUID.init, FieldTagID.init, FieldPayloadLength.init,
    FieldFrameCounter.init, FieldTimestamp.init,
    FieldChecklistSegment.init, FieldUserQuestionSegment.init in *;
  field_inv; subst.

(** Writing back what was read: the type byte, the plain bytes and the
    fields. *)
Ltac reencode :=
  repeat match goal with
    | B : FieldInteger.as_bytes _ = Ok _ |- _ => rewrite B; clear B
    end;
  rewrite ?byte_reencoded; cbn [bind bytes_iadd FieldBinary.as_bytes
    FieldBinary._value];
  rewrite ?app_nil_r; reflexivity.

Lemma login_request_reencoded (rt : Runtime) (b : list byte)
  (x : MsgLoginRequest.t) :
  MsgLoginRequest.init rt (PBytes b) = Ok x ->
  MsgLoginRequest.as_bytes x = Ok b.
Proof.
  unfold MsgLoginRequest.init. intros H. wire_inv H.
  unfold MsgLoginRequest.as_bytes.
  cbn [MsgLoginRequest.uid MsgLoginRequest.tagid]. reencode.
Qed.

Lemma logout_notification_reencoded (rt : Runtime) (b : list byte)
  (x : MsgLogoutNotification.t) :
  MsgLogoutNotification.init rt (PBytes b) = Ok x ->
  MsgLogoutNotification.as_bytes x = Ok b.
Proof.
  unfold MsgLogoutNotification.init. intros H. wire_inv H.
  unfold MsgLogoutNotification.as_bytes.
  cbn [MsgLogoutNotification.tagid]. reencode.
Qed.

Lemma checklist_update_start_reencoded (rt : Runtime) (b : list byte)
  (x : MsgChecklistUpdateStart.t) :
  MsgChecklistUpdateStart.init rt (PBytes b) = Ok x ->
  MsgChecklistUpdateStart.as_bytes x = Ok b.
Proof.
  unfold MsgChecklistUpdateStart.init. intros H. wire_inv H.
  unfold MsgChecklistUpdateStart.as_bytes.
  cbn [MsgChecklistUpdateStart.segments
         MsgChecklistUpdateStart.checklist_version
         MsgChecklistUpdateStart.length]. reencode.
Qed.

Lemma checklist_update_segment_reencoded (rt : Runtime) (b : list byte)
  (x : MsgChecklistUpdateSegment.t) :
  MsgChecklistUpdateSegment.init rt (PBytes b) = Ok x ->
  MsgChecklistUpdateSegment.as_bytes x = Ok b.
Proof.
  unfold MsgChecklistUpdateSegment.init. intros H. wire_inv H.
  unfold MsgChecklistUpdateSegment.as_bytes.
  cbn [MsgChecklistUpdateSegment.checklist_version
         MsgChecklistUpdateSegment.seq_no
         MsgChecklistUpdateSegment.segment]. reencode.
Qed.

Lemma checklist_version_notification_reencoded (rt : Runtime)
  (b : list byte) (x : MsgChecklistVersionNotification.t) :
  MsgChecklistVersionNotification.init rt (PBytes b) = Ok x ->
  MsgChecklistVersionNotification.as_bytes x = Ok b.
Proof.
  unfold MsgChecklistVersionNotification.init. intros H. wire_inv H.
  unfold MsgChecklistVersionNotification.as_bytes.
  cbn [MsgChecklistVersionNotification.checklist_version]. reencode.
Qed.

Lemma user_question_start_reencoded (rt : Runtime) (b : list byte)
  (x : MsgUserQuestionStart.t) :
  MsgUserQuestionStart.init rt (PBytes b) = Ok x ->
  MsgUserQuestionStart.as_bytes x = Ok b.
Proof.
  unfold MsgUserQuestionStart.init. intros H. wire_inv H.
  unfold MsgUserQuestionStart.as_bytes.
  cbn [MsgUserQuestionStart.question_id MsgUserQuestionStart.segments
         MsgUserQuestionStart.length]. reencode.
Qed.

Lemma time_request_reencoded (rt : Runtime) (b : list byte)
  (x : MsgTimeRequest.t) :
  MsgTimeRequest.init rt (PBytes b) = Ok x ->
  MsgTimeRequest.as_bytes x = Ok b.
Proof.
  unfold MsgTimeRequest.init. intros H. wire_inv H.
  unfold MsgTimeRequest.as_bytes. cbn [MsgTimeRequest.tagid]. reencode.
Qed.

Lemma time_set_reencoded (rt : Runtime) (b : list byte)
  (x : MsgTimeSet.t) :
  MsgTimeSet.init rt (PBytes b) = Ok x ->
  MsgTimeSet.as_bytes x = Ok b.
Proof.
  unfold MsgTimeSet.init. intros H. wire_inv H.
  unfold MsgTimeSet.as_bytes. cbn [MsgTimeSet.timestamp]. reencode.
Qed.

(** The class [parse_bytes] calls on a buffer. *)
Lemma parse_bytes_class (rt : Runtime) (b : list byte) (m : Message) :
  parse_bytes rt (PBytes b) = Ok m ->
  exists c cls, In (c, cls) typecode_to_msg /\ cls rt (PBytes b) = Ok m.
Proof.
  intros H. destruct b as [|c rest]; [discriminate H|].
  unfold parse_bytes in H. cbn [py_getitem_0 bind] in H.
  pose proof (typecode_lookup_byte c) as L.
  destruct (typecode_lookup (int_of_byte c)) as [cls|e];
    [|discriminate H].
  cbn [bind] in H. now exists (byte_to_Z c), cls.
Qed.

Ltac not_listed T := exfalso; simpl in T; solve [intuition discriminate].

(** X12: for the classes login_request, logout_notification,
    checklist_update_start, checklist_update_segment,
    checklist_version_notification, user_question_start, time_request and
    time_set, a message that [parse_bytes] reads from a buffer serialises
    back to the same buffer. *)
Theorem parse_bytes_reencoded :
  forall (rt : Runtime) (b : list byte) (m : Message),
    parse_bytes rt (PBytes b) = Ok m ->
    In (Message_TYPE m) [1; 3; 5; 6; 10; 11; 18; 19] ->
    Message_as_bytes rt m = Ok b.
Proof.
  intros rt b m H T. apply parse_bytes_class in H.
  destruct H as (c & cls & L & H). unfold typecode_to_msg in L.
  repeat (destruct L as [L|L];
          [ injection L as _ <-; apply construct_inv in H;
            destruct H as (x & H & ->);
            first [ not_listed T
                  | cbn [Message_as_bytes];
                    eauto using login_request_reencoded,
                      logout_notification_reencoded,
                      checklist_update_start_reencoded,
                      checklist_update_segment_reencoded,
                      checklist_version_notification_reencoded,
                      user_question_start_reencoded,
                      time_request_reencoded, time_set_reencoded ] | ]).
  destruct L.
Qed.

Lemma parse_bytes_reencoded_witness :
  Message_as_bytes rt0
    (ChecklistUpdateStart
       (MsgChecklistUpdateStart.mk (PInt 2) (PInt 1)
          (FieldInteger.mk 2 (PInt 258))))
  = Ok [x05; x02; x01; x02; x01].
Proof.
  apply (parse_bytes_reencoded rt0 [x05; x02; x01; x02; x01]).
  - reflexivity.
  - simpl. tauto.
Defined.

(** The bytes branch of a checklist-responses field stores into a mapping
    that was never created. *)
Lemma checklist_responses_from_bytes (rt : Runtime) (raw : list byte)
  (f : FieldChecklistResponses.t) :
  FieldChecklistResponses.init rt (PBytes raw) = Ok f -> False.
Proof.
  unfold FieldChecklistResponses.init. cbn [py_len bind].
  destruct (Z.eqb_spec (len raw)
              (Z.of_nat FieldChecklistResponses.NUM_RESPONSES)) as [E|E];
    cbn [negb]; [|discriminate].
  destruct raw as [|x raw]; [discriminate E|]. discriminate.
Qed.

Ltac wire_sizes :=
  unfold FieldUID.SIZE, FieldTagID.SIZE, FieldUsername.SIZE,
    FieldPayloadLength.SIZE, FieldChecklistSegment.SIZE,
    FieldUserQuestionSegment.SIZE, FieldFrameCounter.SIZE,
    FieldTimestamp.SIZE, FieldVehicleName.SIZE,
    FieldChecklistResponses.SIZE, FieldChecklistResponses.NUM_RESPONSES
    in *;
  cbn [List.length] in *; rewrite ?length_app in *;
  cbn [List.length] in *.

Ltac pick_entry :=
  first [ left; apply f_equal2; [reflexivity | lia]
        | right; pick_entry ].

(** X13: a buffer from which [parse_bytes] returns a message has exactly
    the number of bytes the constructor of the class reads (the type byte,
    one byte for each plain attribute and [SIZE] bytes for each field),
    except for the classes vehicle_report and tag_config.  The classes
    checklist_responses and user_question_segment have no entry because
    [parse_bytes] never returns a message of these classes. *)
Theorem parse_bytes_length :
  forall (rt : Runtime) (b : list byte) (m : Message),
    parse_bytes rt (PBytes b) = Ok m ->
    Message_TYPE m <> MsgVehicleReport.TYPE ->
    Message_TYPE m <> MsgTagConfig.TYPE ->
    In (Message_TYPE m, List.length b)
      [(1, 13%nat); (2, 23%nat); (3, 9%nat); (5, 5%nat); (6, 34%nat);
       (10, 2%nat); (11, 5%nat); (14, 11%nat); (15, 11%nat); (17, 10%nat);
       (18, 9%nat); (19, 5%nat)].
Proof.
  intros rt b m H T16 T20. apply parse_bytes_class in H.
  destruct H as (c & cls & L & H). unfold typecode_to_msg in L.
  repeat (destruct L as [L|L];
          [ injection L as _ <-; apply construct_inv in H;
            destruct H as (x & H & ->); cbn [Message_TYPE] in *;
            try (exfalso; apply T16; reflexivity);
            try (exfalso; apply T20; reflexivity);
            unfold MsgLoginRequest.init, MsgLoginResponse.init,
              MsgLogoutNotification.init, MsgChecklistUpdateStart.init,
              MsgChecklistUpdateSegment.init, MsgChecklistResponses.init,
              MsgChecklistVersionNotification.init,
              MsgUserQuestionStart.init, MsgUserQuestionSegment.init,
              MsgUserQuestionResponse.init, MsgImpactReport.init,
              MsgSetBlockStatus.init, MsgTimeRequest.init, MsgTimeSet.init
              in H;
            wire_inv H;
            try (exfalso; eapply checklist_responses_from_bytes;
                 eassumption);
            wire_sizes; pick_entry | ]).
  destruct L.
Qed.

Lemma parse_bytes_length_witness :
  In (Message_TYPE
        (SetBlockStatus
           (MsgSetBlockStatus.mk (FieldInteger.mk 8 (PInt 1))
              (PBool true))),
      List.length [x11; x01; x00; x00; x00; x00; x00; x00; x00; x02])
    [(1, 13%nat); (2, 23%nat); (3, 9%nat); (5, 5%nat); (6, 34%nat);
     (10, 2%nat); (11, 5%nat); (14, 11%nat); (15, 11%nat); (17, 10%nat);
     (18, 9%nat); (19, 5%nat)].
Proof.
  apply (parse_bytes_length rt0
           [x11; x01; x00; x00; x00; x00; x00; x00; x00; x02]).
  - reflexivity.
  - discriminate.
  - discriminate.
Defined.
(** ** Messages and their dict form *)

Ltac unfold_inits H :=
  unfold MsgLoginRequest.init, MsgLoginResponse.init,
    MsgLogoutNotification.init, MsgChecklistUpdateStart.init,
    MsgChecklistUpdateSegment.init, MsgChecklistUpdate.init,
    MsgChecklistResponses.init,
    MsgChecklistVersionNotification.init,
    MsgUserQuestionStart.init, MsgUserQuestionSegment.init,
    MsgUserQuestion.init,
    MsgUserQuestionResponse.init, MsgImpactReport.init,
    MsgVehicleReport.init, MsgTagConfig.init,
    MsgSetBlockStatus.init, MsgTimeRequest.init, MsgTimeSet.init
    in H.

Ltac open_fields :=
  repeat match goal with
    | f : FieldUWBPosition.t |- _ => destruct f
    | f : FieldGPSPosition.t |- _ => destruct f
    | L : List.length ?raw = FieldChecklistSegment.SIZE |- _ =>
        do 32 (destruct raw as [|? raw]; try discriminate L); clear L
    end.

(** X14: a message that [parse_bytes] reads from a buffer, of one of the
    classes login_request, logout_notification, checklist_update_start,
    checklist_update_segment, checklist_version_notification,
    user_question_start, impact_report, vehicle_report, set_block_status,
    time_request and time_set, has a dict form, and [parse_dict] builds the
    same message from it. *)
Theorem wire_message_dict_round_trip :
  forall (rt : Runtime) (b : list byte) (m : Message),
    parse_bytes rt (PBytes b) = Ok m ->
    In (Message_TYPE m) [1; 3; 5; 6; 10; 11; 15; 16; 17; 18; 19] ->
    exists d, Message_as_dict m = Ok d /\ parse_dict rt d = Ok m.
Proof.
  intros rt b m H T. apply parse_bytes_class in H.
  destruct H as (c & cls & L & H). unfold typecode_to_msg in L.
  repeat (destruct L as [L|L];
          [ injection L as _ <-; apply construct_inv in H;
            destruct H as (x & H & ->);
            first [ not_listed T
                  | clear T; unfold_inits H; wire_inv H; open_fields;
                    eexists; split; reflexivity ] | ]).
  destruct L.
Qed.

Lemma wire_message_dict_round_trip_witness :
  exists d,
    Message_as_dict
      (ImpactReport
         (MsgImpactReport.mk (FieldInteger.mk 8 (PInt 1)) (PInt 3)
            (PInt 2))) = Ok d /\
    parse_dict rt0 d
    = Ok (ImpactReport
            (MsgImpactReport.mk (FieldInteger.mk 8 (PInt 1)) (PInt 3)
               (PInt 2))).
Proof.
  apply (wire_message_dict_round_trip rt0
           [x0f; x01; x00; x00; x00; x00; x00; x00; x00; x03; x02]).
  - reflexivity.
  - simpl. tauto.
Defined.
(** ** Dispatch on the ["type"] entry *)

(** What [parse_dict] has done when it returns a message: read the
    ["type"] entry of a dict, found it equal to the [NAME] of a class, and
    called that class on the dict. *)
Lemma parse_dict_inv (rt : Runtime) (msg : pyval) (m : Message) :
  parse_dict rt msg = Ok m ->
  exists d ty,
    msg = PDict d /\
    dict_lookup d (pstr "type") = Some ty /\
    py_eqb ty (PStr (Message_NAME m)) = true /\
    match m with
    | LoginRequest x => MsgLoginRequest.init rt msg = Ok x
    | LoginResponse x => MsgLoginResponse.init rt msg = Ok x
    | LogoutNotification x => MsgLogoutNotification.init rt msg = Ok x
    | ChecklistUpdateStart x => MsgChecklistUpdateStart.init rt msg = Ok x
    | ChecklistUpdateSegment x =>
        MsgChecklistUpdateSegment.init rt msg = Ok x
    | ChecklistUpdate x => MsgChecklistUpdate.init rt msg = Ok x
    | ChecklistResponses x => MsgChecklistResponses.init rt msg = Ok x
    | ChecklistVersionNotification x =>
        MsgChecklistVersionNotification.init rt msg = Ok x
    | UserQuestionStart x => MsgUserQuestionStart.init rt msg = Ok x
    | UserQuestionSegment x => MsgUserQuestionSegment.init rt msg = Ok x
    | UserQuestion x => MsgUserQuestion.init rt msg = Ok x
    | UserQuestionResponse x => MsgUserQuestionResponse.init rt msg = Ok x
    | ImpactReport x => MsgImpactReport.init rt msg = Ok x
    | VehicleReport x => MsgVehicleReport.init rt msg = Ok x
    | SetBlockStatus x => MsgSetBlockStatus.init rt msg = Ok x
    | TimeRequest x => MsgTimeRequest.init rt msg = Ok x
    | TimeSet x => MsgTimeSet.init rt msg = Ok x
    | TagConfig x => MsgTagConfig.init rt msg = Ok x
    end.
Proof.
  unfold parse_dict. destruct msg as [| | | | | | |d]; try discriminate.
  cbn [py_getitem_str bind]. unfold dict_getitem.
  change (PStr (lit "type")) with (pstr "type").
  destruct (dict_lookup d (pstr "type")) as [ty|] eqn:E; [|discriminate].
  cbn [bind]. cbv beta zeta.
  repeat match goal with
         | |- (if ?c then _ else _) = Ok _ -> _ =>
             let Ec := fresh "Ec" in
             destruct c eqn:Ec;
             [ let H := fresh "H" in
               intros H; apply construct_inv in H;
               destruct H as (x & H & ->); exists d, ty;
               split; [reflexivity|]; split; [exact E|];
               split; [exact Ec|exact H]
             | ]
         end.
  discriminate.
Qed.


(** ** Messages built from a dict *)

Lemma lookup_not_bytes (d : pydict) (k v : pyval) :
  no_bytes_values d = true -> dict_lookup d k = Some v ->
  is_bytes v = false.
Proof.
  unfold no_bytes_values. induction d as [|[k' v'] d IH]; [discriminate|].
  cbn [forallb dict_lookup snd]. intros N H.
  apply andb_prop in N. destruct N as [N1 N2].
  destruct (py_eqb k' k).
  - injection H as <-. now apply negb_true_iff in N1.
  - now apply IH.
Qed.

Lemma getitem_not_bytes (d : pydict) (k v : pyval) :
  no_bytes_values d = true -> dict_getitem d k = Ok v ->
  is_bytes v = false.
Proof.
  unfold dict_getitem. intros N H.
  destruct (dict_lookup d k) as [w|] eqn:E; [|discriminate H].
  apply Ok_inj in H. subst w. eapply lookup_not_bytes; eassumption.
Qed.

Lemma get_not_bytes (d : pydict) (k : pyval) :
  no_bytes_values d = true -> is_bytes (dict_get d k PNone) = false.
Proof.
  unfold dict_get. intros N.
  destruct (dict_lookup d k) as [w|] eqn:E; [|reflexivity].
  eapply lookup_not_bytes; eassumption.
Qed.

(** A field built from a value that is not a bytes object holds that
    value. *)
Lemma integer_holds (length : nat) (v : pyval) (f : FieldInteger.t) :
  FieldInteger.init v length = Ok f -> is_bytes v = false ->
  FieldInteger.value f = v.
Proof.
  unfold FieldInteger.init, FieldInteger.set_value. intros H N.
  destruct v; try discriminate; cbn [bind] in H; apply Ok_inj in H;
    now subst f.
Qed.

Lemma text_holds (length : nat) (v : pyval) (f : FieldText.t) :
  FieldText.init v length = Ok f -> is_bytes v = false ->
  FieldText.value f = v.
Proof.
  unfold FieldText.init, FieldText.set_value. intros H N.
  destruct v; try discriminate; cbn [bind] in H.
  - apply Ok_inj in H. now subst f.
  - apply bind_ok in H. destruct H as (w & Hw & H).
    apply bind_ok in Hw. destruct Hw as (e & He & Hw).
    destruct (len e >? Z.of_nat length); [discriminate Hw|].
    apply Ok_inj in Hw. apply Ok_inj in H. now subst.
Qed.

Lemma json_holds (rt : Runtime) (length : nat) (v : pyval)
  (f : FieldJSON.t) :
  FieldJSON.init rt v length = Ok f -> is_bytes v = false ->
  FieldJSON.value f = v.
Proof.
  unfold FieldJSON.init. intros H N.
  apply bind_ok in H. destruct H as (w & Hw & H).
  apply Ok_inj in H. subst f. cbn [FieldJSON.value FieldJSON._value].
  unfold FieldJSON.set_value in Hw.
  destruct v; try discriminate N;
    (apply bind_ok in Hw; destruct Hw as (txt & Hs & Hw);
     apply bind_ok in Hw; destruct Hw as (e & He & Hw);
     destruct (len e >? Z.of_nat length); [discriminate Hw|];
     now apply Ok_inj in Hw).
Qed.

Lemma list_holds (length : nat) (v w : pyval) (f : FieldVarLenList.t) :
  FieldVarLenList.init v length = Ok f -> is_bytes v = false ->
  FieldVarLenList.value f = Ok w -> w = v.
Proof.
  unfold FieldVarLenList.init, FieldVarLenList.set_value,
    FieldVarLenList.value. intros H N V.
  destruct v; try discriminate N; cbn [bind] in H;
    try (apply Ok_inj in H; subst f; discriminate V).
  destruct (len l >? Z.of_nat length - 1); [discriminate H|].
  cbn [bind] in H. apply Ok_inj in H. subst f.
  cbn [FieldVarLenList._value] in V. apply Ok_inj in V. now subst w.
Qed.

Lemma uwb_holds (f : FieldUWBPosition.t) :
  FieldUWBPosition.init (FieldUWBPosition.value f) = Ok f.
Proof. now destruct f. Qed.

Lemma gps_holds (f : FieldGPSPosition.t) :
  FieldGPSPosition.init (FieldGPSPosition.value f) = Ok f.
Proof. now destruct f. Qed.

Lemma dict_getitem_here (k v : pyval) (d : pydict) (k' : pyval) :
  py_eqb k k' = true -> dict_getitem ((k, v) :: d) k' = Ok v.
Proof. unfold dict_getitem. cbn [dict_lookup]. now intros ->. Qed.

Lemma dict_getitem_next (k v : pyval) (d : pydict) (k' : pyval) :
  py_eqb k k' = false ->
  dict_getitem ((k, v) :: d) k' = dict_getitem d k'.
Proof. unfold dict_getitem. cbn [dict_lookup]. now intros ->. Qed.

Lemma dict_get_here (k v : pyval) (d : pydict) (k' w : pyval) :
  py_eqb k k' = true -> dict_get ((k, v) :: d) k' w = v.
Proof. unfold dict_get. cbn [dict_lookup]. now intros ->. Qed.

Lemma dict_get_next (k v : pyval) (d : pydict) (k' w : pyval) :
  py_eqb k k' = false -> dict_get ((k, v) :: d) k' w = dict_get d k' w.
Proof. unfold dict_get. cbn [dict_lookup]. now intros ->. Qed.

Ltac dict_read :=
  repeat first
    [ rewrite dict_getitem_here by reflexivity
    | rewrite dict_getitem_next by reflexivity
    | rewrite dict_get_here by reflexivity
    | rewrite dict_get_next by reflexivity ].

Ltac binds H :=
  repeat (let a := fresh "a" in let Ha := fresh "Ha" in
          apply bind_ok in H; destruct H as (a & Ha & H));
  apply Ok_inj in H.

Ltac unfold_field_inits :=
  unfold FieldUID.init, FieldTagID.init, FieldUsername.init,
    FieldPayloadLength.init, FieldFrameCounter.init, FieldTimestamp.init,
    FieldVehicleName.init, FieldUserQuestionResponse.init,
    FieldUserQuestion.init, FieldChecklistData.init in *.

(** The values the fields hold, from the entries they were built from. *)
Ltac held N :=
  repeat match goal with
    | H : dict_getitem _ _ = Ok ?v |- _ =>
        lazymatch goal with
        | _ : is_bytes v = false |- _ => fail
        | _ => pose proof (getitem_not_bytes _ _ _ N H)
        end
    end;
  repeat match goal with
    | H : FieldInteger.init (dict_get ?d ?k PNone) ?n = Ok ?f |- _ =>
        lazymatch goal with
        | _ : FieldInteger.value f = _ |- _ => fail
        | _ => pose proof (integer_holds _ _ _ H (get_not_bytes d k N))
        end
    | H : FieldText.init (dict_get ?d ?k PNone) ?n = Ok ?f |- _ =>
        lazymatch goal with
        | _ : FieldText.value f = _ |- _ => fail
        | _ => pose proof (text_holds _ _ _ H (get_not_bytes d k N))
        end
    | H : FieldInteger.init ?v ?n = Ok ?f, B : is_bytes ?v = false |- _ =>
        lazymatch goal with
        | _ : FieldInteger.value f = _ |- _ => fail
        | _ => pose proof (integer_holds _ _ _ H B)
        end
    | H : FieldText.init ?v ?n = Ok ?f, B : is_bytes ?v = false |- _ =>
        lazymatch goal with
        | _ : FieldText.value f = _ |- _ => fail
        | _ => pose proof (text_holds _ _ _ H B)
        end
    | H : FieldJSON.init ?rt ?v ?n = Ok ?f, B : is_bytes ?v = false |- _ =>
        lazymatch goal with
        | _ : FieldJSON.value f = _ |- _ => fail
        | _ => pose proof (json_holds _ _ _ _ H B)
        end
    end.

Ltac project :=
  cbn [MsgLoginRequest.uid MsgLoginRequest.tagid MsgLoginResponse.response
       MsgLoginResponse.username MsgLoginResponse.uid
       MsgLoginResponse.profile MsgLogoutNotification.tagid
       MsgChecklistUpdateStart.segments
       MsgChecklistUpdateStart.checklist_version
       MsgChecklistUpdateStart.length
       MsgChecklistUpdate.checklist_version
       MsgChecklistUpdate.checklist_data
       MsgChecklistVersionNotification.checklist_version
       MsgUserQuestionStart.question_id MsgUserQuestionStart.segments
       MsgUserQuestionStart.length MsgUserQuestion.question_id
       MsgUserQuestion.user_question MsgUserQuestionResponse.tagid
       MsgUserQuestionResponse.question_id
       MsgUserQuestionResponse.responses MsgImpactReport.tagid
       MsgImpactReport.severity MsgImpactReport.accel_direction
       MsgVehicleReport.tagid MsgVehicleReport.frame_counter
       MsgVehicleReport.uwbpos MsgVehicleReport.gpspos
       MsgSetBlockStatus.tagid MsgSetBlockStatus.block_status
       MsgTimeRequest.tagid MsgTimeSet.timestamp] in *.

(** Choosing the class for a ["type"] entry that is a literal. *)
Ltac choose_class :=
  unfold parse_dict; cbn [py_getitem_str bind]; dict_read; cbn [bind];
  cbv beta zeta;
  repeat match goal with
    | |- context [py_eqb (PStr ?a) (PStr ?b)] =>
        let r := eval vm_compute in (py_eqb (PStr a) (PStr b)) in
        change (py_eqb (PStr a) (PStr b)) with r
    end;
  cbv iota; unfold construct.

(** Building the message again from its dict form. *)
Ltac rebuild :=
  cbn [load bind];
  match goal with
  | |- context [check_type ?d ?n] => change (check_type d n) with (Ok tt)
  end;
  cbn [bind]; unfold_field_inits;
  repeat (dict_read; cbn [bind py_int py_bool];
          rewrite ?uwb_holds, ?gps_holds;
          try match goal with
            | H : ?i = Ok _ |- context [bind ?i _] => rewrite H
            end).

Ltac unfold_inits_goal :=
  unfold MsgLoginRequest.init, MsgLoginResponse.init,
    MsgLogoutNotification.init, MsgChecklistUpdateStart.init,
    MsgChecklistUpdate.init, MsgChecklistVersionNotification.init,
    MsgUserQuestionStart.init, MsgUserQuestion.init,
    MsgUserQuestionResponse.init, MsgImpactReport.init,
    MsgVehicleReport.init, MsgSetBlockStatus.init, MsgTimeRequest.init,
    MsgTimeSet.init.

Ltac reparse D :=
  unfold MsgLoginRequest.as_dict, MsgLoginResponse.as_dict,
    MsgLogoutNotification.as_dict, MsgChecklistUpdateStart.as_dict,
    MsgChecklistUpdate.as_dict,
    MsgChecklistVersionNotification.as_dict,
    MsgUserQuestionStart.as_dict, MsgUserQuestion.as_dict,
    MsgUserQuestionResponse.as_dict, MsgImpactReport.as_dict,
    MsgVehicleReport.as_dict, MsgSetBlockStatus.as_dict,
    MsgTimeRequest.as_dict, MsgTimeSet.as_dict in D;
  project;
  repeat match goal with
    | V : FieldInteger.value _ = _ |- _ => rewrite V in D; clear V
    | V : FieldText.value _ = _ |- _ => rewrite V in D; clear V
    | V : FieldJSON.value _ = _ |- _ => rewrite V in D; clear V
    end;
  binds D;
  repeat match goal with
    | H : FieldVarLenList.init ?v ?n = Ok ?f, B : is_bytes ?v = false,
      V : FieldVarLenList.value ?f = Ok ?w |- _ =>
        pose proof (list_holds _ _ _ _ H B V); subst w
    end;
  subst; choose_class; unfold_inits_goal; rebuild; reflexivity.

Ltac round_trip N H :=
  unfold_inits H; cbn [load bind] in H; binds H; subst;
  unfold_field_inits; held N;
  cbn [Message_as_dict]; split;
  [ first [ intros _; eexists; reflexivity
          | let Hn := fresh in intros Hn; now destruct Hn ]
  | intros dform ?;
    match goal with
    | D : _ = Ok ?x |- parse_dict _ ?x = _ => reparse D
    end ].

(** X16: a message that [parse_dict] builds from a dict with no bytes
    values, of any class other than checklist_update_segment,
    checklist_responses, user_question_segment and tag_config, is built
    again by [parse_dict] from its own dict form.  The dict form exists for
    each of these classes except user_question_response, whose [as_dict]
    raises when the responses entry was not a list. *)
Theorem dict_message_round_trip :
  forall (rt : Runtime) (d : pydict) (m : Message),
    parse_dict rt (PDict d) = Ok m ->
    no_bytes_values d = true ->
    In (Message_TYPE m)
      [1; 2; 3; 5; 7; 10; 11; 13; 14; 15; 16; 17; 18; 19] ->
    (Message_TYPE m <> MsgUserQuestionResponse.TYPE ->
     exists d', Message_as_dict m = Ok d') /\
    (forall d', Message_as_dict m = Ok d' -> parse_dict rt d' = Ok m).
Proof.
  intros rt d m H N T. apply parse_dict_inv in H.
  destruct H as (e & ty & He & _ & _ & H). injection He as <-.
  destruct m; try not_listed T; clear T; round_trip N H.
Qed.

Lemma dict_message_round_trip_witness :
  (Message_TYPE
     (LoginResponse
        (MsgLoginResponse.mk (PBool true)
           (FieldText.mk 16 (pstr "bob")) (FieldInteger.mk 4 (PInt 7))
           (PInt 1)))
   <> MsgUserQuestionResponse.TYPE ->
   exists d',
     Message_as_dict
       (LoginResponse
          (MsgLoginResponse.mk (PBool true)
             (FieldText.mk 16 (pstr "bob")) (FieldInteger.mk 4 (PInt 7))
             (PInt 1))) = Ok d') /\
  (forall d',
     Message_as_dict
       (LoginResponse
          (MsgLoginResponse.mk (PBool true)
             (FieldText.mk 16 (pstr "bob")) (FieldInteger.mk 4 (PInt 7))
             (PInt 1))) = Ok d' ->
     parse_dict rt0 d'
     = Ok (LoginResponse
             (MsgLoginResponse.mk (PBool true)
                (FieldText.mk 16 (pstr "bob")) (FieldInteger.mk 4 (PInt 7))
                (PInt 1)))).
Proof.
  apply (dict_message_round_trip rt0
           [(pstr "type", pstr "login_response");
            (pstr "response", PBool true); (pstr "uid", PInt 7);
            (pstr "username", pstr "bob"); (pstr "profile", PInt 1)]).
  - reflexivity.
  - reflexivity.
  - simpl. tauto.
Defined.
(** ** The output of the checklist splitter on the wire *)

Lemma bytes_of_int (n : Z) :
  0 <= n < 256 -> bytes_of_list [PInt n] = Ok [byte_of_Z_wrap n].
Proof.
  intros Hn. cbn [bytes_of_list py_byte]. unfold byte_of_Z_wrap.
  rewrite Z.mod_small by lia.
  destruct (byte_of_Z n) as [b|] eqn:E; [reflexivity|].
  unfold byte_of_Z in E.
  destruct (n <? 0) eqn:E0; [apply Z.ltb_lt in E0; lia|].
  apply Byte.of_N_None_iff in E. lia.
Qed.

Lemma bytes_of_big_int (n : Z) :
  256 <= n -> bytes_of_list [PInt n] = Raise ValueError.
Proof.
  intros Hn. cbn [bytes_of_list py_byte]. unfold byte_of_Z.
  destruct (n <? 0) eqn:E0; [reflexivity|].
  destruct (Byte.of_N (Z.to_N n)) as [b|] eqn:E; [|reflexivity].
  apply Byte.to_of_N in E. pose proof (Byte.to_N_bounded b). lia.
Qed.

Lemma int_of_byte_wrap (n : Z) :
  0 <= n < 256 -> int_of_byte (byte_of_Z_wrap n) = PInt n.
Proof.
  intros Hn. unfold int_of_byte. rewrite byte_to_Z_wrap.
  now rewrite Z.mod_small by lia.
Qed.

(** A start message for a document of fewer than 65536 bytes in fewer than
    256 segments is written and read back. *)
Lemma checklist_start_on_wire (rt : Runtime) (segments version length : Z) :
  0 <= segments < 256 -> 0 <= version < 256 -> 0 <= length < 65536 ->
  exists b,
    Message_as_bytes rt
      (ChecklistUpdateStart
         (MsgChecklistUpdateStart.mk (PInt segments) (PInt version)
            (FieldInteger.mk FieldPayloadLength.SIZE (PInt length))))
    = Ok b /\
    parse_bytes rt (PBytes b)
    = Ok (ChecklistUpdateStart
            (MsgChecklistUpdateStart.mk (PInt segments) (PInt version)
               (FieldInteger.mk FieldPayloadLength.SIZE (PInt length)))).
Proof.
  intros Hs Hv Hl.
  exists ([x05] ++ [byte_of_Z_wrap segments] ++ [byte_of_Z_wrap version]
          ++ le_bytes 2 length).
  split.
  - cbn [Message_as_bytes]. unfold MsgChecklistUpdateStart.as_bytes.
    cbn [MsgChecklistUpdateStart.segments
           MsgChecklistUpdateStart.checklist_version
           MsgChecklistUpdateStart.length].
    rewrite (bytes_of_int segments Hs), (bytes_of_int version Hv).
    unfold FieldInteger.as_bytes.
    cbn [FieldInteger._value FieldInteger._length py_to_bytes].
    rewrite int_to_bytes_unsigned.
    change (2 ^ (8 * Z.of_nat FieldPayloadLength.SIZE)) with 65536.
    destruct (length <? 0) eqn:E1; [apply Z.ltb_lt in E1; lia|].
    destruct (65536 <=? length) eqn:E2; [apply Z.leb_le in E2; lia|].
    reflexivity.
  - change (parse_bytes rt (PBytes ?b))
      with (construct MsgChecklistUpdateStart.init ChecklistUpdateStart rt
              (PBytes b)).
    unfold construct, MsgChecklistUpdateStart.init.
    cbn [load bind app next]. change (negb (byte_to_Z x05 =? _)) with false.
    cbv iota. rewrite (int_of_byte_wrap segments Hs),
      (int_of_byte_wrap version Hv).
    unfold islice, FieldPayloadLength.init, FieldInteger.init,
      FieldInteger.set_value, len.
    change FieldPayloadLength.SIZE with 2%nat.
    rewrite (firstn_all2 (n := 2) (le_bytes 2 length))
      by (rewrite le_bytes_length; lia).
    rewrite (skipn_all2 (n := 2) (le_bytes 2 length))
      by (rewrite le_bytes_length; lia).
    rewrite le_bytes_length, Z.eqb_refl. cbn [negb bind assert_exhausted].
    rewrite (int_from_le_bytes 2 length)
      by (change (8 * Z.of_nat 2) with 16; lia).
    reflexivity.
Qed.

(** A segment message with a 31-byte payload is written and read back. *)
Lemma checklist_segment_on_wire (rt : Runtime) (version seq_no : Z)
  (segment : list byte) :
  0 <= version < 256 -> 0 <= seq_no < 256 ->
  List.length segment = 31%nat ->
  exists b,
    Message_as_bytes rt
      (ChecklistUpdateSegment
         (MsgChecklistUpdateSegment.mk (PInt version) (PInt seq_no)
            (FieldBinary.mk FieldChecklistSegment.SIZE (PBytes segment))))
    = Ok b /\
    parse_bytes rt (PBytes b)
    = Ok (ChecklistUpdateSegment
            (MsgChecklistUpdateSegment.mk (PInt version) (PInt seq_no)
               (FieldBinary.mk FieldChecklistSegment.SIZE
                  (PBytes segment)))).
Proof.
  intros Hv Hq Hl.
  exists ([x06] ++ [byte_of_Z_wrap version] ++ [byte_of_Z_wrap seq_no]
          ++ segment).
  split.
  - cbn [Message_as_bytes]. unfold MsgChecklistUpdateSegment.as_bytes.
    cbn [MsgChecklistUpdateSegment.checklist_version
           MsgChecklistUpdateSegment.seq_no
           MsgChecklistUpdateSegment.segment].
    rewrite (bytes_of_int version Hv), (bytes_of_int seq_no Hq).
    reflexivity.
  - change (parse_bytes rt (PBytes ?b))
      with (construct MsgChecklistUpdateSegment.init ChecklistUpdateSegment
              rt (PBytes b)).
    unfold construct, MsgChecklistUpdateSegment.init.
    cbn [load bind app next]. change (negb (byte_to_Z x06 =? _)) with false.
    cbv iota. rewrite (int_of_byte_wrap version Hv),
      (int_of_byte_wrap seq_no Hq).
    unfold islice, FieldChecklistSegment.init, FieldBinary.init,
      FieldBinary.set_value, len.
    change FieldChecklistSegment.SIZE with 31%nat.
    rewrite (firstn_all2 (n := 31) segment) by lia.
    rewrite (skipn_all2 (n := 31) segment) by lia.
    rewrite Hl, Z.eqb_refl. reflexivity.
Qed.

Lemma numbered_segments_on_wire (rt : Runtime) (version : Z) :
  0 <= version < 256 ->
  forall (segments : list (list byte)) (seq_no : Z),
    0 <= seq_no -> seq_no + len segments <= 256 ->
    Forall (fun s => List.length s = 31%nat) segments ->
    Forall (fun m => exists b, Message_as_bytes rt m = Ok b /\
                               parse_bytes rt (PBytes b) = Ok m)
      (numbered_segments version seq_no segments).
Proof.
  intros Hv. induction segments as [|s segments IH];
    intros seq_no H0 Hn Hall; cbn [numbered_segments]; [constructor|].
  unfold len in Hn. cbn [List.length] in Hn.
  inversion Hall as [|? ? Hs Hall']; subst. constructor.
  - apply checklist_segment_on_wire; [exact Hv|lia|exact Hs].
  - apply IH; [lia|unfold len; lia|exact Hall'].
Qed.

(** X17: when the JSON text of a checklist has fewer than 7905 bytes and
    the version fits in a byte, [checklist_splitter] returns a start message
    and one segment message for each started block of 31 bytes plus one, and
    every one of these messages serialises to a buffer from which
    [parse_bytes] reads the same message. *)
Theorem checklist_splitter_on_wire :
  forall (rt : Runtime) (checklist_data : pyval) (version : Z)
         (s : pystr) (databytes : list byte),
    json_dumps rt checklist_data = Ok s ->
    utf8_encode s = Ok databytes ->
    0 <= version < 256 ->
    len databytes < 7905 ->
    exists msgs,
      checklist_splitter rt checklist_data (PInt version) = Ok msgs /\
      len msgs = len databytes / 31 + 2 /\
      Forall (fun m => exists b, Message_as_bytes rt m = Ok b /\
                                 parse_bytes rt (PBytes b) = Ok m) msgs.
Proof.
  intros rt data version s databytes Hs Hb Hv Hl.
  destruct (checklist_splitter_spec rt data version s databytes Hs Hb)
    as (segments & Hr & Hn & Hall & _).
  assert (H0 : 0 <= len databytes) by (unfold len; lia).
  assert (Hd : 0 <= len databytes / 31 < 255).
  { split; [apply Z.div_pos; lia|]. apply Z.div_lt_upper_bound; lia. }
  eexists. split; [exact Hr|]. split.
  - unfold len in *. cbn [List.length].
    assert (E : List.length (numbered_segments version 0 segments)
                = List.length segments).
    { clear. generalize 0. induction segments as [|x l IH]; intros z;
        cbn [numbered_segments List.length]; [reflexivity|].
      now rewrite IH. }
    rewrite E. lia.
  - constructor.
    + apply checklist_start_on_wire; [lia|exact Hv|lia].
    + apply numbered_segments_on_wire; [exact Hv|lia|lia|exact Hall].
Qed.

Lemma checklist_splitter_on_wire_witness :
  exists msgs,
    checklist_splitter rt0 (PList [PInt 1]) (PInt 1) = Ok msgs /\
    len msgs = len [x5b; x31; x5d] / 31 + 2 /\
    Forall (fun m => exists b, Message_as_bytes rt0 m = Ok b /\
                               parse_bytes rt0 (PBytes b) = Ok m) msgs.
Proof.
  apply (checklist_splitter_on_wire rt0 (PList [PInt 1]) 1 (lit "[1]")
           [x5b; x31; x5d]).
  - reflexivity.
  - reflexivity.
  - lia.
  - vm_compute. reflexivity.
Defined.

(** X18: when the JSON text of a checklist has 7905 bytes or more,
    [checklist_splitter] still returns its messages, but the start message
    cannot be serialised: the number of segments does not fit in the byte
    [as_bytes] writes it to, and [as_bytes] raises [ValueError]. *)
Theorem checklist_splitter_too_long :
  forall (rt : Runtime) (checklist_data : pyval) (version : Z)
         (s : pystr) (databytes : list byte),
    json_dumps rt checklist_data = Ok s ->
    utf8_encode s = Ok databytes ->
    7905 <= len databytes ->
    exists start segs,
      checklist_splitter rt checklist_data (PInt version)
      = Ok (start :: segs) /\
      Message_as_bytes rt start = Raise ValueError.
Proof.
  intros rt data version s databytes Hs Hb Hl.
  destruct (checklist_splitter_spec rt data version s databytes Hs Hb)
    as (segments & Hr & _).
  do 2 eexists. split; [exact Hr|].
  cbn [Message_as_bytes]. unfold MsgChecklistUpdateStart.as_bytes.
  cbn [MsgChecklistUpdateStart.segments bind].
  change (bytes_of_list [PInt MsgChecklistUpdateStart.TYPE])
    with (Ok [x05]).
  cbn [bind]. rewrite bytes_of_big_int; [reflexivity|].
  assert (255 <= len databytes / 31)
    by (apply Z.div_le_lower_bound; lia).
  lia.
Qed.

Lemma checklist_splitter_too_long_witness :
  exists start segs,
    checklist_splitter rt0 (PStr (repeat 97%N 7903)) (PInt 1)
    = Ok (start :: segs) /\
    Message_as_bytes rt0 start = Raise ValueError.
Proof.
  apply (checklist_splitter_too_long rt0 (PStr (repeat 97%N 7903)) 1
           ([34%N] ++ repeat 97%N 7903 ++ [34%N])
           ([x22] ++ repeat x61 7903 ++ [x22])).
  - vm_compute. reflexivity.
  - vm_compute. reflexivity.
  - vm_compute. discriminate.
Defined.
(** ** From a dict to the wire and back *)

Lemma lookup_plain (d : pydict) (k v : pyval) :
  no_bytes_or_bool_values d = true -> dict_lookup d k = Some v ->
  is_bytes v = false /\ is_bool v = false.
Proof.
  unfold no_bytes_or_bool_values.
  induction d as [|[k' v'] d IH]; [discriminate|].
  cbn [forallb dict_lookup snd]. intros N H.
  apply andb_prop in N. destruct N as [N1 N2].
  destruct (py_eqb k' k).
  - injection H as <-. apply andb_prop in N1. destruct N1 as [A B].
    split; now apply negb_true_iff.
  - now apply IH.
Qed.

(** An integer field built from an entry that is neither bytes nor a bool
    holds an int or [None]. *)
Lemma integer_plain (length : nat) (v : pyval) (f : FieldInteger.t) :
  FieldInteger.init v length = Ok f ->
  is_bytes v = false -> is_bool v = false ->
  f = FieldInteger.mk length PNone \/
  exists z, f = FieldInteger.mk length (PInt z).
Proof.
  unfold FieldInteger.init, FieldInteger.set_value. intros H B1 B2.
  destruct v; try discriminate; cbn [bind] in H; apply Ok_inj in H;
    subst f; [now left | right; now eexists].
Qed.

Lemma integer_getitem_plain (d : pydict) (k v : pyval) (length : nat)
  (f : FieldInteger.t) :
  no_bytes_or_bool_values d = true ->
  dict_getitem d k = Ok v ->
  FieldInteger.init v length = Ok f ->
  f = FieldInteger.mk length PNone \/
  exists z, f = FieldInteger.mk length (PInt z).
Proof.
  unfold dict_getitem. intros N Hv Hf.
  destruct (dict_lookup d k) as [w|] eqn:E; [|discriminate Hv].
  apply Ok_inj in Hv. subst w.
  destruct (lookup_plain d k v N E). eapply integer_plain; eassumption.
Qed.

Lemma integer_get_plain (d : pydict) (k : pyval) (length : nat)
  (f : FieldInteger.t) :
  no_bytes_or_bool_values d = true ->
  FieldInteger.init (dict_get d k PNone) length = Ok f ->
  f = FieldInteger.mk length PNone \/
  exists z, f = FieldInteger.mk length (PInt z).
Proof.
  unfold dict_get. intros N Hf.
  destruct (dict_lookup d k) as [w|] eqn:E.
  - destruct (lookup_plain d k w N E). eapply integer_plain; eassumption.
  - eapply integer_plain; [exact Hf|reflexivity|reflexivity].
Qed.

(** What [as_bytes] of an integer field has written when it returns. *)
Lemma integer_written (length : nat) (z : Z) (raw : list byte) :
  FieldInteger.as_bytes (FieldInteger.mk length (PInt z)) = Ok raw ->
  raw = le_bytes length z /\ 0 <= z < 2 ^ (8 * Z.of_nat length).
Proof.
  unfold FieldInteger.as_bytes.
  cbn [FieldInteger._value FieldInteger._length py_to_bytes]. intros H.
  rewrite int_to_bytes_unsigned in H.
  destruct (z <? 0) eqn:E1; [discriminate H|].
  destruct (2 ^ (8 * Z.of_nat length) <=? z) eqn:E2; [discriminate H|].
  cbn [orb] in H. apply Ok_inj in H. apply Z.ltb_ge in E1.
  apply Z.leb_gt in E2. now split.
Qed.

(** What [bytes([k])] has written when it returns, for an int [k]. *)
Lemma int_written (k : Z) (bs : list byte) :
  bytes_of_list [PInt k] = Ok bs ->
  0 <= k < 256 /\ bs = [byte_of_Z_wrap k].
Proof.
  intros H. destruct (Z.ltb_spec k 0) as [L|L].
  - cbn [bytes_of_list py_byte] in H. unfold byte_of_Z in H.
    apply Z.ltb_lt in L. rewrite L in H. discriminate H.
  - destruct (Z.ltb_spec k 256) as [U|U].
    + rewrite bytes_of_int in H by lia. apply Ok_inj in H.
      split; [lia|now subst].
    + rewrite bytes_of_big_int in H by lia. discriminate H.
Qed.

Lemma read_integer (length : nat) (z : Z) :
  0 <= z < 2 ^ (8 * Z.of_nat length) ->
  FieldInteger.init (PBytes (le_bytes length z)) length
  = Ok (FieldInteger.mk length (PInt z)).
Proof.
  intros Hz. unfold FieldInteger.init, FieldInteger.set_value, len.
  rewrite le_bytes_length, Z.eqb_refl. cbn [negb bind].
  now rewrite int_from_le_bytes.
Qed.

Lemma islice_exact (raw rest : list byte) (n : nat) :
  List.length raw = n -> islice (raw ++ rest) n = (raw, rest).
Proof.
  intros H. unfold islice. rewrite firstn_app, skipn_app, H, Nat.sub_diag.
  rewrite firstn_O, skipn_O, app_nil_r.
  rewrite firstn_all2, skipn_all2 by lia. reflexivity.
Qed.

Ltac unfold_as_bytes B :=
  cbn [Message_as_bytes] in B;
  unfold MsgLoginRequest.as_bytes, MsgLogoutNotification.as_bytes,
    MsgChecklistUpdateStart.as_bytes,
    MsgChecklistVersionNotification.as_bytes,
    MsgUserQuestionStart.as_bytes, MsgSetBlockStatus.as_bytes,
    MsgTimeRequest.as_bytes, MsgTimeSet.as_bytes in B;
  project.

(** What each write of [as_bytes] has appended. *)
Ltac written :=
  repeat match goal with
    | H : FieldInteger.as_bytes (FieldInteger.mk _ PNone) = Ok _ |- _ =>
        discriminate H
    | H : FieldInteger.as_bytes (FieldInteger.mk _ (PInt _)) = Ok _ |- _ =>
        apply integer_written in H;
        let R := fresh "R" in destruct H as (-> & R)
    | H : bytes_of_list [PInt _] = Ok _ |- _ =>
        apply int_written in H;
        let R := fresh "R" in destruct H as (R & ->)
    | H : bytes_of_list [PBool _] = Ok _ |- _ =>
        cbn [bytes_of_list py_byte bind] in H; apply Ok_inj in H
    end.

Lemma islice_all (raw : list byte) (n : nat) :
  List.length raw = n -> islice raw n = (raw, []).
Proof.
  intros H. rewrite <- (app_nil_r raw) at 1. now apply islice_exact.
Qed.

(** Reading back what was written. *)
Ltac read_back :=
  rewrite <- ?app_assoc; cbn [app]; unfold parse_bytes;
  cbn [py_getitem_0 bind];
  first
    [ change (typecode_lookup _)
        with (Ok (construct MsgLoginRequest.init LoginRequest))
    | change (typecode_lookup _)
        with (Ok (construct MsgLogoutNotification.init LogoutNotification))
    | change (typecode_lookup _)
        with (Ok (construct MsgChecklistUpdateStart.init
                    ChecklistUpdateStart))
    | change (typecode_lookup _)
        with (Ok (construct MsgChecklistVersionNotification.init
                    ChecklistVersionNotification))
    | change (typecode_lookup _)
        with (Ok (construct MsgUserQuestionStart.init UserQuestionStart))
    | change (typecode_lookup _)
        with (Ok (construct MsgSetBlockStatus.init SetBlockStatus))
    | change (typecode_lookup _)
        with (Ok (construct MsgTimeRequest.init TimeRequest))
    | change (typecode_lookup _)
        with (Ok (construct MsgTimeSet.init TimeSet)) ];
  cbn [bind]; unfold construct; unfold_inits_goal; cbn [load bind next];
  change (negb (byte_to_Z (byte_of_Z_wrap _) =? _)) with false; cbv iota;
  unfold_field_inits;
  repeat first
    [ rewrite int_of_byte_wrap by lia
    | rewrite islice_exact by apply le_bytes_length
    | rewrite islice_all by apply le_bytes_length
    | rewrite read_integer by assumption
    | progress cbn [bind next assert_exhausted] ].

Ltac from_dict N H :=
  unfold_inits H; cbn [load bind] in H; binds H; subst;
  unfold_field_inits;
  repeat match goal with
    | G : dict_getitem ?d ?k = Ok ?v,
      F : FieldInteger.init ?v ?n = Ok ?f |- _ =>
        destruct (integer_getitem_plain d k v n f N G F)
          as [->|[? ->]]; clear F
    | F : FieldInteger.init (dict_get ?d ?k PNone) ?n = Ok ?f |- _ =>
        destruct (integer_get_plain d k n f N F) as [->|[? ->]]; clear F
    end.

(** X19: for the classes login_request, logout_notification,
    checklist_update_start, checklist_version_notification,
    user_question_start, set_block_status, time_request and time_set: when a
    message built by [parse_dict] from a dict without bytes or bool values
    serialises to a buffer, [parse_bytes] reads the same message back from
    that buffer. *)
Theorem dict_message_bytes_round_trip :
  forall (rt : Runtime) (d : pydict) (m : Message) (b : list byte),
    parse_dict rt (PDict d) = Ok m ->
    no_bytes_or_bool_values d = true ->
    In (Message_TYPE m) [1; 3; 5; 10; 11; 17; 18; 19] ->
    Message_as_bytes rt m = Ok b ->
    parse_bytes rt (PBytes b) = Ok m.
Proof.
  intros rt d m b H N T B. apply parse_dict_inv in H.
  destruct H as (e & ty & He & _ & _ & H). injection He as <-.
  destruct m; try not_listed T; clear T; from_dict N H;
    unfold_as_bytes B; binds B; written; subst b; read_back;
    try reflexivity.
  subst.
  match goal with
  | |- context [py_bool ?v] => destruct (py_bool v)
  end; reflexivity.
Qed.

Lemma dict_message_bytes_round_trip_witness :
  parse_bytes rt0 (PBytes [x0b; x09; x03; x46; x00])
  = Ok (UserQuestionStart
          (MsgUserQuestionStart.mk (PInt 9) (PInt 3)
             (FieldInteger.mk 2 (PInt 70)))).
Proof.
  apply (dict_message_bytes_round_trip rt0
           [(pstr "type", pstr "user_question_start");
            (pstr "question_id", PInt 9); (pstr "segments", PInt 3);
            (pstr "length", PInt 70)]).
  - reflexivity.
  - reflexivity.
  - simpl. tauto.
  - reflexivity.
Defined.
(** ** The main program *)

Lemma io_bind_lift_ok {A B : Type} (r : result A) (a : A) (k : A -> io B)
  (self : Main) :
  r = Ok a -> io_bind (io_lift r) k self = k a self.
Proof.
  intros ->. unfold io_bind, io_lift. now destruct (k a self).
Qed.

Lemma io_bind_lift_raise {A B : Type} (r : result A) (e : exn)
  (k : A -> io B) (self : Main) :
  r = Raise e -> io_bind (io_lift r) k self = ([], Raise e).
Proof. now intros ->. Qed.

Lemma io_bind_emit {B : Type} (e : event) (k : unit -> io B) (self : Main) :
  io_bind (emit e) k self = (e :: fst (k tt self), snd (k tt self)).
Proof. unfold io_bind, emit. now destruct (k tt self). Qed.

Lemma io_bind_get {B : Type} (k : Main -> io B) (self : Main) :
  io_bind get_self k self = k self self.
Proof. unfold io_bind, get_self. now destruct (k self self). Qed.

Lemma io_bind_put {B : Type} (k : unit -> io B) (self self' : Main) :
  io_bind (put_self self') k self = k tt self'.
Proof. unfold io_bind, put_self. now destruct (k tt self'). Qed.

Lemma io_bind_lift_Ok {A B : Type} (a : A) (k : A -> io B) (self : Main) :
  io_bind (io_lift (Ok a)) k self = k a self.
Proof. now apply io_bind_lift_ok. Qed.

Lemma io_bind_emit_inv {B : Type} (e : event) (k : unit -> io B)
  (self : Main) (trace : list event) (r : result (B * Main)) :
  io_bind (emit e) k self = (trace, r) ->
  exists t, k tt self = (t, r) /\ trace = e :: t.
Proof.
  rewrite io_bind_emit. destruct (k tt self) as [t r']. cbn [fst snd].
  intros H. injection H as <- <-. now exists t.
Qed.

Lemma getitem_str_dict (d : pydict) (k : pystr) (v : pyval) :
  dict_lookup d (PStr k) = Some v -> py_getitem_str (PDict d) k = Ok v.
Proof. cbn [py_getitem_str]. unfold dict_getitem. now intros ->. Qed.

(** X20: how a login request is answered when the uid is an int and the
    user database a dict.  If the decimal text of the uid is not a key, one
    message is sent: a login response with [response] false, the same uid,
    an empty user name and profile 255.  If it is the key of an entry with
    a user name of at most 16 bytes and an int profile, one login response
    is sent with [response] true, the same uid and the name and profile of
    the entry.  The uid is nowhere checked against the width of its
    field. *)
Theorem login_request_reply :
  forall (rt : Runtime) (m : MsgLoginRequest.t) (self : Main)
         (userdb : pydict) (u : Z),
    FieldInteger.value (MsgLoginRequest.uid m) = PInt u ->
    py_getitem_str (cfg self) (lit "userdb") = Ok (PDict userdb) ->
    (dict_contains userdb (PStr (str_of_Z u)) = false ->
     process_msg_from_terminal rt (LoginRequest m) self
     = ([Log INFO;
         UtSend (ItemMessage
                   (LoginResponse
                      (MsgLoginResponse.mk (PBool false)
                         (FieldText.mk FieldUsername.SIZE (PStr []))
                         (FieldInteger.mk FieldUID.SIZE (PInt u))
                         (PInt 255))))],
        Ok (tt, self))) /\
    (forall (userinfo : pydict) (name : pystr) (e : list byte) (p : Z),
       dict_lookup userdb (PStr (str_of_Z u)) = Some (PDict userinfo) ->
       dict_lookup userinfo (pstr "username") = Some (PStr name) ->
       utf8_encode name = Ok e ->
       len e <= Z.of_nat FieldUsername.SIZE ->
       dict_lookup userinfo (pstr "profile") = Some (PInt p) ->
       process_msg_from_terminal rt (LoginRequest m) self
       = ([Log INFO;
           UtSend (ItemMessage
                     (LoginResponse
                        (MsgLoginResponse.mk (PBool true)
                           (FieldText.mk FieldUsername.SIZE (PStr name))
                           (FieldInteger.mk FieldUID.SIZE (PInt u))
                           (PInt p))))],
          Ok (tt, self))).
Proof.
  intros rt m self userdb u Hu Hdb. split.
  - intros Hk. unfold process_msg_from_terminal. rewrite io_bind_get.
    rewrite (io_bind_lift_ok _ _ _ _ Hdb). rewrite Hu.
    cbn [integer_text str_in]. rewrite Hk. rewrite io_bind_lift_Ok.
    rewrite io_bind_emit. reflexivity.
  - intros userinfo name e p Hi Hn He Hl Hp.
    unfold process_msg_from_terminal. rewrite io_bind_get.
    rewrite (io_bind_lift_ok _ _ _ _ Hdb). rewrite Hu.
    cbn [integer_text str_in]. unfold dict_contains. rewrite Hi.
    rewrite io_bind_lift_Ok. rewrite io_bind_emit.
    rewrite (io_bind_lift_ok _ _ _ _ Hdb).
    rewrite (io_bind_lift_ok _ _ _ _ (getitem_str_dict _ _ _ Hi)).
    rewrite (io_bind_lift_ok _ _ _ _ (getitem_str_dict _ (lit "username") _ Hn)).
    rewrite (io_bind_lift_ok _ _ _ _ (getitem_str_dict _ (lit "profile") _ Hp)).
    assert (Hr : MsgLoginResponse.init rt
                   (PDict [(pstr "response", PBool true);
                           (pstr "uid", PInt u);
                           (pstr "username", PStr name);
                           (pstr "profile", PInt p)])
                 = Ok (MsgLoginResponse.mk (PBool true)
                         (FieldText.mk FieldUsername.SIZE (PStr name))
                         (FieldInteger.mk FieldUID.SIZE (PInt u))
                         (PInt p))).
    { unfold MsgLoginResponse.init. cbn [load bind].
      change (check_type _ MsgLoginResponse.NAME) with (Ok tt).
      cbn [bind]. dict_read. cbn [bind py_bool].
      unfold FieldUsername.init, FieldText.init, FieldText.set_value.
      rewrite He. cbn [bind].
      destruct (len e >? Z.of_nat FieldUsername.SIZE) eqn:G;
        [rewrite Z.gtb_ltb in G; apply Z.ltb_lt in G; lia|].
      reflexivity. }
    rewrite (io_bind_lift_ok _ _ _ _ Hr). reflexivity.
Qed.

Lemma login_request_reply_witness :
  process_msg_from_terminal rt0
    (LoginRequest
       (MsgLoginRequest.mk (FieldInteger.mk 4 (PInt 7))
          (FieldInteger.mk 8 (PInt 1))))
    {| cfg := PDict [(pstr "userdb",
                      PDict [(pstr "7",
                              PDict [(pstr "username", pstr "bob");
                                     (pstr "profile", PInt 1)])])];
       checklists := []; picked_questions := [] |}
  = ([Log INFO;
      UtSend (ItemMessage
                (LoginResponse
                   (MsgLoginResponse.mk (PBool true)
                      (FieldText.mk FieldUsername.SIZE (pstr "bob"))
                      (FieldInteger.mk FieldUID.SIZE (PInt 7))
                      (PInt 1))))],
     Ok (tt,
         {| cfg := PDict [(pstr "userdb",
                           PDict [(pstr "7",
                                   PDict [(pstr "username", pstr "bob");
                                          (pstr "profile", PInt 1)])])];
            checklists := []; picked_questions := [] |})).
Proof.
  apply (proj2 (login_request_reply rt0
                  (MsgLoginRequest.mk (FieldInteger.mk 4 (PInt 7))
                     (FieldInteger.mk 8 (PInt 1)))
                  {| cfg := PDict [(pstr "userdb",
                                    PDict [(pstr "7",
                                            PDict [(pstr "username",
                                                    pstr "bob");
                                                   (pstr "profile",
                                                    PInt 1)])])];
                     checklists := []; picked_questions := [] |}
                  [(pstr "7",
                    PDict [(pstr "username", pstr "bob");
                           (pstr "profile", PInt 1)])]
                  7 eq_refl eq_refl)
           [(pstr "username", pstr "bob"); (pstr "profile", PInt 1)]
           (lit "bob") [x62; x6f; x62] 1).
  - reflexivity.
  - reflexivity.
  - reflexivity.
  - vm_compute. discriminate.
  - reflexivity.
Defined.
(** ** Commands typed at the keyboard *)

Lemma json_set_value_ok (rt : Runtime) (length : nat) (v : pyval)
  (s : pystr) :
  json_dumps rt v = Ok s -> Forall ascii_char s ->
  (List.length s <= length)%nat ->
  FieldJSON.set_value rt length v = Ok v.
Proof.
  intros Hs Ha Hl.
  assert (He : utf8_encode s = Ok (map byte_of_N_wrap s)).
  { apply utf8_encode_ascii. eapply Forall_impl; [|exact Ha].
    unfold ascii_char. intros c Hc. lia. }
  destruct v; try discriminate Hs; unfold FieldJSON.set_value;
    rewrite Hs; cbn [bind]; rewrite He; cbn [bind];
    unfold len; rewrite length_map;
    (destruct (Z.of_nat (List.length s) >? Z.of_nat length) eqn:E;
     [rewrite Z.gtb_ltb in E; apply Z.ltb_lt in E; lia | reflexivity]).
Qed.

Lemma user_question_from_dict (rt : Runtime) (qid : Z) (q : pyval)
  (s : pystr) :
  json_dumps rt q = Ok s -> Forall ascii_char s ->
  (List.length s <= FieldUserQuestion.SIZE)%nat ->
  MsgUserQuestion.init rt
    (PDict [(pstr "question_id", PInt qid); (pstr "user_question", q)])
  = Ok (MsgUserQuestion.mk (PInt qid)
          (FieldJSON.mk FieldUserQuestion.SIZE q)).
Proof.
  intros Hs Ha Hl. unfold MsgUserQuestion.init. cbn [load bind].
  change (check_type _ MsgUserQuestion.NAME) with (Ok tt). cbn [bind].
  dict_read. cbn [bind py_int]. dict_read. cbn [bind].
  unfold FieldUserQuestion.init, FieldJSON.init.
  rewrite (json_set_value_ok rt _ q s Hs Ha Hl). reflexivity.
Qed.

(** The JSON text of a dict with three entries whose last value has the
    text [s]. *)
Lemma json_dumps_message (rt : Runtime) (name : pystr) (qid : Z)
  (key : pystr) (q : pyval) (s : pystr) :
  json_dumps rt q = Ok s ->
  is_ok (json_dumps rt
           (PDict [(pstr "type", PStr name);
                   (pstr "question_id", PInt qid); (PStr key, q)]))
  = true.
Proof. intros Hs. cbn [json_dumps bind json_key]. now rewrite Hs. Qed.

(** X21: a command that starts with ["question "] is cut after 13
    characters, the length of ["new-question "], although the prefix that
    was tested has 9: the first four characters of what follows the prefix
    are lost.  The rest is split at commas into the question text and the
    responses, numbered from 0; when the JSON text of this document fits the
    4096 bytes of the field, one log record is written and the UTF-8 bytes
    of the JSON text of the message (a bytes object, not the message) are
    put on the queue of the user terminal. *)
Theorem question_command :
  forall (rt : Runtime) (os : Os) (self : Main) (rest : pystr)
         (question_text : pystr) (responses : list pystr) (s : pystr),
    ascii_floats rt ->
    str_split (skipn 4 rest) 44%N = question_text :: responses ->
    json_dumps rt
      (PDict [(pstr "text", PStr question_text);
              (pstr "responses", PDict (enumerate_dict responses))])
    = Ok s ->
    (List.length s <= 4096)%nat ->
    exists (s' : pystr) (b : list byte),
      json_dumps rt
        (PDict [(pstr "type", PStr MsgUserQuestion.NAME);
                (pstr "question_id", int_of_byte (urandom os));
                (pstr "user_question",
                 PDict [(pstr "text", PStr question_text);
                        (pstr "responses",
                         PDict (enumerate_dict responses))])])
      = Ok s' /\
      utf8_encode s' = Ok b /\
      cmd_interpreter rt os (lit "question " ++ rest) self
      = ([Log INFO; UtSend (ItemBytes b)], Ok (tt, self)).
Proof.
  intros rt os self rest question_text responses s Hf Hsplit Hs Hl.
  set (q := PDict [(pstr "text", PStr question_text);
                   (pstr "responses", PDict (enumerate_dict responses))])
    in *.
  pose proof (json_dumps_ascii rt Hf q s Hs) as Ha.
  pose proof (json_dumps_message rt MsgUserQuestion.NAME
                (byte_to_Z (urandom os)) (lit "user_question") q s Hs)
    as Hj.
  unfold int_of_byte.
  change (PStr (lit "user_question")) with (pstr "user_question") in Hj.
  destruct (json_dumps rt
              (PDict [(pstr "type", PStr MsgUserQuestion.NAME);
                      (pstr "question_id", PInt (byte_to_Z (urandom os)));
                      (pstr "user_question", q)])) as [s'|] eqn:Hs';
    [|discriminate Hj].
  pose proof (json_dumps_ascii rt Hf _ s' Hs') as Ha'.
  assert (He : utf8_encode s' = Ok (map byte_of_N_wrap s')).
  { apply utf8_encode_ascii. eapply Forall_impl; [|exact Ha'].
    unfold ascii_char. intros c Hc. lia. }
  exists s', (map byte_of_N_wrap s').
  split; [reflexivity|]. split; [exact He|].
  unfold cmd_interpreter.
  change (list_eqb N.eqb (lit "question " ++ rest) (lit "update checklist"))
    with false.
  change (str_find_sub (lit "question " ++ rest) (lit "question ") =? 0)
    with true.
  change (skipn (List.length (lit "new-question "))
            (lit "question " ++ rest)) with (skipn 4 rest).
  cbv iota. rewrite Hsplit. cbn [unpack_first]. rewrite io_bind_lift_Ok.
  cbv beta iota. fold q. unfold int_of_byte.
  rewrite (io_bind_lift_ok _ _ _ _
             (user_question_from_dict rt (byte_to_Z (urandom os)) q s
                Hs Ha Hl)).
  rewrite io_bind_emit.
  unfold MsgUserQuestion.as_json, MsgUserQuestion.as_dict.
  cbn [MsgUserQuestion.question_id MsgUserQuestion.user_question
         FieldJSON.value FieldJSON._value].
  rewrite (io_bind_lift_ok _ _ _ _ Hs').
  rewrite (io_bind_lift_ok _ _ _ _ He).
  reflexivity.
Qed.

Lemma question_command_witness :
  exists (s' : pystr) (b : list byte),
    json_dumps rt0
      (PDict [(pstr "type", PStr MsgUserQuestion.NAME);
              (pstr "question_id",
               int_of_byte (urandom {| choose := fun _ _ => [];
                                       urandom := x07 |}));
              (pstr "user_question",
               PDict [(pstr "text", PStr (lit "y?"));
                      (pstr "responses",
                       PDict (enumerate_dict [lit "yes"; lit "no"]))])])
    = Ok s' /\
    utf8_encode s' = Ok b /\
    cmd_interpreter rt0 {| choose := fun _ _ => []; urandom := x07 |}
      (lit "question " ++ lit "Ready?,yes,no")
      {| cfg := PDict []; checklists := []; picked_questions := [] |}
    = ([Log INFO; UtSend (ItemBytes b)],
       Ok (tt, {| cfg := PDict []; checklists := [];
                  picked_questions := [] |})).
Proof.
  eapply (question_command rt0 {| choose := fun _ _ => []; urandom := x07 |}
            {| cfg := PDict []; checklists := []; picked_questions := [] |}
            (lit "Ready?,yes,no") (lit "y?") [lit "yes"; lit "no"]).
  - intros q. constructor.
  - reflexivity.
  - reflexivity.
  - vm_compute. lia.
Defined.

(** Following a method of [Main] that has returned or raised. *)
Ltac io_inv H :=
  repeat
    (cbv beta iota in H;
     lazymatch type of H with
     | io_bind (io_lift ?r) _ _ = _ =>
         let E := fresh "E" in
         destruct r eqn:E;
         [ rewrite io_bind_lift_Ok in H
         | rewrite (io_bind_lift_raise _ _ _ _ eq_refl) in H ]
     | io_bind (emit _) _ _ = _ =>
         let t := fresh "t" in let K := fresh "K" in
         apply io_bind_emit_inv in H; destruct H as (t & H & K)
     | io_bind get_self _ _ = _ => rewrite io_bind_get in H
     | io_bind (put_self _) _ _ = _ => rewrite io_bind_put in H
     | (let '(_, _) := ?p in _) _ = _ => destruct p
     | emit _ _ = _ => unfold emit in H
     end).

(** X22: whatever a command other than ["update checklist"] puts on the
    queue of the user terminal is a bytes object, and the terminal never
    transmits it: with a client connected [msg.as_json()] raises
    [AttributeError] before [client.send] is called, and without a client
    the item comes back in a [user_undelivered] frame. *)
Theorem typed_command_never_transmitted :
  forall (rt : Runtime) (os : Os) (cmd : pystr) (self : Main)
         (trace : list event) (r : result (unit * Main))
         (item : queue_item),
    list_eqb N.eqb cmd (lit "update checklist") = false ->
    cmd_interpreter rt os cmd self = (trace, r) ->
    In (UtSend item) trace ->
    (exists b, item = ItemBytes b) /\
    (forall send delay,
       subproc_outbound rt (Some send) (Some item) delay
       = ([], Raise AttributeError)) /\
    (forall delay,
       subproc_outbound rt None (Some item) delay
       = ([MgrPut (lit "user_undelivered") item], Ok delay)).
Proof.
  intros rt os cmd self trace r item Hu H Hin.
  assert (Hb : exists b, item = ItemBytes b).
  { unfold cmd_interpreter in H. rewrite Hu in H.
    destruct (str_find_sub cmd (lit "question ") =? 0).
    - io_inv H; injection H as <- <-; subst; cbn [In] in Hin;
        repeat (destruct Hin as [Hin|Hin]; try discriminate Hin);
        try contradiction.
      injection Hin as <-. now eexists.
    - destruct (str_find_sub cmd (lit "send checklist version") =? 0).
      + io_inv H; injection H as <- <-; subst; cbn [In] in Hin;
          repeat (destruct Hin as [Hin|Hin]; try discriminate Hin);
          try contradiction.
        injection Hin as <-. now eexists.
      + io_inv H. injection H as <- <-. cbn [In] in Hin.
        destruct Hin as [Hin|Hin]; [discriminate Hin|contradiction]. }
  destruct Hb as [b ->]. split; [now exists b|]. split; reflexivity.
Qed.

Lemma typed_command_never_transmitted_witness :
  (exists b,
     ItemBytes
       (map byte_of_N_wrap
          (lit "{" ++ quoted (lit "type") ++ lit ": " ++
           quoted (lit "checklist_version_notification") ++ lit ", " ++
           quoted (lit "checklist_version") ++ lit ": 0}"))
     = ItemBytes b) /\
  (forall send delay,
     subproc_outbound rt0 (Some send)
       (Some (ItemBytes
                (map byte_of_N_wrap
                   (lit "{" ++ quoted (lit "type") ++ lit ": " ++
                    quoted (lit "checklist_version_notification") ++
                    lit ", " ++ quoted (lit "checklist_version") ++
                    lit ": 0}")))) delay
     = ([], Raise AttributeError)) /\
  (forall delay,
     subproc_outbound rt0 None
       (Some (ItemBytes
                (map byte_of_N_wrap
                   (lit "{" ++ quoted (lit "type") ++ lit ": " ++
                    quoted (lit "checklist_version_notification") ++
                    lit ", " ++ quoted (lit "checklist_version") ++
                    lit ": 0}")))) delay
     = ([MgrPut (lit "user_undelivered")
           (ItemBytes
              (map byte_of_N_wrap
                 (lit "{" ++ quoted (lit "type") ++ lit ": " ++
                  quoted (lit "checklist_version_notification") ++
                  lit ", " ++ quoted (lit "checklist_version") ++
                  lit ": 0}")))],
        Ok delay)).
Proof.
  apply (typed_command_never_transmitted rt0
           {| choose := fun _ _ => []; urandom := x07 |}
           (lit "send checklist version")
           {| cfg := PDict []; checklists := []; picked_questions := [] |}
           [Log INFO;
            UtSend
              (ItemBytes
                 (map byte_of_N_wrap
                    (lit "{" ++ quoted (lit "type") ++ lit ": " ++
                     quoted (lit "checklist_version_notification") ++
                     lit ", " ++ quoted (lit "checklist_version") ++
                     lit ": 0}")))]
           (Ok (tt, {| cfg := PDict []; checklists := [];
                       picked_questions := [] |}))).
  - reflexivity.
  - vm_compute. reflexivity.
  - right. left. reflexivity.
Defined.
(** ** Sending the current checklist *)

Lemma json_dumps_three (rt : Runtime) (name key2 : pystr) (n : Z)
  (key3 : pystr) (q : pyval) (s : pystr) :
  json_dumps rt q = Ok s ->
  is_ok (json_dumps rt
           (PDict [(pstr "type", PStr name); (PStr key2, PInt n);
                   (PStr key3, q)]))
  = true.
Proof. intros Hs. cbn [json_dumps bind json_key]. now rewrite Hs. Qed.

Lemma checklist_update_from_dict (rt : Runtime) (version : Z) (q : pyval)
  (s : pystr) :
  json_dumps rt q = Ok s -> Forall ascii_char s ->
  (List.length s <= FieldChecklistData.SIZE)%nat ->
  MsgChecklistUpdate.init rt
    (PDict [(pstr "checklist_version", PInt version);
            (pstr "checklist_data", q)])
  = Ok (MsgChecklistUpdate.mk (PInt version)
          (FieldJSON.mk FieldChecklistData.SIZE q)).
Proof.
  intros Hs Ha Hl. unfold MsgChecklistUpdate.init. cbn [load bind].
  change (check_type _ MsgChecklistUpdate.NAME) with (Ok tt). cbn [bind].
  dict_read. cbn [bind py_int]. dict_read. cbn [bind].
  unfold FieldChecklistData.init, FieldJSON.init.
  rewrite (json_set_value_ok rt _ q s Hs Ha Hl). reflexivity.
Qed.

(** When the questions picked exist and their JSON text fits the field,
    [send_current_checklist] logs the text and sends one checklist update
    that carries the number of checklists as its version. *)
Lemma send_current_checklist_sends (rt : Runtime) (self : Main)
  (qs : list pyval) (s : pystr) :
  ascii_floats rt ->
  questions_picked (cfg self) (picked_questions self) = Ok qs ->
  json_dumps rt (PList qs) = Ok s ->
  (List.length s <= 4096)%nat ->
  send_current_checklist rt self
  = ([Log INFO;
      UtSend (ItemMessage
                (ChecklistUpdate
                   (MsgChecklistUpdate.mk (PInt (len (checklists self)))
                      (FieldJSON.mk FieldChecklistData.SIZE (PList qs)))))],
     Ok (tt, self)).
Proof.
  intros Hf Hq Hs Hl. unfold send_current_checklist.
  rewrite io_bind_get. rewrite (io_bind_lift_ok _ _ _ _ Hq).
  pose proof (json_dumps_ascii rt Hf _ s Hs) as Ha.
  rewrite (io_bind_lift_ok _ _ _ _
             (checklist_update_from_dict rt (len (checklists self))
                (PList qs) s Hs Ha Hl)).
  unfold MsgChecklistUpdate.as_json, MsgChecklistUpdate.as_dict.
  cbn [MsgChecklistUpdate.checklist_version
         MsgChecklistUpdate.checklist_data FieldJSON.value
         FieldJSON._value].
  pose proof (json_dumps_three rt MsgChecklistUpdate.NAME
                (lit "checklist_version") (len (checklists self))
                (lit "checklist_data") (PList qs) s Hs) as Hj.
  change (PStr (lit "checklist_version")) with (pstr "checklist_version")
    in Hj.
  change (PStr (lit "checklist_data")) with (pstr "checklist_data") in Hj.
  destruct (json_dumps rt _) as [s'|] eqn:Hs' in Hj; [|discriminate Hj].
  rewrite (io_bind_lift_ok _ _ _ _ Hs'). rewrite io_bind_emit.
  reflexivity.
Qed.

(** X23: a checklist version notification whose version equals the number
    of checklists created is only logged; any other version is answered by
    sending the current checklist, as one checklist update whose version is
    the number of checklists created. *)
Theorem checklist_version_sync :
  forall (rt : Runtime) (m : MsgChecklistVersionNotification.t)
         (self : Main),
    (py_eqb (MsgChecklistVersionNotification.checklist_version m)
       (PInt (len (checklists self))) = true ->
     process_msg_from_terminal rt (ChecklistVersionNotification m) self
     = ([Log INFO; Log INFO], Ok (tt, self))) /\
    (forall (qs : list pyval) (s : pystr),
       py_eqb (MsgChecklistVersionNotification.checklist_version m)
         (PInt (len (checklists self))) = false ->
       ascii_floats rt ->
       questions_picked (cfg self) (picked_questions self) = Ok qs ->
       json_dumps rt (PList qs) = Ok s ->
       (List.length s <= 4096)%nat ->
       process_msg_from_terminal rt (ChecklistVersionNotification m) self
       = ([Log INFO; Log INFO; Log INFO;
           UtSend (ItemMessage
                     (ChecklistUpdate
                        (MsgChecklistUpdate.mk
                           (PInt (len (checklists self)))
                           (FieldJSON.mk FieldChecklistData.SIZE
                              (PList qs)))))],
          Ok (tt, self))).
Proof.
  intros rt m self. split.
  - intros E. unfold process_msg_from_terminal. rewrite io_bind_get.
    rewrite io_bind_emit. rewrite E. reflexivity.
  - intros qs s E Hf Hq Hs Hl. unfold process_msg_from_terminal.
    rewrite io_bind_get. rewrite io_bind_emit. rewrite E. cbn [negb].
    rewrite io_bind_emit.
    rewrite (send_current_checklist_sends rt self qs s Hf Hq Hs Hl).
    reflexivity.
Qed.

Lemma checklist_version_sync_witness :
  process_msg_from_terminal rt0
    (ChecklistVersionNotification
       (MsgChecklistVersionNotification.mk (PInt 0)))
    {| cfg := PDict [(pstr "checklist_questions",
                      PList [pstr "Brakes?"; pstr "Lights?"])];
       checklists := [[1]]; picked_questions := [1] |}
  = ([Log INFO; Log INFO; Log INFO;
      UtSend (ItemMessage
                (ChecklistUpdate
                   (MsgChecklistUpdate.mk (PInt 1)
                      (FieldJSON.mk FieldChecklistData.SIZE
                         (PList [pstr "Lights?"])))))],
     Ok (tt,
         {| cfg := PDict [(pstr "checklist_questions",
                           PList [pstr "Brakes?"; pstr "Lights?"])];
            checklists := [[1]]; picked_questions := [1] |})).
Proof.
  eapply (proj2 (checklist_version_sync rt0
                   (MsgChecklistVersionNotification.mk (PInt 0))
                   {| cfg := PDict [(pstr "checklist_questions",
                                     PList [pstr "Brakes?";
                                            pstr "Lights?"])];
                      checklists := [[1]]; picked_questions := [1] |})
            [pstr "Lights?"]).
  - reflexivity.
  - intros q. constructor.
  - reflexivity.
  - reflexivity.
  - vm_compute. lia.
Defined.

Lemma list_getitem_in_range {A : Type} (l : list A) (i : Z) (d : A) :
  0 <= i < len l -> list_getitem l i = Ok (nth (Z.to_nat i) l d).
Proof.
  intros H. unfold list_getitem.
  destruct (i <? 0) eqn:E; [apply Z.ltb_lt in E; lia|]. rewrite E.
  destruct (nth_error l (Z.to_nat i)) as [x|] eqn:N.
  - now rewrite (nth_error_nth _ _ d N).
  - apply nth_error_None in N. unfold len in H. lia.
Qed.

Lemma questions_picked_in_range (c : pyval) (questions : list pyval)
  (picked : list Z) :
  py_getitem_str c (lit "checklist_questions") = Ok (PList questions) ->
  Forall (fun i => 0 <= i < len questions) picked ->
  questions_picked c picked
  = Ok (map (fun i => nth (Z.to_nat i) questions PNone) picked).
Proof.
  intros Hq. induction 1 as [|i picked Hi Hall IH]; [reflexivity|].
  cbn [questions_picked map]. rewrite Hq. cbn [bind py_getitem_int].
  rewrite (list_getitem_in_range questions i PNone Hi). cbn [bind].
  rewrite IH. reflexivity.
Qed.

(** X24: the command ["update checklist"], when the configuration holds a
    list of questions and a number [k] of questions to pick that is between
    0 and the length of the list, and [random.sample] returns indices into
    the list: the indices are stored as the picked questions and appended
    to the checklists, and one checklist update is sent whose version is the
    new number of checklists and whose data are the questions picked, in
    the order picked (provided their JSON text fits the 4096 bytes of the
    field). *)
Theorem update_checklist_command :
  forall (rt : Runtime) (os : Os) (self : Main) (questions : list pyval)
         (k : Z) (s : pystr),
    ascii_floats rt ->
    py_getitem_str (cfg self) (lit "checklist_questions")
    = Ok (PList questions) ->
    py_getitem_str (cfg self) (lit "checklist_num_questions")
    = Ok (PInt k) ->
    0 <= k <= len questions ->
    Forall (fun i => 0 <= i < len questions)
      (choose os (len questions) k) ->
    json_dumps rt
      (PList (map (fun i => nth (Z.to_nat i) questions PNone)
                (choose os (len questions) k))) = Ok s ->
    (List.length s <= 4096)%nat ->
    cmd_interpreter rt os (lit "update checklist") self
    = ([Log INFO;
        UtSend (ItemMessage
                  (ChecklistUpdate
                     (MsgChecklistUpdate.mk
                        (PInt (len (checklists self) + 1))
                        (FieldJSON.mk FieldChecklistData.SIZE
                           (PList
                              (map (fun i =>
                                      nth (Z.to_nat i) questions PNone)
                                 (choose os (len questions) k)))))))],
       Ok (tt,
           {| cfg := cfg self;
              checklists :=
                checklists self ++ [choose os (len questions) k];
              picked_questions := choose os (len questions) k |})).
Proof.
  intros rt os self questions k s Hf Hq Hk Hr Hall Hs Hl.
  unfold cmd_interpreter.
  change (list_eqb N.eqb (lit "update checklist") (lit "update checklist"))
    with true. cbv iota.
  unfold create_new_checklist. rewrite io_bind_get.
  rewrite (io_bind_lift_ok _ _ _ _ Hq). cbn [py_len].
  rewrite io_bind_lift_Ok. rewrite (io_bind_lift_ok _ _ _ _ Hk).
  unfold random_sample.
  destruct (k <? 0) eqn:E1; [apply Z.ltb_lt in E1; lia|].
  destruct (len questions <? k) eqn:E2; [apply Z.ltb_lt in E2; lia|].
  cbn [orb]. rewrite io_bind_lift_Ok. rewrite io_bind_put.
  rewrite (send_current_checklist_sends rt
             {| cfg := cfg self;
                checklists :=
                  checklists self ++ [choose os (len questions) k];
                picked_questions := choose os (len questions) k |}
             _ s Hf
             (questions_picked_in_range (cfg self) questions _ Hq Hall)
             Hs Hl).
  cbn [checklists]. unfold len. rewrite length_app. cbn [List.length].
  rewrite Nat2Z.inj_add. reflexivity.
Qed.

Lemma update_checklist_command_witness :
  cmd_interpreter rt0 {| choose := fun _ _ => [1]; urandom := x00 |}
    (lit "update checklist")
    {| cfg := PDict [(pstr "checklist_questions",
                      PList [pstr "Brakes?"; pstr "Lights?"]);
                     (pstr "checklist_num_questions", PInt 1)];
       checklists := []; picked_questions := [] |}
  = ([Log INFO;
      UtSend (ItemMessage
                (ChecklistUpdate
                   (MsgChecklistUpdate.mk (PInt (len (@nil (list Z)) + 1))
                      (FieldJSON.mk FieldChecklistData.SIZE
                         (PList
                            (map (fun i =>
                                    nth (Z.to_nat i)
                                      [pstr "Brakes?"; pstr "Lights?"]
                                      PNone) [1]))))))],
     Ok (tt,
         {| cfg := PDict [(pstr "checklist_questions",
                           PList [pstr "Brakes?"; pstr "Lights?"]);
                          (pstr "checklist_num_questions", PInt 1)];
            checklists := [] ++ [[1]]; picked_questions := [1] |})).
Proof.
  eapply (update_checklist_command rt0
            {| choose := fun _ _ => [1]; urandom := x00 |}
            {| cfg := PDict [(pstr "checklist_questions",
                              PList [pstr "Brakes?"; pstr "Lights?"]);
                             (pstr "checklist_num_questions", PInt 1)];
               checklists := []; picked_questions := [] |}
            [pstr "Brakes?"; pstr "Lights?"] 1).
  - intros q. constructor.
  - reflexivity.
  - reflexivity.
  - vm_compute. split; discriminate.
  - repeat constructor; vm_compute; discriminate.
  - reflexivity.
  - vm_compute. lia.
Defined.
